(** * Invoice quality control: extraction helpers, rule engine and report
      aggregation of [backend/invoice_qc], embedded in Rocq.

    The development follows the Python sources file by file:
    - [models.py]    : the records [LineItem], [Invoice], [ValidationError], ...
    - [rules.py]     : the rule classes and the catalogue [ALL_RULES]
    - [validator.py] : [InvoiceValidator]
    - [extractor.py] : [InvoiceExtractor] (currency, dates, amounts, tables)

    Python values are modelled as follows.  A [str] is the list of its Unicode
    code points; a [float] is an IEEE-754 binary64 number (Rocq's primitive
    floats); [Optional[T]] is [option T]; a [dict] is a [gmap]; an exception
    is the [Raise] branch of the [res] monad. *)

From Stdlib Require Import ZArith NArith List Ascii String DecimalString Bool Lia Floats.
From stdpp Require Import base option list gmap.
Import ListNotations.

(* Decimal float literals denote the nearest binary64 number, as in Python. *)
#[local] Set Warnings "-inexact-float".

Local Open Scope list_scope.
Local Open Scope N_scope.

(** ** The Python runtime: strings *)

Definition char : Type := N.
Definition str : Type := list char.

(** A literal of the source, written in ASCII. *)
Definition lit (s : string) : str :=
  map N_of_ascii (list_ascii_of_string s).
Arguments lit s%_string.

Definition char_eqb (a b : char) : bool := N.eqb a b.

Fixpoint str_eqb (a b : str) : bool :=
  match a, b with
  | [], [] => true
  | x :: a', y :: b' => char_eqb x y && str_eqb a' b'
  | _, _ => false
  end.

(** [a == b] on [Optional[str]] fields ([None == None] holds). *)
Definition opt_str_eqb (a b : option str) : bool :=
  match a, b with
  | None, None => true
  | Some x, Some y => str_eqb x y
  | _, _ => false
  end.

(** [str.isspace] for one code point: the characters [str.strip()] removes
    and the regular expression class [\s] matches. *)
Definition isspace (c : char) : bool :=
  ((9 <=? c) && (c <=? 13)) || ((28 <=? c) && (c <=? 32))
  || (c =? 133) || (c =? 160) || (c =? 5760)
  || ((8192 <=? c) && (c <=? 8202))
  || (c =? 8232) || (c =? 8233) || (c =? 8239) || (c =? 8287) || (c =? 12288).

Fixpoint lstrip (s : str) : str :=
  match s with
  | c :: s' => if isspace c then lstrip s' else s
  | [] => []
  end.

Definition rstrip (s : str) : str := rev (lstrip (rev s)).

(** [s.strip()] *)
Definition strip (s : str) : str := rstrip (lstrip s).

(** [s.replace(c, '')] for a one-character [c]. *)
Definition remove_char (c : char) (s : str) : str :=
  List.filter (fun x => negb (char_eqb x c)) s.

Fixpoint starts_with (p s : str) : bool :=
  match p, s with
  | [], _ => true
  | x :: p', y :: s' => char_eqb x y && starts_with p' s'
  | _ :: _, [] => false
  end.

(** [needle in hay] *)
Fixpoint contains (needle hay : str) : bool :=
  starts_with needle hay ||
  match hay with
  | [] => false
  | _ :: hay' => contains needle hay'
  end.

(** [sep.join(xs)] *)
Fixpoint join (sep : str) (xs : list str) : str :=
  match xs with
  | [] => []
  | [x] => x
  | x :: xs' => x ++ sep ++ join sep xs'
  end.

(** [s.split(c)[0]]: the text before the first [c]. *)
Fixpoint before_first (c : char) (s : str) : str :=
  match s with
  | [] => []
  | x :: s' => if char_eqb x c then [] else x :: before_first c s'
  end.

(** Truth value of an [Optional[str]]: [None] and [''] are false. *)
Definition truthy (c : option str) : bool :=
  match c with
  | Some (_ :: _) => true
  | _ => false
  end.

(** [x or y] on [Optional[str]]. *)
Definition or_else (a b : option str) : option str :=
  if truthy a then a else b.

(** Interpolation of an [Optional[str]] in an f-string. *)
Definition fmt_opt (a : option str) : str :=
  match a with
  | Some s => s
  | None => lit "None"
  end.

Definition is_ascii_digit (c : char) : bool := (48 <=? c) && (c <=? 57).
Definition is_ascii_upper (c : char) : bool := (65 <=? c) && (c <=? 90).
Definition is_ascii_lower (c : char) : bool := (97 <=? c) && (c <=? 122).
Definition ascii_lower_char (c : char) : char :=
  if is_ascii_upper c then c + 32 else c.

(** Decimal rendering of a natural number. *)
Definition str_of_N (n : N) : str :=
  lit (NilEmpty.string_of_uint (N.to_uint n)).

(** [n] rendered on at least [w] digits, zero padded ([%02d], [%04d]). *)
Definition zero_pad (w : nat) (n : N) : str :=
  let d := str_of_N n in
  repeat 48 (w - length d) ++ d.

(** ** The Python runtime: exceptions *)

Inductive exn : Type :=
| ValueError
| TypeError
| IndexError
| AttributeError.

Inductive res (A : Type) : Type :=
| Ok (a : A)
| Raise (e : exn).
Arguments Ok {A} a.
Arguments Raise {A} e.

(** Sequencing: [x ← m; k] runs [k] unless [m] raised. *)
Global Instance res_ret : MRet res := fun _ a => Ok a.
Global Instance res_bind : MBind res := fun _ _ k m =>
  match m with
  | Ok a => k a
  | Raise e => Raise e
  end.

(** [try: body  except: handler] with a bare [except]. *)
Definition try_except {A} (body : res A) (handler : res A) : res A :=
  match body with
  | Ok a => Ok a
  | Raise _ => handler
  end.

(** A [for] loop whose body may raise, threading the loop state. *)
Fixpoint for_each {A S} (body : S -> A -> res S) (xs : list A) (s : S) : res S :=
  match xs with
  | [] => Ok s
  | x :: xs' => s' ← body s x; for_each body xs' s'
  end.

(** ** The Python runtime: floats

    A Python [float] is an IEEE-754 binary64 number, which is what Rocq's
    primitive [float] is: [+], [-], [abs] and the comparisons below are the
    hardware operations, rounding included. *)

Definition float_gt (a b : float) : bool := PrimFloat.ltb b a.
Definition float_lt (a b : float) : bool := PrimFloat.ltb a b.
Definition float_le (a b : float) : bool := PrimFloat.leb a b.

(** [sum(xs)]: the additions are done left to right, starting from [0]
    (interpreters from 3.12 on add the same terms with a compensated
    rounding). *)
Definition py_sum (xs : list float) : float :=
  fold_left PrimFloat.add xs PrimFloat.zero.

(** The binary64 number nearest to [(-1)^neg * m * 10^e10], ties to even:
    what [float()] returns for a decimal numeral with digits [m] and decimal
    exponent [e10].  Numerals beyond the range of the format go to infinity
    or zero before any power of ten is computed. *)
Definition float_of_decimal (neg : bool) (m : N) (e10 : Z) : float :=
  match m with
  | N0 => if neg then PrimFloat.neg_zero else PrimFloat.zero
  | Npos p =>
      let nd := Z.of_nat (length (str_of_N m)) in
      if (310 <? nd + e10)%Z then
        (if neg then PrimFloat.neg_infinity else PrimFloat.infinity)
      else if (nd + e10 <? -330)%Z then
        (if neg then PrimFloat.neg_zero else PrimFloat.zero)
      else if (0 <=? e10)%Z then
        SF2Prim (binary_normalize prec emax
                   (if neg then Z.opp (Zpos p * 10 ^ e10) else Zpos p * 10 ^ e10)%Z
                   0%Z false)
      else
        let d := (10 ^ (- e10))%Z in
        let s := (64 + Z.log2_up d)%Z in
        let n := (Zpos p * 2 ^ s)%Z in
        let q := (n / d)%Z in
        let r := (n mod d)%Z in
        let l := if (r =? 0)%Z then loc_Exact else loc_Inexact (2 * r ?= d)%Z in
        SF2Prim (binary_round_aux prec emax neg q (- s)%Z l)
  end.

(** [round(m * 2^e)] to an integer, ties to even. *)
Definition round_half_even (m : N) (e : Z) : N :=
  if (0 <=? e)%Z then m * 2 ^ Z.to_N e
  else
    let d := 2 ^ Z.to_N (- e) in
    let q := m / d in
    let r := m mod d in
    match 2 * r ?= d with
    | Lt => q
    | Gt => q + 1
    | Eq => if N.even q then q else q + 1
    end.

(** [format(x, '.2f')]: [x] rounded to two decimals from its exact value. *)
Definition format_2f (x : float) : str :=
  let sign (s : bool) := if s then lit "-" else [] in
  match Prim2SF x with
  | S754_nan => lit "nan"
  | S754_infinity s => sign s ++ lit "inf"
  | S754_zero s => sign s ++ lit "0.00"
  | S754_finite s m e =>
      let n := round_half_even (Npos m * 100) e in
      sign s ++ str_of_N (n / 100) ++ lit "." ++ zero_pad 2 (n mod 100)
  end.

(** [num/den] divided by [10^s], as a fraction. *)
Definition scaled (num den : N) (s : Z) : N * N :=
  if (0 <=? s)%Z then (num, den * 10 ^ Z.to_N s)
  else (num * 10 ^ Z.to_N (- s), den).

(** The largest [p] with [10^p <= num/den], for [num/den > 0]. *)
Definition decimal_exponent (num den : N) : Z :=
  let p := (Z.of_nat (length (str_of_N num)) - Z.of_nat (length (str_of_N den)))%Z in
  let '(a, b) := scaled num den p in
  if b <=? a then p else (p - 1)%Z.

(** The digits [q] and exponent [s] of the shortest numeral [q * 10^s] that
    reads back as [x = num/den], trying [k], [k+1], ... digits. *)
Fixpoint shortest_digits (x : float) (num den : N) (p : Z) (k fuel : nat) : N * Z :=
  let s := (p - Z.of_nat k + 1)%Z in
  let '(a, b) := scaled num den s in
  let q := a / b in
  let r := a mod b in
  let reads_back v := PrimFloat.Leibniz.eqb (float_of_decimal false v s) x in
  let lo := reads_back q in
  let hi := negb (r =? 0) && reads_back (q + 1) in
  match fuel with
  | O => (q, s)
  | S fuel' =>
      if lo && hi then
        match 2 * r ?= b with
        | Lt => (q, s)
        | Gt => (q + 1, s)
        | Eq => if N.even q then (q, s) else (q + 1, s)
        end
      else if lo then (q, s)
      else if hi then (q + 1, s)
      else shortest_digits x num den p (S k) fuel'
  end.

(** The text without its leading zeros. *)
Fixpoint drop_zeros (s : str) : str :=
  match s with
  | c :: s' => if c =? 48 then drop_zeros s' else s
  | [] => []
  end.

(** [repr(x)], what an f-string writes for a float without a format: the
    shortest decimal numeral that reads back as [x] (the nearest to [x] if
    several are as short), in positional notation when its decimal point falls
    within [-4 < decpt <= 16] and in exponent notation otherwise. *)
Definition float_repr (x : float) : str :=
  let sign (s : bool) := if s then lit "-" else [] in
  match Prim2SF x with
  | S754_nan => lit "nan"
  | S754_infinity s => sign s ++ lit "inf"
  | S754_zero s => sign s ++ lit "0.0"
  | S754_finite s m e =>
      let '(num, den) :=
        if (0 <=? e)%Z then (Npos m * 2 ^ Z.to_N e, 1)
        else (Npos m, 2 ^ Z.to_N (- e)) in
      let '(q, s10) :=
        shortest_digits (PrimFloat.abs x) num den (decimal_exponent num den) 1 17 in
      let all := str_of_N q in
      let digits := rev (drop_zeros (rev all)) in
      let nd := length digits in
      let decpt := (Z.of_nat (length all) + s10)%Z in
      sign s ++
      if (decpt <=? -4)%Z || (16 <? decpt)%Z then
        let e10 := (decpt - 1)%Z in
        firstn 1 digits
        ++ (if Nat.ltb 1 nd then lit "." ++ skipn 1 digits else [])
        ++ lit "e" ++ (if (e10 <? 0)%Z then lit "-" else lit "+")
        ++ zero_pad 2 (Z.to_N (Z.abs e10))
      else if (decpt <=? 0)%Z then
        lit "0." ++ repeat 48 (Z.to_nat (- decpt)) ++ digits
      else if (Z.of_nat nd <=? decpt)%Z then
        digits ++ repeat 48 (Z.to_nat decpt - nd) ++ lit ".0"
      else
        firstn (Z.to_nat decpt) digits ++ lit "." ++ skipn (Z.to_nat decpt) digits
  end.

(** ** What the sources take from the interpreter and its libraries

    The Unicode character database and [datetime.fromisoformat] are not part
    of the repository; every result below holds whatever they are. *)
Class Runtime := {
  (** value of a non-ASCII decimal digit (general category Nd) *)
  unicode_decimal : char -> option N;
  (** [str.isalnum] of a non-ASCII code point *)
  unicode_alnum : char -> bool;
  (** [str.lower] *)
  str_lower : str -> str;
  (** [datetime.datetime] and the three uses the rules make of it;
      [dt_lt] raises when one side carries a time zone and the other none *)
  datetime : Type;
  fromisoformat : str -> res datetime;
  dt_year : datetime -> Z;
  dt_lt : datetime -> datetime -> res bool;
}.

(** ** The Python runtime: [float(s)] *)

Section PyFloat.
Context {RT : Runtime}.

(** White space of the C locale, which [float()] strips on both sides. *)
Definition c_isspace (c : char) : bool :=
  ((9 <=? c) && (c <=? 13)) || (c =? 32).

(** Non-ASCII spaces become a blank and non-ASCII decimal digits their ASCII
    digit; at any other non-ASCII character the text is cut after a [?]. *)
Fixpoint transform_decimal_and_space (s : str) : str :=
  match s with
  | [] => []
  | c :: s' =>
      if c <? 128 then c :: transform_decimal_and_space s'
      else if isspace c then 32 :: transform_decimal_and_space s'
      else match unicode_decimal c with
           | Some d => (48 + d) :: transform_decimal_and_space s'
           | None => [63]
           end
  end.

(** Underscores are dropped; each must stand between two digits. *)
Fixpoint drop_underscores (prev : char) (s : str) : res str :=
  match s with
  | [] => if prev =? 95 then Raise ValueError else Ok []
  | c :: s' =>
      if c =? 95 then
        if is_ascii_digit prev then drop_underscores c s' else Raise ValueError
      else if (prev =? 95) && negb (is_ascii_digit c) then Raise ValueError
      else r ← drop_underscores c s'; Ok (c :: r)
  end.

Fixpoint c_lstrip (s : str) : str :=
  match s with
  | c :: s' => if c_isspace c then c_lstrip s' else s
  | [] => []
  end.

Definition parse_sign (s : str) : bool * str :=
  match s with
  | c :: s' => if c =? 45 then (true, s') else if c =? 43 then (false, s') else (false, s)
  | [] => (false, [])
  end.

Fixpoint span_digits (s : str) : str * str :=
  match s with
  | c :: s' =>
      if is_ascii_digit c then let '(d, r) := span_digits s' in (c :: d, r)
      else ([], s)
  | [] => ([], [])
  end.

Definition N_of_digits (ds : str) : N :=
  fold_left (fun a c => 10 * a + (c - 48)) ds 0.

(** The numeral grammar: [sign? (inf | infinity | nan)] without regard to
    case, or [sign? digits? (. digits?)? ((e|E) sign? digits)?] with a digit
    in the mantissa; the whole text must be used. *)
Definition parse_float_ascii (s : str) : res float :=
  let '(neg, s1) := parse_sign s in
  let low := map ascii_lower_char s1 in
  if str_eqb low (lit "inf") || str_eqb low (lit "infinity") then
    Ok (if neg then PrimFloat.neg_infinity else PrimFloat.infinity)
  else if str_eqb low (lit "nan") then Ok PrimFloat.nan
  else
    let '(ip, s2) := span_digits s1 in
    let '(fp, s3) :=
      match s2 with
      | c :: s2' => if c =? 46 then span_digits s2' else ([], s2)
      | [] => ([], [])
      end in
    let frac := Z.of_nat (length fp) in
    match ip ++ fp with
    | [] => Raise ValueError
    | ds =>
        match s3 with
        | [] => Ok (float_of_decimal neg (N_of_digits ds) (- frac)%Z)
        | c :: s4 =>
            if (c =? 101) || (c =? 69) then
              let '(eneg, s5) := parse_sign s4 in
              let '(ed, s6) := span_digits s5 in
              let e := Z.of_N (N_of_digits ed) in
              match ed, s6 with
              | _ :: _, [] =>
                  Ok (float_of_decimal neg (N_of_digits ds)
                        ((if eneg then - e else e) - frac)%Z)
              | _, _ => Raise ValueError
              end
            else Raise ValueError
        end
    end.

(** [float(s)] for a [str]; [ValueError] when [s] is not a numeral. *)
Definition py_float (s : str) : res float :=
  d ← drop_underscores 0 (transform_decimal_and_space s);
  match c_lstrip d with
  | [] => Raise ValueError
  | body => parse_float_ascii (rev (c_lstrip (rev body)))
  end.
End PyFloat.

(** ** models.py *)

Record LineItem := {
  description : option str;
  quantity : option float;
  unit_price : option float;
  line_total : option float;
}.

(** [LineItem()]: every field absent. *)
Definition LineItem_new : LineItem :=
  {| description := None; quantity := None; unit_price := None; line_total := None |}.

Record Invoice := {
  invoice_number : option str;
  external_reference : option str;
  invoice_date : option str;
  due_date : option str;
  seller_name : option str;
  seller_address : option str;
  seller_tax_id : option str;
  buyer_name : option str;
  buyer_address : option str;
  buyer_tax_id : option str;
  currency : option str;
  net_total : option float;
  tax_amount : option float;
  gross_total : option float;
  payment_terms : option str;
  line_items : list LineItem;
  source_file : option str;
}.

(** [Invoice()]: every field absent and no line item. *)
Definition Invoice_new : Invoice :=
  {| invoice_number := None; external_reference := None;
     invoice_date := None; due_date := None;
     seller_name := None; seller_address := None; seller_tax_id := None;
     buyer_name := None; buyer_address := None; buyer_tax_id := None;
     currency := None; net_total := None; tax_amount := None;
     gross_total := None; payment_terms := None;
     line_items := []; source_file := None |}.

Record ValidationError := {
  rule : str;
  message : str;
  field : option str;
}.

Record InvoiceValidationResult := {
  invoice_id : str;
  is_valid : bool;
  errors : list ValidationError;
  warnings : list ValidationError;
}.

Record ValidationSummary := {
  total_invoices : Z;
  valid_invoices : Z;
  invalid_invoices : Z;
  error_counts : gmap str Z;
  warning_counts : gmap str Z;
}.

Record ValidationReport := {
  summary : ValidationSummary;
  results : list InvoiceValidationResult;
}.

(** The value of an attribute read by name. *)
Inductive value : Type :=
| VNone
| VStr (s : str)
| VFloat (x : float).

Definition value_of_str (a : option str) : value :=
  match a with Some s => VStr s | None => VNone end.
Definition value_of_float (a : option float) : value :=
  match a with Some x => VFloat x | None => VNone end.

(** [getattr(invoice, field, None)] for the scalar fields of an invoice. *)
Definition getattr (invoice : Invoice) (name : str) : value :=
  if str_eqb name (lit "invoice_number") then value_of_str (invoice_number invoice)
  else if str_eqb name (lit "external_reference") then value_of_str (external_reference invoice)
  else if str_eqb name (lit "invoice_date") then value_of_str (invoice_date invoice)
  else if str_eqb name (lit "due_date") then value_of_str (due_date invoice)
  else if str_eqb name (lit "seller_name") then value_of_str (seller_name invoice)
  else if str_eqb name (lit "seller_address") then value_of_str (seller_address invoice)
  else if str_eqb name (lit "seller_tax_id") then value_of_str (seller_tax_id invoice)
  else if str_eqb name (lit "buyer_name") then value_of_str (buyer_name invoice)
  else if str_eqb name (lit "buyer_address") then value_of_str (buyer_address invoice)
  else if str_eqb name (lit "buyer_tax_id") then value_of_str (buyer_tax_id invoice)
  else if str_eqb name (lit "currency") then value_of_str (currency invoice)
  else if str_eqb name (lit "net_total") then value_of_float (net_total invoice)
  else if str_eqb name (lit "tax_amount") then value_of_float (tax_amount invoice)
  else if str_eqb name (lit "gross_total") then value_of_float (gross_total invoice)
  else if str_eqb name (lit "payment_terms") then value_of_str (payment_terms invoice)
  else if str_eqb name (lit "source_file") then value_of_str (source_file invoice)
  else VNone.

(** ** rules.py *)

(** A rule object: its attributes and its [validate] method.  The second
    argument of [validate] is the batch, [None] when the caller gives none. *)
Record ValidationRule := {
  name : str;
  rule_description : str;
  severity : str;
  validate : Invoice -> option (list Invoice) -> res (list ValidationError);
}.

(** Lexicographic order on code points, the order [sorted] uses on [str]. *)
Fixpoint str_ltb (a b : str) : bool :=
  match a, b with
  | _, [] => false
  | [], _ :: _ => true
  | x :: a', y :: b' => (x <? y) || ((x =? y) && str_ltb a' b')
  end.

Fixpoint insert_sorted (x : str) (l : list str) : list str :=
  match l with
  | [] => [x]
  | y :: l' => if str_ltb y x then y :: insert_sorted x l' else x :: l
  end.

(** [sorted(xs)] for strings. *)
Definition sorted (xs : list str) : list str :=
  fold_right insert_sorted [] xs.

(** [x in xs] for strings. *)
Definition str_in (x : str) (xs : list str) : bool := existsb (str_eqb x) xs.

(** [', '.join(xs)] when [xs] may hold [None]: a [TypeError] then. *)
Fixpoint join_opt (sep : str) (xs : list (option str)) : res str :=
  match xs with
  | [] => Ok []
  | None :: _ => Raise TypeError
  | Some x :: xs' =>
      match xs' with
      | [] => Ok x
      | _ => r ← join_opt sep xs'; Ok (x ++ sep ++ r)
      end
  end.

Definition default_tolerance : float := 0.02%float.

Section Rules.
Context {RT : Runtime}.

(** *** RequiredFieldRule *)
Definition required_fields : list str :=
  [ lit "invoice_number"; lit "invoice_date"; lit "seller_name";
    lit "buyer_name"; lit "currency"; lit "gross_total" ].

(** [value is None or (isinstance(value, str) and not value.strip())] *)
Definition is_missing (v : value) : bool :=
  match v with
  | VNone => true
  | VStr s => match strip s with [] => true | _ => false end
  | VFloat _ => false
  end.

Definition RequiredFieldRule_validate
    (invoice : Invoice) (all_invoices : option (list Invoice))
    : res (list ValidationError) :=
  Ok (flat_map (fun field_name =>
        if is_missing (getattr invoice field_name) then
          [ {| rule := lit "required_fields";
               message := lit "Required field '" ++ field_name
                          ++ lit "' is missing or empty";
               field := Some field_name |} ]
        else []) required_fields).

Definition RequiredFieldRule : ValidationRule :=
  {| name := lit "required_fields";
     rule_description := lit "Core invoice fields must be present and non-empty";
     severity := lit "error";
     validate := RequiredFieldRule_validate |}.

(** *** DateFormatRule *)
Definition _is_valid_date (date_str : str) : bool :=
  match fromisoformat date_str with
  | Ok dt => (1900 <=? dt_year dt)%Z && (dt_year dt <=? 2100)%Z
  | Raise _ => false
  end.

Definition DateFormatRule_validate
    (invoice : Invoice) (all_invoices : option (list Invoice))
    : res (list ValidationError) :=
  let check (which : str) (d : option str) :=
    match d with
    | Some ((_ :: _) as date_str) =>
        if _is_valid_date date_str then []
        else [ {| rule := lit "date_format";
                  message := lit "Invalid " ++ which ++ lit " format: " ++ date_str;
                  field := Some which |} ]
    | _ => []
    end in
  Ok (check (lit "invoice_date") (invoice_date invoice)
      ++ check (lit "due_date") (due_date invoice)).

Definition DateFormatRule : ValidationRule :=
  {| name := lit "date_format";
     rule_description :=
       lit "Dates must be parseable and within reasonable range (1900-2100)";
     severity := lit "error";
     validate := DateFormatRule_validate |}.

(** *** CurrencyValidationRule *)
Definition VALID_CURRENCIES : list str :=
  [ lit "EUR"; lit "USD"; lit "GBP"; lit "INR"; lit "JPY";
    lit "CNY"; lit "CAD"; lit "AUD"; lit "CHF"; lit "SEK" ].

Definition CurrencyValidationRule_validate
    (invoice : Invoice) (all_invoices : option (list Invoice))
    : res (list ValidationError) :=
  match currency invoice with
  | Some ((_ :: _) as cur) =>
      if negb (str_in cur VALID_CURRENCIES) then
        Ok [ {| rule := lit "currency_validation";
                message := lit "Unknown currency code: " ++ cur ++ lit ". Valid: "
                           ++ join (lit ", ") (sorted VALID_CURRENCIES);
                field := Some (lit "currency") |} ]
      else Ok []
  | _ => Ok []
  end.

Definition CurrencyValidationRule : ValidationRule :=
  {| name := lit "currency_validation";
     rule_description := lit "Currency must be a recognized ISO code";
     severity := lit "error";
     validate := CurrencyValidationRule_validate |}.

(** *** DueDateRule *)
Definition DueDateRule_validate
    (invoice : Invoice) (all_invoices : option (list Invoice))
    : res (list ValidationError) :=
  match invoice_date invoice, due_date invoice with
  | Some ((_ :: _) as inv_date), Some ((_ :: _) as due) =>
      try_except
        (invoice_dt ← fromisoformat inv_date;
         due_dt ← fromisoformat due;
         before ← dt_lt due_dt invoice_dt;
         Ok (if before : bool then
               [ {| rule := lit "due_date_logic";
                    message := lit "Due date (" ++ due
                               ++ lit ") is before invoice date (" ++ inv_date ++ lit ")";
                    field := Some (lit "due_date") |} ]
             else []))
        (Ok [])
  | _, _ => Ok []
  end.

Definition DueDateRule : ValidationRule :=
  {| name := lit "due_date_logic";
     rule_description := lit "Due date must be on or after invoice date";
     severity := lit "error";
     validate := DueDateRule_validate |}.

(** *** TotalsMatchRule *)
Definition TotalsMatchRule_validate (tolerance : float)
    (invoice : Invoice) (all_invoices : option (list Invoice))
    : res (list ValidationError) :=
  match net_total invoice, tax_amount invoice, gross_total invoice with
  | Some net, Some tax, Some gross =>
      let calculated_total := (net + tax)%float in
      let difference := PrimFloat.abs (calculated_total - gross)%float in
      if float_gt difference tolerance then
        Ok [ {| rule := lit "totals_match";
                message := lit "Totals mismatch: " ++ float_repr net ++ lit " + "
                           ++ float_repr tax ++ lit " = " ++ float_repr calculated_total
                           ++ lit ", but gross_total is " ++ float_repr gross
                           ++ lit " (diff: " ++ format_2f difference ++ lit ")";
                field := Some (lit "gross_total") |} ]
      else Ok []
  | _, _, _ => Ok []
  end.

Definition TotalsMatchRule (tolerance : float) : ValidationRule :=
  {| name := lit "totals_match";
     rule_description :=
       lit "Net total + tax amount should equal gross total (within tolerance)";
     severity := lit "error";
     validate := TotalsMatchRule_validate tolerance |}.

(** *** LineItemsTotalRule *)

(** [item.line_total for item in items if item.line_total is not None] *)
Definition present_line_totals (items : list LineItem) : list float :=
  omap line_total items.

Definition LineItemsTotalRule_validate (tolerance : float)
    (invoice : Invoice) (all_invoices : option (list Invoice))
    : res (list ValidationError) :=
  match net_total invoice, line_items invoice with
  | Some net, _ :: _ =>
      let line_items_sum := py_sum (present_line_totals (line_items invoice)) in
      if float_gt line_items_sum 0 then
        let difference := PrimFloat.abs (line_items_sum - net)%float in
        if float_gt difference tolerance then
          Ok [ {| rule := lit "line_items_total";
                  message := lit "Line items sum (" ++ format_2f line_items_sum
                             ++ lit ") doesn't match net_total (" ++ format_2f net
                             ++ lit "), diff: " ++ format_2f difference;
                  field := Some (lit "line_items") |} ]
        else Ok []
      else Ok []
  | _, _ => Ok []
  end.

Definition LineItemsTotalRule (tolerance : float) : ValidationRule :=
  {| name := lit "line_items_total";
     rule_description := lit "Sum of line item totals should match net total";
     severity := lit "warning";
     validate := LineItemsTotalRule_validate tolerance |}.

(** *** NegativeAmountsRule *)
Definition amount_fields : list str :=
  [ lit "net_total"; lit "tax_amount"; lit "gross_total" ].

Definition NegativeAmountsRule_validate
    (invoice : Invoice) (all_invoices : option (list Invoice))
    : res (list ValidationError) :=
  Ok (flat_map (fun field_name =>
        match getattr invoice field_name with
        | VFloat x =>
            if float_lt x 0 then
              [ {| rule := lit "no_negative_amounts";
                   message := lit "Field '" ++ field_name
                              ++ lit "' has negative value: " ++ float_repr x;
                   field := Some field_name |} ]
            else []
        | _ => []
        end) amount_fields).

Definition NegativeAmountsRule : ValidationRule :=
  {| name := lit "no_negative_amounts";
     rule_description := lit "Invoice amounts should not be negative";
     severity := lit "error";
     validate := NegativeAmountsRule_validate |}.

(** *** DuplicateInvoiceRule *)

(** The condition of the comprehension that collects the duplicates. *)
Definition is_duplicate_of (invoice inv : Invoice) : bool :=
  opt_str_eqb (invoice_number inv) (invoice_number invoice)
  && opt_str_eqb (seller_name inv) (seller_name invoice)
  && opt_str_eqb (invoice_date inv) (invoice_date invoice)
  && negb (opt_str_eqb (source_file inv) (source_file invoice)).

Definition duplicate_message (invoice : Invoice) (files : str) : str :=
  lit "Duplicate invoice detected. Same invoice_number ("
  ++ fmt_opt (invoice_number invoice) ++ lit ") from "
  ++ fmt_opt (seller_name invoice) ++ lit " on "
  ++ fmt_opt (invoice_date invoice) ++ lit ". Duplicates in: " ++ files.

Definition DuplicateInvoiceRule_validate
    (invoice : Invoice) (all_invoices : option (list Invoice))
    : res (list ValidationError) :=
  match all_invoices with
  | None | Some [] => Ok []
  | Some ((_ :: _) as batch) =>
      if negb (truthy (invoice_number invoice)) then Ok []
      else
        let duplicates := List.filter (is_duplicate_of invoice) batch in
        match duplicates with
        | [] => Ok []
        | _ :: _ =>
            let dup_files := map source_file duplicates in
            files ← join_opt (lit ", ") dup_files;
            Ok [ {| rule := lit "no_duplicates";
                    message := duplicate_message invoice files;
                    field := Some (lit "invoice_number") |} ]
        end
  end.

Definition DuplicateInvoiceRule : ValidationRule :=
  {| name := lit "no_duplicates";
     rule_description :=
       lit "Invoices should not have duplicate invoice numbers from same seller on same date";
     severity := lit "error";
     validate := DuplicateInvoiceRule_validate |}.

(** *** All available rules *)
Definition ALL_RULES : list ValidationRule :=
  [ RequiredFieldRule;
    DateFormatRule;
    CurrencyValidationRule;
    DueDateRule;
    TotalsMatchRule default_tolerance;
    LineItemsTotalRule default_tolerance;
    NegativeAmountsRule;
    DuplicateInvoiceRule ].
End Rules.

(** ** validator.py *)

Record InvoiceValidator := {
  rules : list ValidationRule;
}.

Section Validator.
Context {RT : Runtime}.

(** [InvoiceValidator(rules)]: [self.rules = rules or ALL_RULES]. *)
Definition InvoiceValidator_new (rules : option (list ValidationRule))
    : InvoiceValidator :=
  {| rules := match rules with
              | Some ((_ :: _) as rs) => rs
              | _ => ALL_RULES
              end |}.

(** [invoice.invoice_number or invoice.source_file or 'unknown'] *)
Definition invoice_id_of (invoice : Invoice) : str :=
  match or_else (or_else (invoice_number invoice) (source_file invoice))
                (Some (lit "unknown")) with
  | Some s => s
  | None => lit "unknown"
  end.

(** The inner loop body: one finding of [rule] goes to [warnings] when the
    rule's severity is ['warning'], to [errors] otherwise. *)
Definition route (rule : ValidationRule)
    (acc : list ValidationError * list ValidationError) (error : ValidationError)
    : list ValidationError * list ValidationError :=
  let '(errors, warnings) := acc in
  if str_eqb (severity rule) (lit "warning") then (errors, warnings ++ [error])
  else (errors ++ [error], warnings).

(** The outer loop body: run one rule and route its findings. *)
Definition apply_rule (invoice : Invoice) (all_invoices : option (list Invoice))
    (acc : list ValidationError * list ValidationError) (rule : ValidationRule)
    : res (list ValidationError * list ValidationError) :=
  rule_errors ← validate rule invoice all_invoices;
  Ok (fold_left (route rule) rule_errors acc).

Definition validate_invoice (self : InvoiceValidator)
    (invoice : Invoice) (all_invoices : option (list Invoice))
    : res InvoiceValidationResult :=
  let invoice_id := invoice_id_of invoice in
  acc ← for_each (apply_rule invoice all_invoices) (rules self) ([], []);
  let '(errors, warnings) := acc in
  let is_valid := Nat.eqb (length errors) 0 in
  Ok {| invoice_id := invoice_id; is_valid := is_valid;
        errors := errors; warnings := warnings |}.

(** The key under which a finding is counted:
    [f"{error.rule}: {error.message.split('.')[0]}"]. *)
Definition count_key (error : ValidationError) : str :=
  rule error ++ lit ": " ++ before_first 46 (message error).

(** [counts[key] = counts.get(key, 0) + 1] *)
Definition bump (counts : gmap str Z) (key : str) : gmap str Z :=
  <[ key := (default 0 (counts !! key) + 1)%Z ]> counts.

Definition count_findings (counts : gmap str Z) (findings : list ValidationError)
    : gmap str Z :=
  fold_left (fun m e => bump m (count_key e)) findings counts.

Definition _generate_summary (results : list InvoiceValidationResult)
    : ValidationSummary :=
  let total := Z.of_nat (length results) in
  let valid :=
    fold_left (fun n r => if is_valid r then (n + 1)%Z else n) results 0%Z in
  let invalid := (total - valid)%Z in
  let '(error_counts, warning_counts) :=
    fold_left (fun '(ec, wc) result =>
                 (count_findings ec (errors result),
                  count_findings wc (warnings result)))
              results (∅, ∅) in
  {| total_invoices := total; valid_invoices := valid;
     invalid_invoices := invalid;
     error_counts := error_counts; warning_counts := warning_counts |}.

Definition validate_invoices (self : InvoiceValidator) (invoices : list Invoice)
    : res ValidationReport :=
  results ← for_each (fun acc invoice =>
                        result ← validate_invoice self invoice (Some invoices);
                        Ok (acc ++ [result]))
                     invoices [];
  Ok {| summary := _generate_summary results; results := results |}.
End Validator.

(** ** extractor.py: currency *)

Definition EURO : char := 8364.    (* U+20AC *)
Definition DOLLAR : char := 36.    (* U+0024 *)
Definition POUND : char := 163.    (* U+00A3 *)
Definition YEN : char := 165.      (* U+00A5 *)

(** [self.currency_map] *)
Definition currency_map : list (str * str) :=
  [ ([EURO], lit "EUR"); ([DOLLAR], lit "USD");
    ([POUND], lit "GBP"); ([YEN], lit "JPY") ].

(** [d.get(key)] on a dictionary written as its list of items. *)
Fixpoint dict_get (d : list (str * str)) (key : str) : option str :=
  match d with
  | [] => None
  | (k, v) :: d' => if str_eqb key k then Some v else dict_get d' key
  end.

(** The alternatives of the first pattern, in the order written. *)
Definition CURRENCY_CODES : list str :=
  [ lit "USD"; lit "EUR"; lit "GBP"; lit "INR";
    lit "JPY"; lit "CNY"; lit "CAD"; lit "AUD" ].

(** The character class of the second pattern. *)
Definition CURRENCY_SYMBOLS : list char := [EURO; DOLLAR; POUND; YEN].

Section Currency.
Context {RT : Runtime}.

(** The class [\w]: alphanumeric or underscore. *)
Definition is_word (c : char) : bool :=
  if c <? 128 then
    is_ascii_digit c || is_ascii_upper c || is_ascii_lower c || (c =? 95)
  else unicode_alnum c.

Definition is_word_opt (c : option char) : bool :=
  match c with Some c => is_word c | None => false end.

(** [\b] between the character before and the character after a position. *)
Definition word_boundary (before after : option char) : bool :=
  xorb (is_word_opt before) (is_word_opt after).

(** [\b(USD|EUR|...|AUD)\b] tried at one position: [before] is the character
    to the left, [s] the text from the position on. *)
Definition match_code_at (before : option char) (s : str) : option str :=
  if word_boundary before (head s) then
    List.find (fun code => starts_with code s
                           && word_boundary (last code) (head (drop (length code) s)))
              CURRENCY_CODES
  else None.

(** [re.search] with the first pattern: the leftmost position that matches. *)
Fixpoint search_code (before : option char) (s : str) : option str :=
  match match_code_at before s with
  | Some code => Some code
  | None =>
      match s with
      | [] => None
      | c :: s' => search_code (Some c) s'
      end
  end.

(** [re.search] with the second pattern, [([€$£¥])]. *)
Fixpoint search_symbol (s : str) : option str :=
  match s with
  | [] => None
  | c :: s' =>
      if existsb (char_eqb c) CURRENCY_SYMBOLS then Some [c] else search_symbol s'
  end.

(** [CURRENCY_PATTERNS], each pattern as the search it stands for, giving
    [match.group(1)]. *)
Definition CURRENCY_PATTERNS : list (str -> option str) :=
  [ search_code None; search_symbol ].

Fixpoint _extract_currency_loop (patterns : list (str -> option str)) (text : str)
    : option str :=
  match patterns with
  | [] => None
  | pattern :: rest =>
      match pattern text with
      | Some currency =>
          match dict_get currency_map currency with
          | Some code => Some code
          | None => Some currency
          end
      | None => _extract_currency_loop rest text
      end
  end.

Definition _extract_currency (text : str) : option str :=
  _extract_currency_loop CURRENCY_PATTERNS text.
End Currency.

(** ** extractor.py: dates

    [datetime.strptime] turns a format into a pattern, matches it against the
    start of the text with back-tracking, rejects text left over, and builds
    a date from the fields, rejecting days that do not exist. *)

Record date := {
  year : N;
  month : N;
  day : N;
}.

Definition is_leap (y : N) : bool :=
  ((y mod 4 =? 0) && negb (y mod 100 =? 0)) || (y mod 400 =? 0).

Definition days_in_month (y m : N) : N :=
  if m =? 2 then (if is_leap y then 29 else 28)
  else if (m =? 4) || (m =? 6) || (m =? 9) || (m =? 11) then 30
  else 31.

(** The dates [datetime(year, month, day)] accepts. *)
Definition valid_date (y m d : N) : bool :=
  (1 <=? y) && (y <=? 9999) && (1 <=? m) && (m <=? 12)
  && (1 <=? d) && (d <=? days_in_month y m).

(** [dt.strftime('%Y-%m-%d')].  The rendering is the C library's: [%m] and
    [%d] are written on two digits, and [%Y] is the year as a decimal number,
    which glibc does not pad, so that a year below 1000 comes out on fewer
    than four digits. *)
Definition strftime_ymd (dt : date) : str :=
  str_of_N (year dt) ++ lit "-" ++ zero_pad 2 (month dt)
  ++ lit "-" ++ zero_pad 2 (day dt).

Inductive fmt_item : Type :=
| FDir (c : char)      (* a directive, [%c] *)
| FLit (c : char)      (* a character standing for itself *)
| FSpace.              (* a run of white space, matched by [\s+] *)

(** A format cut into its items; [in_space] tells that the item before was
    white space, so that a run of blanks gives one [FSpace]. *)
Fixpoint parse_format (in_space : bool) (fmt : str) : list fmt_item :=
  match fmt with
  | [] => []
  | c :: fmt' =>
      if isspace c then
        (if in_space then [] else [FSpace]) ++ parse_format true fmt'
      else if c =? 37 then
        match fmt' with
        | d :: fmt'' => FDir d :: parse_format false fmt''
        | [] => [FLit c]
        end
      else FLit c :: parse_format false fmt'
  end.

(** [locale_time.f_month[1:]] and [a_month[1:]] in the C locale. *)
Definition f_month : list str :=
  [ lit "january"; lit "february"; lit "march"; lit "april"; lit "may";
    lit "june"; lit "july"; lit "august"; lit "september"; lit "october";
    lit "november"; lit "december" ].
Definition a_month : list str :=
  [ lit "jan"; lit "feb"; lit "mar"; lit "apr"; lit "may"; lit "jun";
    lit "jul"; lit "aug"; lit "sep"; lit "oct"; lit "nov"; lit "dec" ].

(** The fields found so far. *)
Record fields := {
  f_year : option N;
  f_month_no : option N;
  f_day : option N;
}.
Definition no_fields : fields :=
  {| f_year := None; f_month_no := None; f_day := None |}.
Definition set_year (v : N) (f : fields) : fields :=
  {| f_year := Some v; f_month_no := f_month_no f; f_day := f_day f |}.
Definition set_month (v : N) (f : fields) : fields :=
  {| f_year := f_year f; f_month_no := Some v; f_day := f_day f |}.
Definition set_day (v : N) (f : fields) : fields :=
  {| f_year := f_year f; f_month_no := f_month_no f; f_day := Some v |}.

(** [sorted(names, key=len, reverse=True)]: longest first, names of one length
    in their original order. *)
Fixpoint insert_longer (x : N * str) (l : list (N * str)) : list (N * str) :=
  match l with
  | [] => [x]
  | y :: l' =>
      if Nat.ltb (length (snd x)) (length (snd y)) then y :: insert_longer x l'
      else x :: l
  end.

Section Strptime.
Context {RT : Runtime}.

(** The value of a character of the class [\d], if it is one. *)
Definition digit_value (c : char) : option N :=
  if is_ascii_digit c then Some (c - 48)
  else if c <? 128 then None
  else unicode_decimal c.

(** One character of the ASCII class [[lo-hi]], with its value. *)
Definition class_digit (lo hi : N) (s : str) : list (N * str) :=
  match s with
  | c :: s' => if (48 + lo <=? c) && (c <=? 48 + hi) then [(c - 48, s')] else []
  | [] => []
  end.

(** One character of the class [\d], with its value. *)
Definition any_digit (s : str) : list (N * str) :=
  match s with
  | c :: s' => match digit_value c with Some v => [(v, s')] | None => [] end
  | [] => []
  end.

(** Two pieces in sequence, read as a two-digit number. *)
Definition two (a b : str -> list (N * str)) (s : str) : list (N * str) :=
  '(x, s1) ← a s; '(y, s2) ← b s1; [(10 * x + y, s2)].

(** A blank, then a piece. *)
Definition blank_then (a : str -> list (N * str)) (s : str) : list (N * str) :=
  match s with
  | c :: s' => if c =? 32 then a s' else []
  | [] => []
  end.

(** [%d]: [3[0-1]|[1-2]\d|0[1-9]|[1-9]| [1-9]] *)
Definition match_d (s : str) : list (N * str) :=
  two (class_digit 3 3) (class_digit 0 1) s
  ++ two (class_digit 1 2) any_digit s
  ++ two (class_digit 0 0) (class_digit 1 9) s
  ++ class_digit 1 9 s
  ++ blank_then (class_digit 1 9) s.

(** [%m]: [1[0-2]|0[1-9]|[1-9]] *)
Definition match_m (s : str) : list (N * str) :=
  two (class_digit 1 1) (class_digit 0 2) s
  ++ two (class_digit 0 0) (class_digit 1 9) s
  ++ class_digit 1 9 s.

(** [%Y]: [\d\d\d\d] *)
Definition match_Y (s : str) : list (N * str) :=
  '(a, s1) ← any_digit s; '(b, s2) ← any_digit s1;
  '(c, s3) ← any_digit s2; '(d, s4) ← any_digit s3;
  [(1000 * a + 100 * b + 10 * c + d, s4)].

(** [name] at the start of [s], letters compared without regard to case. *)
Fixpoint starts_with_nocase (name s : str) : option str :=
  match name, s with
  | [], _ => Some s
  | x :: name', y :: s' =>
      if char_eqb x (ascii_lower_char y) then starts_with_nocase name' s' else None
  | _ :: _, [] => None
  end.

(** [%B] and [%b]: the names as alternatives, longest first, each giving its
    number in [names]. *)
Definition match_month_name (names : list str) (s : str) : list (N * str) :=
  let numbered := imap (fun i name => (N.of_nat (S i), name)) names in
  let by_length := fold_right insert_longer [] numbered in
  '(n, name) ← by_length;
  match starts_with_nocase name s with
  | Some s' => [(n, s')]
  | None => []
  end.

(** [\s+]: the longest run first, then shorter ones. *)
Fixpoint match_spaces (s : str) : list str :=
  match s with
  | c :: s' => if isspace c then match_spaces s' ++ [s'] else []
  | [] => []
  end.

Definition match_item (it : fmt_item) (f : fields) (s : str) : list (fields * str) :=
  match it with
  | FLit c =>
      match s with
      | x :: s' => if char_eqb x c then [(f, s')] else []
      | [] => []
      end
  | FSpace => s' ← match_spaces s; [(f, s')]
  | FDir c =>
      if c =? 100 then '(v, s') ← match_d s; [(set_day v f, s')]
      else if c =? 109 then '(v, s') ← match_m s; [(set_month v f, s')]
      else if c =? 89 then '(v, s') ← match_Y s; [(set_year v f, s')]
      else if c =? 66 then '(v, s') ← match_month_name f_month s; [(set_month v f, s')]
      else if c =? 98 then '(v, s') ← match_month_name a_month s; [(set_month v f, s')]
      else []
  end.

(** Every way the items match a prefix of [s], in the order a back-tracking
    matcher finds them. *)
Fixpoint match_items (its : list fmt_item) (f : fields) (s : str)
    : list (fields * str) :=
  match its with
  | [] => [(f, s)]
  | it :: its' => '(f', s') ← match_item it f s; match_items its' f' s'
  end.

(** [datetime.strptime(data_string, format)] *)
Definition strptime (data_string format : str) : res date :=
  match match_items (parse_format false format) no_fields data_string with
  | [] => Raise ValueError                      (* does not match format *)
  | (_, _ :: _) :: _ => Raise ValueError         (* unconverted data remains *)
  | (f, []) :: _ =>
      let y := default 1900 (f_year f) in
      let m := default 1 (f_month_no f) in
      let d := default 1 (f_day f) in
      if valid_date y m d then Ok {| year := y; month := m; day := d |}
      else Raise ValueError
  end.

Definition date_formats : list str :=
  [ lit "%d/%m/%Y"; lit "%m/%d/%Y"; lit "%Y-%m-%d";
    lit "%d-%m-%Y"; lit "%d.%m.%Y";
    lit "%d %B %Y"; lit "%d %b %Y" ].

(** The loop of [_normalize_date] over the formats still to try. *)
Fixpoint _normalize_date_loop (date_str : str) (formats : list str) : res str :=
  match formats with
  | [] => Ok date_str
  | fmt :: rest =>
      try_except
        (dt ← strptime (strip date_str) fmt; Ok (strftime_ymd dt))
        (_normalize_date_loop date_str rest)
  end.

Definition _normalize_date (date_str : str) : res str :=
  _normalize_date_loop date_str date_formats.
End Strptime.

(** ** extractor.py: amounts and line-item tables *)

(** [enumerate(xs, start)] *)
Fixpoint enumerate_from {A} (start : nat) (xs : list A) : list (nat * A) :=
  match xs with
  | [] => []
  | x :: xs' => (start, x) :: enumerate_from (S start) xs'
  end.

(** [enumerate(xs)] *)
Definition enumerate {A} (xs : list A) : list (nat * A) := enumerate_from 0 xs.

(** [xs[i]]: an [IndexError] past the end. *)
Definition index {A} (xs : list A) (i : nat) : res A :=
  match xs !! i with
  | Some x => Ok x
  | None => Raise IndexError
  end.

Definition with_description (v : str) (item : LineItem) : LineItem :=
  {| description := Some v; quantity := quantity item;
     unit_price := unit_price item; line_total := line_total item |}.
Definition with_quantity (v : float) (item : LineItem) : LineItem :=
  {| description := description item; quantity := Some v;
     unit_price := unit_price item; line_total := line_total item |}.
Definition with_unit_price (v : float) (item : LineItem) : LineItem :=
  {| description := description item; quantity := quantity item;
     unit_price := Some v; line_total := line_total item |}.
Definition with_line_total (v : float) (item : LineItem) : LineItem :=
  {| description := description item; quantity := quantity item;
     unit_price := unit_price item; line_total := Some v |}.

Section Tables.
Context {RT : Runtime}.

Definition _parse_amount (amount_str : str) : res float :=
  let cleaned := strip (remove_char 44 amount_str) in
  try_except (py_float cleaned) (Ok 0%float).

(** The three column tests of [_parse_line_item_row] and [_extract_line_items]. *)
Definition is_description_col (h : str) : bool :=
  contains (lit "description") h || contains (lit "item") h
  || contains (lit "product") h.
Definition is_quantity_col (h : str) : bool :=
  contains (lit "qty") h || contains (lit "quantity") h.
Definition is_unit_price_col (h : str) : bool :=
  contains (lit "unit") h && contains (lit "price") h.
Definition is_total_col (h : str) : bool :=
  contains (lit "total") h || contains (lit "amount") h.

(** The body of the loop of [_parse_line_item_row] for one cell. *)
Definition parse_cell (header : list str) (item : LineItem)
    (entry : nat * option str) : res LineItem :=
  let '(idx, cell) := entry in
  match cell with
  | Some ((_ :: _) as text) =>
      if Nat.leb (length header) idx then Ok item
      else
        let cell := strip text in
        col_name ← index header idx;
        if is_description_col col_name then Ok (with_description cell item)
        else if is_quantity_col col_name then
          try_except
            (q ← py_float (remove_char 44 cell); Ok (with_quantity q item))
            (Ok item)
        else if is_unit_price_col col_name then
          try_except
            (p ← _parse_amount cell; Ok (with_unit_price p item))
            (Ok item)
        else if is_total_col col_name then
          try_except
            (t ← _parse_amount cell; Ok (with_line_total t item))
            (Ok item)
        else Ok item
  | _ => Ok item
  end.

Definition _parse_line_item_row (row : list (option str)) (header : list str)
    : res LineItem :=
  for_each (parse_cell header) (enumerate row) LineItem_new.

(** [[str(cell).lower() if cell else '' for cell in table[0]]] *)
Definition header_of (first_row : list (option str)) : list str :=
  map (fun cell => match cell with
                   | Some ((_ :: _) as text) => str_lower text
                   | _ => []
                   end) first_row.

Definition has_description (header : list str) : bool :=
  existsb is_description_col header.
Definition has_quantity (header : list str) : bool :=
  existsb (fun h => contains (lit "qty") h || contains (lit "quantity") h
                    || contains (lit "amount") h) header.
Definition has_price (header : list str) : bool :=
  existsb (fun h => contains (lit "price") h || contains (lit "rate") h
                    || contains (lit "unit") h) header.

(** [not row or all(not cell for cell in row)] *)
Definition blank_row (row : list (option str)) : bool :=
  forallb (fun cell => negb (truthy cell)) row.

(** The body of the loop over the data rows of an accepted table. *)
Definition add_row (header : list str) (line_items : list LineItem)
    (row : list (option str)) : res (list LineItem) :=
  if blank_row row then Ok line_items
  else
    item ← _parse_line_item_row row header;
    if truthy (description item) then Ok (line_items ++ [item])
    else Ok line_items.

(** The body of the loop over the tables. *)
Definition add_table (line_items : list LineItem)
    (table : list (list (option str))) : res (list LineItem) :=
  match table with
  | first_row :: ((_ :: _) as data_rows) =>
      let header := header_of first_row in
      if has_description header && (has_quantity header || has_price header) then
        for_each (add_row header) data_rows line_items
      else Ok line_items
  | _ => Ok line_items
  end.

Definition _extract_line_items (tables : list (list (list (option str))))
    (text : str) : res (list LineItem) :=
  match tables with
  | [] => Ok []
  | _ => for_each add_table tables []
  end.
End Tables.


(** ** Vocabulary of the statements *)

(** The rules whose findings the validator files under [warnings]. *)
Definition is_warning_rule (r : ValidationRule) : bool :=
  str_eqb (severity r) (lit "warning").

(** What the rules of [rs] returned, [outs] rule by rule, restricted to the
    rules that are (or are not) of warning severity and put end to end. *)
Fixpoint findings_where (warning : bool) (rs : list ValidationRule)
    (outs : list (list ValidationError)) : list ValidationError :=
  match rs, outs with
  | r :: rs', out :: outs' =>
      (if Bool.eqb (is_warning_rule r) warning then out else [])
      ++ findings_where warning rs' outs'
  | _, _ => []
  end.

(** What [rule] returns on [invoice], or nothing if it raises. *)
Definition findings_of (invoice : Invoice) (all_invoices : option (list Invoice))
    (r : ValidationRule) : list ValidationError :=
  match validate r invoice all_invoices with
  | Ok out => out
  | Raise _ => []
  end.

(** ** A runtime to run the model on examples

    Texts are ASCII (no other character is a digit or a letter, and [lower]
    changes the ASCII capitals only); [fromisoformat] reads the one form every
    version of the interpreter reads, [YYYY-MM-DD]. *)
Definition ascii_fromisoformat (s : str) : res date :=
  match s with
  | [y1; y2; y3; y4; d1; m1; m2; d2; a1; a2] =>
      if forallb is_ascii_digit [y1; y2; y3; y4; m1; m2; a1; a2]
         && (d1 =? 45) && (d2 =? 45) then
        let y := N_of_digits [y1; y2; y3; y4] in
        let m := N_of_digits [m1; m2] in
        let d := N_of_digits [a1; a2] in
        if valid_date y m d then Ok {| year := y; month := m; day := d |}
        else Raise ValueError
      else Raise ValueError
  | _ => Raise ValueError
  end.

Definition date_ltb (a b : date) : bool :=
  (year a <? year b)
  || ((year a =? year b)
      && ((month a <? month b) || ((month a =? month b) && (day a <? day b)))).

Definition ascii_runtime : Runtime := {|
  unicode_decimal := fun _ => None;
  unicode_alnum := fun _ => false;
  str_lower := map ascii_lower_char;
  datetime := date;
  fromisoformat := ascii_fromisoformat;
  dt_year := fun dt => Z.of_N (year dt);
  dt_lt := fun a b => Ok (date_ltb a b);
|}.

(** ** Sample data *)

(** An invoice whose totals do not add up: 100.00 + 20.00 against 125.00. *)
Definition sample_invoice : Invoice :=
  {| invoice_number := Some (lit "INV-1"); external_reference := None;
     invoice_date := Some (lit "2024-01-01"); due_date := None;
     seller_name := Some (lit "Acme"); seller_address := None;
     seller_tax_id := None;
     buyer_name := Some (lit "Bolt"); buyer_address := None; buyer_tax_id := None;
     currency := Some (lit "EUR");
     net_total := Some 100%float; tax_amount := Some 20%float;
     gross_total := Some 125%float; payment_terms := None;
     line_items :=
       [ {| description := Some (lit "Widget"); quantity := Some 2%float;
            unit_price := Some 30%float; line_total := Some 60%float |} ];
     source_file := Some (lit "a.pdf") |}.

(** An invoice with a net total and one line item for each entry of
    [totals]; one whose lines are 60.00, a line without total and 40.00 for a
    net total of 100.00; and one whose last line is 45.00 instead. *)
Definition invoice_with_lines (net : float) (totals : list (option float)) : Invoice :=
  {| invoice_number := Some (lit "INV-2"); external_reference := None;
     invoice_date := None; due_date := None;
     seller_name := None; seller_address := None; seller_tax_id := None;
     buyer_name := None; buyer_address := None; buyer_tax_id := None;
     currency := None;
     net_total := Some net; tax_amount := None; gross_total := None;
     payment_terms := None;
     line_items :=
       map (fun t => {| description := Some (lit "Widget"); quantity := None;
                        unit_price := None; line_total := t |}) totals;
     source_file := None |}.
Definition two_line_invoice : Invoice :=
  invoice_with_lines 100%float [Some 60%float; None; Some 40%float].
Definition overbilled_invoice : Invoice :=
  invoice_with_lines 100%float [Some 60%float; None; Some 45%float].

(** An invoice with nothing but the three totals. *)
Definition invoice_with_totals (net tax gross : option float) : Invoice :=
  {| invoice_number := None; external_reference := None;
     invoice_date := None; due_date := None;
     seller_name := None; seller_address := None; seller_tax_id := None;
     buyer_name := None; buyer_address := None; buyer_tax_id := None;
     currency := None; net_total := net; tax_amount := tax;
     gross_total := gross; payment_terms := None;
     line_items := []; source_file := None |}.

(** [suffix] ends [s]. *)
Definition ends_with (suffix s : str) : Prop := exists before, s = before ++ suffix.

(** How many of [findings] are counted under [key]. *)
Definition occurrences (key : str) (findings : list ValidationError) : nat :=
  length (List.filter (fun e => str_eqb (count_key e) key) findings).

(** The entry of a counting dictionary for a key seen [n] times: none if never
    seen. *)
Definition counted (n : nat) : option Z :=
  match n with
  | O => None
  | S _ => Some (Z.of_nat n)
  end.

(** An invoice with nothing but its number, seller, date and source file. *)
Definition invoice_with_ids (number seller date file : option str) : Invoice :=
  {| invoice_number := number; external_reference := None;
     invoice_date := date; due_date := None;
     seller_name := seller; seller_address := None; seller_tax_id := None;
     buyer_name := None; buyer_address := None; buyer_tax_id := None;
     currency := None; net_total := None; tax_amount := None;
     gross_total := None; payment_terms := None;
     line_items := []; source_file := file |}.

(** Two extractions of one invoice, from [a.pdf] and from [b.pdf]. *)
Definition inv_a : Invoice :=
  invoice_with_ids (Some (lit "INV-1")) (Some (lit "Acme"))
                   (Some (lit "2024-01-01")) (Some (lit "a.pdf")).
Definition inv_b : Invoice :=
  invoice_with_ids (Some (lit "INV-1")) (Some (lit "Acme"))
                   (Some (lit "2024-01-01")) (Some (lit "b.pdf")).

(** The same pair with an invoice number that is present but empty. *)
Definition blank_a : Invoice :=
  invoice_with_ids (Some []) (Some (lit "Acme"))
                   (Some (lit "2024-01-01")) (Some (lit "a.pdf")).
Definition blank_b : Invoice :=
  invoice_with_ids (Some []) (Some (lit "Acme"))
                   (Some (lit "2024-01-01")) (Some (lit "b.pdf")).

(** The character to the left of a position reached after reading [read],
    when [start] was to the left of where reading began. *)
Fixpoint char_before (start : option char) (read : str) : option char :=
  match read with
  | [] => start
  | c :: read' => char_before (Some c) read'
  end.

(** [code] stands in a text as a whole word when the texts on either side,
    [before] and [after], do not touch it with a word character. *)
Definition whole_word {RT : Runtime} (before after : str) : Prop :=
  is_word_opt (char_before None before) = false
  /\ is_word_opt (head after) = false.

(** A code occurs at a position: it starts the rest of the text and no word
    character touches it. *)
Definition occurs_at {RT : Runtime} (before : option char) (s code : str) : bool :=
  starts_with code s
  && negb (is_word_opt before)
  && negb (is_word_opt (head (drop (length code) s))).

(** [n] digits and nothing else. *)
Definition all_digits (n : nat) (s : str) : bool :=
  Nat.eqb (length s) n && forallb is_ascii_digit s.

(** The decimal numeral of [n]: ASCII digits that spell [n], the first of
    which is not a zero. *)
Definition is_numeral_of (n : N) (s : str) : Prop :=
  forallb is_ascii_digit s = true
  /\ hd_error s <> Some 48
  /\ s <> []
  /\ fold_left (fun a c => 10 * a + (c - 48)) s 0 = n.

(** The two digits that spell [n]. *)
Definition is_two_digits_of (n : N) (s : str) : Prop :=
  exists a b, s = [a; b] /\ is_ascii_digit a = true /\ is_ascii_digit b = true
              /\ 10 * (a - 48) + (b - 48) = n.

(** [str_of_N y] is the numeral of [y], on four digits from 1000 on and on
    fewer below. *)
Definition year_text_ok (y : N) : bool :=
  let s := str_of_N y in
  forallb is_ascii_digit s
  && match s with c :: _ => negb (c =? 48) | [] => false end
  && (fold_left (fun a c => 10 * a + (c - 48)) s 0 =? y)
  && (if y <? 1000 then Nat.ltb (length s) 4 else Nat.eqb (length s) 4).

(** [zero_pad 2 n] is made of the two digits that spell [n]. *)
Definition two_digits_ok (n : N) : bool :=
  match zero_pad 2 n with
  | [a; b] => is_ascii_digit a && is_ascii_digit b && (10 * (a - 48) + (b - 48) =? n)
  | _ => false
  end.

(** The shape [YYYY-MM-DD]. *)
Definition is_ymd (s : str) : Prop :=
  exists yyyy mm dd,
    s = yyyy ++ lit "-" ++ mm ++ lit "-" ++ dd
    /\ all_digits 4 yyyy = true /\ all_digits 2 mm = true /\ all_digits 2 dd = true.

(** The cells of a row that stand under a description column of the header,
    the cells being numbered from [start]. *)
Definition description_cells_from (start : nat) (header : list str)
    (row : list (option str)) : list (option str) :=
  flat_map (fun '(idx, cell) =>
              match header !! idx with
              | Some h => if is_description_col h then [cell] else []
              | None => []
              end) (enumerate_from start row).

Definition description_cells (header : list str) (row : list (option str))
    : list (option str) :=
  description_cells_from 0 header row.

(** The description read from description cells: the last cell that is not
    empty, stripped; [d0] when there is none. *)
Definition read_description (cells : list (option str)) (d0 : option str)
    : option str :=
  fold_left (fun d cell =>
               match cell with
               | Some ((_ :: _) as text) => Some (strip text)
               | _ => d
               end) cells d0.

(** A cell that is absent, empty or white space only. *)
Definition blank_cell (cell : option str) : Prop :=
  match cell with
  | None => True
  | Some text => strip text = []
  end.

(** The line items a data row gives under a header: the parsed row if it has
    a description, nothing otherwise. *)
Definition kept_items {RT : Runtime} (header : list str) (row : list (option str))
    : list LineItem :=
  match _parse_line_item_row row header with
  | Ok item => if truthy (description item) then [item] else []
  | Raise _ => []
  end.

(** The line items a table gives: those of its data rows if it has a header
    row, a data row, a description column and a quantity or price column. *)
Definition table_items {RT : Runtime} (table : list (list (option str)))
    : list LineItem :=
  match table with
  | first_row :: ((_ :: _) as data_rows) =>
      let header := header_of first_row in
      if has_description header && (has_quantity header || has_price header)
      then flat_map (kept_items header) data_rows
      else []
  | _ => []
  end.

(** A table with a description and a quantity column: a row with a blank
    description and a quantity, and a row with a description and a quantity
    that is no number. *)
Definition sample_header : list (option str) :=
  [ Some (lit "Description"); Some (lit "Qty") ].
Definition row_without_description : list (option str) :=
  [ Some (lit "  "); Some (lit "3") ].
Definition row_with_description : list (option str) :=
  [ Some (lit "Widget"); Some (lit "many") ].
Definition sample_table : list (list (option str)) :=
  [ sample_header; row_without_description; row_with_description ].

(** Two invoices in order and one without its number. *)
Definition good_invoice (number file : str) : Invoice :=
  {| invoice_number := Some number; external_reference := None;
     invoice_date := Some (lit "2024-01-01"); due_date := Some (lit "2024-01-31");
     seller_name := Some (lit "Acme"); seller_address := None;
     seller_tax_id := None;
     buyer_name := Some (lit "Bolt"); buyer_address := None; buyer_tax_id := None;
     currency := Some (lit "EUR");
     net_total := Some 100%float; tax_amount := Some 20%float;
     gross_total := Some 120%float; payment_terms := None;
     line_items :=
       [ {| description := Some (lit "Widget"); quantity := Some 2%float;
            unit_price := Some 50%float; line_total := Some 100%float |} ];
     source_file := Some file |}.
Definition good_invoice_1 : Invoice := good_invoice (lit "INV-1") (lit "1.pdf").
Definition good_invoice_2 : Invoice := good_invoice (lit "INV-2") (lit "2.pdf").
Definition invoice_without_number : Invoice :=
  {| invoice_number := None; external_reference := None;
     invoice_date := Some (lit "2024-01-01"); due_date := Some (lit "2024-01-31");
     seller_name := Some (lit "Acme"); seller_address := None;
     seller_tax_id := None;
     buyer_name := Some (lit "Bolt"); buyer_address := None; buyer_tax_id := None;
     currency := Some (lit "EUR");
     net_total := Some 100%float; tax_amount := Some 20%float;
     gross_total := Some 120%float; payment_terms := None;
     line_items := []; source_file := Some (lit "3.pdf") |}.


(** ** Further vocabulary *)

(** A text field that is absent, empty or white space only. *)
Definition blank_field (a : option str) : bool :=
  match a with
  | None => true
  | Some s => match strip s with [] => true | _ => false end
  end.

(** The error of the required-fields rule for one field. *)
Definition missing_field_error (field_name : str) : ValidationError :=
  {| rule := lit "required_fields";
     message := lit "Required field '" ++ field_name ++ lit "' is missing or empty";
     field := Some field_name |}.

(** The six required fields of an invoice, each with whether it is missing. *)
Definition required_status (invoice : Invoice) : list (str * bool) :=
  [ (lit "invoice_number", blank_field (invoice_number invoice));
    (lit "invoice_date", blank_field (invoice_date invoice));
    (lit "seller_name", blank_field (seller_name invoice));
    (lit "buyer_name", blank_field (buyer_name invoice));
    (lit "currency", blank_field (currency invoice));
    (lit "gross_total", match gross_total invoice with None => true | Some _ => false end) ].

(** The error of the currency rule for a currency it does not know. *)
Definition unknown_currency_error (cur : str) : ValidationError :=
  {| rule := lit "currency_validation";
     message := lit "Unknown currency code: " ++ cur
                ++ lit ". Valid: AUD, CAD, CHF, CNY, EUR, GBP, INR, JPY, SEK, USD";
     field := Some (lit "currency") |}.

(** The error of the negative-amounts rule for one amount, if it is below
    zero. *)
Definition negative_amount_errors (field_name : str) (amount : option float)
    : list ValidationError :=
  match amount with
  | Some x =>
      if float_lt x 0 then
        [ {| rule := lit "no_negative_amounts";
             message := lit "Field '" ++ field_name
                        ++ lit "' has negative value: " ++ float_repr x;
             field := Some field_name |} ]
      else []
  | None => []
  end.

(** An amount that is present and below zero. *)
Definition is_negative (amount : option float) : bool :=
  match amount with
  | Some x => float_lt x 0
  | None => false
  end.

(** An invoice with nothing but a currency. *)
Definition invoice_with_currency (cur : option str) : Invoice :=
  {| invoice_number := None; external_reference := None;
     invoice_date := None; due_date := None;
     seller_name := None; seller_address := None; seller_tax_id := None;
     buyer_name := None; buyer_address := None; buyer_tax_id := None;
     currency := cur; net_total := None; tax_amount := None;
     gross_total := None; payment_terms := None;
     line_items := []; source_file := None |}.

(** The error of the date-format rule for the date [date_str] of field
    [which]. *)
Definition date_format_error (which date_str : str) : ValidationError :=
  {| rule := lit "date_format";
     message := lit "Invalid " ++ which ++ lit " format: " ++ date_str;
     field := Some which |}.

(** What the date-format rule reports for one date field. *)
Definition date_format_errors {RT : Runtime} (which : str) (d : option str)
    : list ValidationError :=
  match d with
  | Some ((_ :: _) as date_str) =>
      if _is_valid_date date_str then [] else [date_format_error which date_str]
  | _ => []
  end.

(** An invoice whose due date is not written the ISO way. *)
Definition late_invoice : Invoice :=
  {| invoice_number := Some (lit "INV-7"); external_reference := None;
     invoice_date := Some (lit "2024-01-01"); due_date := Some (lit "31/01/2024");
     seller_name := None; seller_address := None; seller_tax_id := None;
     buyer_name := None; buyer_address := None; buyer_tax_id := None;
     currency := None; net_total := None; tax_amount := None;
     gross_total := None; payment_terms := None;
     line_items := []; source_file := None |}.

(** Two invoices of a batch of which the first cannot be checked for
    duplicates: it has a non-empty number and a source file, the second has
    the same number, seller and date and no source file. *)
Definition unfiled_twin (a b : Invoice) : Prop :=
  truthy (invoice_number a) = true
  /\ source_file a <> None
  /\ invoice_number b = invoice_number a
  /\ seller_name b = seller_name a
  /\ invoice_date b = invoice_date a
  /\ source_file b = None.

(** The loop body of [validate_invoices]. *)
Definition add_result (self : InvoiceValidator) (batch : list Invoice)
    (acc : list InvoiceValidationResult) (invoice : Invoice)
    : res (list InvoiceValidationResult) :=
  result ← validate_invoice self invoice (Some batch);
  Ok (acc ++ [result]).

(** A result without errors. *)
Definition no_errors (r : InvoiceValidationResult) : bool :=
  match errors r with
  | [] => true
  | _ :: _ => false
  end.

(** The invoice of [a.pdf] once more, its source file lost. *)
Definition unfiled_copy_of_a : Invoice :=
  invoice_with_ids (Some (lit "INV-1")) (Some (lit "Acme"))
                   (Some (lit "2024-01-01")) None.

(** The sum of the counts of a counting dictionary. *)
Definition sum_counts (counts : gmap str Z) : Z :=
  map_fold (fun _ n acc => (n + acc)%Z) 0%Z counts.

(** Every item has a description that is not empty and is stripped. *)
Definition forall_items_described (items : list LineItem) : Prop :=
  forall item, In item items ->
    exists d, description item = Some d /\ d <> [] /\ strip d = d.

(** The items of the format [%m-%d] after a hyphen: what is left of
    [%Y-%m-%d] once the year is read. *)
Definition after_year : list fmt_item :=
  [FLit 45; FDir 109; FLit 45; FDir 100].

(** The fields of a line item that are set have a column of their kind in
    the header. *)
Definition fields_have_columns {RT : Runtime} (header : list str) (item : LineItem)
    : Prop :=
  (description item <> None -> has_description header = true)
  /\ (quantity item <> None -> existsb is_quantity_col header = true)
  /\ (unit_price item <> None -> existsb is_unit_price_col header = true)
  /\ (line_total item <> None -> existsb is_total_col header = true).

(** What [row_with_description] gives under [sample_header]: the quantity
    [many] is no number and is left out. *)
Definition widget_item : LineItem :=
  {| description := Some (lit "Widget"); quantity := None;
     unit_price := None; line_total := None |}.

(** How the formats of [date_formats] start, [%Y-%m-%d] apart: a day or a
    month, then a slash, a dot or white space; and [%Y] itself. *)
Definition format_starts : list (list fmt_item) :=
  [ [FDir 100; FLit 47]; [FDir 109; FLit 47]; [FDir 100; FLit 46];
    [FDir 100; FSpace]; [FDir 89] ].


(** * Properties *)

(** ** Strings *)

Lemma str_eqb_eq (a b : str) : str_eqb a b = true <-> a = b.
Proof.
  revert b; induction a as [|x a IH]; intros [|y b]; simpl; split;
    try congruence; try discriminate.
  - rewrite andb_true_iff. intros [Hxy Hab].
    apply N.eqb_eq in Hxy. apply IH in Hab. congruence.
  - intros [= -> ->]. rewrite andb_true_iff. split.
    + apply N.eqb_refl.
    + now apply IH.
Qed.

Lemma str_eqb_refl (a : str) : str_eqb a a = true.
Proof. now apply str_eqb_eq. Qed.

Lemma str_eqb_neq (a b : str) : str_eqb a b = false <-> a <> b.
Proof.
  rewrite <- str_eqb_eq. destruct (str_eqb a b); split; congruence.
Qed.

Lemma opt_str_eqb_eq (a b : option str) : opt_str_eqb a b = true <-> a = b.
Proof.
  destruct a, b; simpl; rewrite ?str_eqb_eq; split; congruence.
Qed.

(** ** The exception monad *)

Lemma for_each_cons_ok {A S} (body : S -> A -> res S) x xs s s' :
  body s x = Ok s' -> for_each body (x :: xs) s = for_each body xs s'.
Proof. intros H. cbn [for_each]. now rewrite H. Qed.

Lemma for_each_cons_raise {A S} (body : S -> A -> res S) x xs s e :
  body s x = Raise e -> for_each body (x :: xs) s = Raise e.
Proof. intros H. cbn [for_each]. now rewrite H. Qed.

Lemma for_each_app {A S} (body : S -> A -> res S) xs ys s :
  for_each body (xs ++ ys) s = s' ← for_each body xs s; for_each body ys s'.
Proof.
  revert s. induction xs as [|x xs IH]; intros s; [reflexivity|].
  cbn [for_each app]. destruct (body s x) as [s'|e]; [apply IH | reflexivity].
Qed.

(** ** validator.py: routing of findings *)

Lemma fold_route (r : ValidationRule) (out es ws : list ValidationError) :
  fold_left (route r) out (es, ws) =
  if is_warning_rule r then (es, ws ++ out) else (es ++ out, ws).
Proof.
  revert es ws. induction out as [|e out IH]; intros es ws; simpl.
  - destruct (is_warning_rule r); now rewrite app_nil_r.
  - unfold is_warning_rule in *.
    destruct (str_eqb (severity r) (lit "warning")) eqn:E;
      rewrite IH; now rewrite <- app_assoc.
Qed.

Lemma apply_rule_ok invoice all_invoices acc r out :
  validate r invoice all_invoices = Ok out ->
  apply_rule invoice all_invoices acc r = Ok (fold_left (route r) out acc).
Proof. intros H. unfold apply_rule. now rewrite H. Qed.

(** When every rule returns, the loop of [validate_invoice] returns, with the
    findings of the warning rules on one side and all the others on the
    other, each in rule order. *)
Lemma for_each_apply_rule invoice all_invoices rs outs es ws :
  Forall2 (fun r out => validate r invoice all_invoices = Ok out) rs outs ->
  for_each (apply_rule invoice all_invoices) rs (es, ws) =
  Ok (es ++ findings_where false rs outs, ws ++ findings_where true rs outs).
Proof.
  intros H. revert es ws.
  induction H as [|r out rs outs Hr _ IH]; intros es ws.
  - cbn. now rewrite !app_nil_r.
  - rewrite (for_each_cons_ok _ _ _ _ _ (apply_rule_ok _ _ _ _ _ Hr)).
    rewrite fold_route. cbn [findings_where].
    destruct (is_warning_rule r); cbn [Bool.eqb]; rewrite IH, ?app_nil_r;
      now rewrite <- ?app_assoc.
Qed.

(** Conversely the loop returns only if every rule did. *)
Lemma for_each_apply_rule_inv invoice all_invoices rs acc acc' :
  for_each (apply_rule invoice all_invoices) rs acc = Ok acc' ->
  exists outs, Forall2 (fun r out => validate r invoice all_invoices = Ok out) rs outs.
Proof.
  revert acc. induction rs as [|r rs IH]; intros acc.
  - exists []. constructor.
  - destruct (validate r invoice all_invoices) as [out|e] eqn:E.
    + rewrite (for_each_cons_ok _ _ _ _ _ (apply_rule_ok _ _ acc _ _ E)).
      intros H. apply IH in H as [outs Houts]. exists (out :: outs). now constructor.
    + rewrite (for_each_cons_raise _ _ _ _ e); [discriminate|].
      unfold apply_rule. now rewrite E.
Qed.

Lemma findings_where_nil warning rs outs :
  length rs = length outs ->
  findings_where warning rs outs = [] <->
  forall i r out, rs !! i = Some r -> outs !! i = Some out ->
                  is_warning_rule r = warning -> out = [].
Proof.
  revert outs. induction rs as [|r rs IH]; intros [|out outs]; simpl; try discriminate.
  - intros _. split; [intros _ i r out Hr; discriminate | reflexivity].
  - intros [= Hlen]. specialize (IH outs Hlen). split.
    + intros H. apply app_eq_nil in H as [H1 H2].
      intros [|i] r' out' Hr Hout Hw; simpl in *.
      * injection Hr as <-. injection Hout as <-.
        rewrite Hw in H1. now rewrite eqb_reflx in H1.
      * eapply IH; eauto.
    + intros H.
      rewrite (proj2 IH) by (intros i r' out' Hr Hout; exact (H (S i) r' out' Hr Hout)).
      rewrite app_nil_r.
      destruct (Bool.eqb (is_warning_rule r) warning) eqn:E; [|reflexivity].
      apply eqb_prop in E. exact (H 0%nat r out eq_refl eq_refl E).
Qed.

(** What [validate_invoice] returns when the rules return. *)
Lemma validate_invoice_returns
    (self : InvoiceValidator) (invoice : Invoice)
    (all_invoices : option (list Invoice)) (outs : list (list ValidationError)) :
  Forall2 (fun r out => validate r invoice all_invoices = Ok out) (rules self) outs ->
  exists result,
    validate_invoice self invoice all_invoices = Ok result
    /\ errors result = findings_where false (rules self) outs
    /\ warnings result = findings_where true (rules self) outs.
Proof.
  intros H. unfold validate_invoice.
  rewrite (for_each_apply_rule _ _ _ _ [] [] H). cbn.
  eexists. split; [reflexivity|]. cbn. split; reflexivity.
Qed.

(** C1. Whenever the rules return, [validate_invoice] returns a result whose
    [errors] are the findings of the rules that are not of warning severity,
    whose [warnings] are the findings of the warning rules, and whose
    [is_valid] flag is true exactly when every rule that is not a warning
    rule found nothing; what the warning rules find plays no part. *)
Theorem is_valid_iff_no_error_findings
    (self : InvoiceValidator) (invoice : Invoice)
    (all_invoices : option (list Invoice)) (outs : list (list ValidationError)) :
  Forall2 (fun r out => validate r invoice all_invoices = Ok out) (rules self) outs ->
  exists result,
    validate_invoice self invoice all_invoices = Ok result
    /\ errors result = findings_where false (rules self) outs
    /\ warnings result = findings_where true (rules self) outs
    /\ (is_valid result = true <-> errors result = [])
    /\ (is_valid result = true <->
        forall i r out, rules self !! i = Some r -> outs !! i = Some out ->
                        severity r <> lit "warning" -> out = []).
Proof.
  intros H. unfold validate_invoice.
  rewrite (for_each_apply_rule _ _ _ _ [] [] H). cbn.
  eexists. split; [reflexivity|]. cbn.
  split; [reflexivity|]. split; [reflexivity|].
  assert (Hlen : length (rules self) = length outs) by (eapply Forall2_length; eauto).
  assert (Hv : Nat.eqb (length (findings_where false (rules self) outs)) 0 = true
               <-> findings_where false (rules self) outs = []).
  { destruct (findings_where false (rules self) outs); cbn; split; congruence. }
  split; [exact Hv|]. rewrite Hv, (findings_where_nil false _ _ Hlen).
  split; intros Hall i r out Hr Hout Hs; apply (Hall i r out Hr Hout).
  - unfold is_warning_rule. now apply str_eqb_neq.
  - unfold is_warning_rule in Hs. now apply str_eqb_neq.
Qed.

Lemma is_valid_iff_no_error_findings_witness :
  exists result,
    validate_invoice (@InvoiceValidator_new ascii_runtime None) sample_invoice
                     (Some [sample_invoice]) = Ok result
    /\ is_valid result = false.
Proof.
  destruct (is_valid_iff_no_error_findings
              (@InvoiceValidator_new ascii_runtime None) sample_invoice
              (Some [sample_invoice])
              (map (findings_of sample_invoice (Some [sample_invoice]))
                   (@ALL_RULES ascii_runtime)))
    as (result & Hres & Herr & _).
  - repeat constructor.
  - exists result. split; [exact Hres|].
    revert Hres. vm_compute. intros [= <-]. reflexivity.
Defined.

(** ** Floats: the comparisons *)

Lemma SFcompare_antisym (x y : spec_float) :
  SFcompare y x = option_map CompOpp (SFcompare x y).
Proof.
  destruct x as [sx|sx| |sx mx ex], y as [sy|sy| |sy my ey]; cbn;
    try reflexivity; try (destruct sx; reflexivity); try (destruct sy; reflexivity);
    try (destruct sx, sy; reflexivity).
  pose proof (Pos.compare_cont_antisym mx my Eq) as H; cbn [CompOpp] in H.
  destruct sx, sy; cbn; try reflexivity;
    rewrite (Z.compare_antisym ex ey);
    destruct (ex ?= ey)%Z; cbn; try reflexivity;
    now rewrite <- H.
Qed.

(** [d <= t] excludes [d > t]. *)
Lemma float_le_not_gt (d t : float) : float_le d t = true -> float_gt d t = false.
Proof.
  unfold float_le, float_gt. rewrite leb_spec, ltb_spec.
  unfold SFleb, SFltb. rewrite (SFcompare_antisym (Prim2SF d) (Prim2SF t)).
  destruct (SFcompare (Prim2SF d) (Prim2SF t)) as [[]|]; cbn; congruence.
Qed.

(** ** rules.py: totals *)

(** C2. With the three totals present, the totals rule finds nothing when
    [|net + tax - gross| <= 0.02] and exactly one error, on field
    [gross_total] and ending with the difference on two decimals, when the
    difference exceeds 0.02; with a total absent it finds nothing.  100.00 +
    20.00 against 120.00 gives nothing; against 125.00 it gives one error on
    [gross_total] whose message ends with [(diff: 5.00)].  The arithmetic is that of the
    code, on binary64 floats. *)
Theorem totals_match_rule_tolerance
    (invoice : Invoice) (all_invoices : option (list Invoice)) :
  let check := validate (TotalsMatchRule default_tolerance) in
  (forall net tax gross,
      net_total invoice = Some net -> tax_amount invoice = Some tax ->
      gross_total invoice = Some gross ->
      let difference := PrimFloat.abs (net + tax - gross)%float in
      (float_le difference 0.02 = true -> check invoice all_invoices = Ok [])
      /\ (float_gt difference 0.02 = true ->
          exists e, check invoice all_invoices = Ok [e]
                    /\ rule e = lit "totals_match"
                    /\ field e = Some (lit "gross_total")
                    /\ ends_with (lit " (diff: " ++ format_2f difference ++ lit ")")
                                 (message e)))
  /\ (net_total invoice = None \/ tax_amount invoice = None
      \/ gross_total invoice = None -> check invoice all_invoices = Ok [])
  /\ check (invoice_with_totals (Some 100%float) (Some 20%float) (Some 120%float))
           all_invoices = Ok []
  /\ check (invoice_with_totals (Some 100%float) (Some 20%float) (Some 125%float))
           all_invoices
     = Ok [ {| rule := lit "totals_match";
               message := lit "Totals mismatch: 100.0 + 20.0 = 120.0, but gross_total is 125.0 (diff: 5.00)";
               field := Some (lit "gross_total") |} ].
Proof.
  cbn zeta. split; [|split; [|split]].
  - intros net tax gross Hn Ht Hg.
    cbn [validate TotalsMatchRule]. unfold TotalsMatchRule_validate.
    rewrite Hn, Ht, Hg. unfold default_tolerance. split.
    + intros Hle. now rewrite (float_le_not_gt _ _ Hle).
    + intros Hgt. rewrite Hgt. eexists. split; [reflexivity|]. cbn [rule field message].
      split; [reflexivity|]. split; [reflexivity|].
      eexists. rewrite !app_assoc. reflexivity.
  - cbn [validate TotalsMatchRule]. unfold TotalsMatchRule_validate.
    intros [H|[H|H]]; rewrite H; [reflexivity| |].
    + now destruct (net_total invoice).
    + now destruct (net_total invoice), (tax_amount invoice).
  - reflexivity.
  - vm_compute. reflexivity.
Qed.

Lemma totals_match_rule_tolerance_witness :
  exists e,
    validate (TotalsMatchRule default_tolerance) sample_invoice None = Ok [e]
    /\ field e = Some (lit "gross_total").
Proof.
  destruct (proj1 (totals_match_rule_tolerance sample_invoice None)
                  100%float 20%float 125%float eq_refl eq_refl eq_refl) as [_ H].
  destruct (H eq_refl) as (e & He & _ & Hf & _).
  exists e. split; assumption.
Defined.

(** ** rules.py and validator.py: line items *)

Lemma float_eq_not_gt (x y : float) : PrimFloat.eqb x y = true -> float_gt x y = false.
Proof.
  unfold float_gt. rewrite FloatAxioms.eqb_spec, ltb_spec.
  unfold SFeqb, SFltb. rewrite (SFcompare_antisym (Prim2SF x) (Prim2SF y)).
  destruct (SFcompare (Prim2SF x) (Prim2SF y)) as [[]|]; cbn; congruence.
Qed.

Lemma findings_where_app warning rs1 rs2 outs1 outs2 :
  length rs1 = length outs1 ->
  findings_where warning (rs1 ++ rs2) (outs1 ++ outs2) =
  findings_where warning rs1 outs1 ++ findings_where warning rs2 outs2.
Proof.
  revert outs1. induction rs1 as [|r rs1 IH]; intros [|o outs1]; cbn; try discriminate.
  - reflexivity.
  - intros [= Hlen]. now rewrite (IH _ Hlen), app_assoc.
Qed.

(** C4. For an invoice whose [net_total] is present, the line-items rule
    finds something (one finding, on [line_items]) exactly when the sum of the
    present [line_total]s is strictly positive and differs from [net_total] by
    more than 0.02; a sum that is zero, or absent because no line item has a
    [line_total], gives no finding.  The sum is that of the [line_total]s that
    are not [None], in the order of the line items, added one by one from
    zero on.  The rule is of warning severity, so in any validator that runs
    it its findings are filed under [warnings], and [errors] holds the
    findings of the other rules only. *)
Theorem line_items_rule_is_warning
    (invoice : Invoice) (all_invoices : option (list Invoice)) (net : float) :
  net_total invoice = Some net ->
  let the_rule := LineItemsTotalRule default_tolerance in
  let totals := omap line_total (line_items invoice) in
  let line_items_sum := fold_left PrimFloat.add totals 0%float in
  let mismatch :=
    float_gt line_items_sum 0
    && float_gt (PrimFloat.abs (line_items_sum - net)%float) 0.02 in
  (mismatch = true ->
   exists e, validate the_rule invoice all_invoices = Ok [e]
             /\ rule e = lit "line_items_total" /\ field e = Some (lit "line_items"))
  /\ (mismatch = false -> validate the_rule invoice all_invoices = Ok [])
  /\ (PrimFloat.eqb line_items_sum 0 = true -> mismatch = false)
  /\ (totals = [] -> mismatch = false)
  /\ (forall t, In t totals <->
                exists item, In item (line_items invoice) /\ line_total item = Some t)
  /\ (forall a b, totals = [a; b] -> line_items_sum = (0 + a + b)%float)
  /\ (forall before t, totals = before ++ [t] ->
                       line_items_sum = (fold_left PrimFloat.add before 0 + t)%float)
  /\ severity the_rule = lit "warning"
  /\ (forall self before after outs_before out outs_after,
        rules self = before ++ the_rule :: after ->
        length before = length outs_before ->
        Forall2 (fun r o => validate r invoice all_invoices = Ok o)
                (rules self) (outs_before ++ out :: outs_after) ->
        exists result,
          validate_invoice self invoice all_invoices = Ok result
          /\ warnings result = findings_where true before outs_before ++ out
                               ++ findings_where true after outs_after
          /\ errors result = findings_where false before outs_before
                             ++ findings_where false after outs_after).
Proof.
  intros Hnet the_rule totals line_items_sum mismatch.
  assert (Hrun : validate the_rule invoice all_invoices =
                 if mismatch then
                   Ok [ {| rule := lit "line_items_total";
                           message := lit "Line items sum (" ++ format_2f line_items_sum
                                      ++ lit ") doesn't match net_total (" ++ format_2f net
                                      ++ lit "), diff: "
                                      ++ format_2f (PrimFloat.abs (line_items_sum - net)%float);
                           field := Some (lit "line_items") |} ]
                 else Ok []).
  { subst the_rule mismatch line_items_sum totals.
    cbn [validate LineItemsTotalRule]. unfold LineItemsTotalRule_validate, default_tolerance.
    rewrite Hnet. destruct (line_items invoice) as [|item items]; [reflexivity|].
    unfold py_sum, present_line_totals.
    change PrimFloat.zero with 0%float.
    destruct (float_gt (fold_left PrimFloat.add (omap line_total (item :: items)) 0%float) 0);
      [|reflexivity].
    cbn [andb]. now destruct (float_gt _ 0.02). }
  split; [|split; [|split; [|split; [|split; [|split; [|split; [|split]]]]]]].
  - intros Hm. rewrite Hrun, Hm. eexists. repeat split.
  - intros Hm. now rewrite Hrun, Hm.
  - intros Hz. subst mismatch. now rewrite (float_eq_not_gt _ _ Hz).
  - intros Hnone. subst mismatch line_items_sum. now rewrite Hnone.
  - intros t. subst totals. rewrite <- list_elem_of_In, list_elem_of_omap.
    split; intros (item & Hin & Ht); exists item;
      (split; [now apply list_elem_of_In | exact Ht]).
  - intros a b Hab. subst line_items_sum. now rewrite Hab.
  - intros before t Hbt. subst line_items_sum. now rewrite Hbt, fold_left_app.
  - reflexivity.
  - intros self before after outs_before out outs_after Hrules Hlen Hall.
    destruct (validate_invoice_returns self invoice all_invoices _ Hall)
      as (result & Hres & Herr & Hwarn).
    exists result. split; [exact Hres|].
    rewrite Hwarn, Herr, Hrules.
    rewrite !(findings_where_app _ before (the_rule :: after) outs_before (out :: outs_after) Hlen).
    cbn [findings_where]. split; reflexivity.
Qed.

Lemma line_items_rule_is_warning_witness :
  (exists e,
     validate (LineItemsTotalRule default_tolerance) sample_invoice None = Ok [e]
     /\ field e = Some (lit "line_items"))
  /\ validate (LineItemsTotalRule default_tolerance) two_line_invoice None = Ok []
  /\ (exists e,
        validate (LineItemsTotalRule default_tolerance) overbilled_invoice None = Ok [e]
        /\ field e = Some (lit "line_items")).
Proof.
  split; [|split].
  - destruct (line_items_rule_is_warning sample_invoice None 100%float eq_refl)
      as [H _].
    destruct (H eq_refl) as (e & He & _ & Hf).
    exists e. split; assumption.
  - destruct (line_items_rule_is_warning two_line_invoice None 100%float eq_refl)
      as (_ & H & _).
    exact (H eq_refl).
  - destruct (line_items_rule_is_warning overbilled_invoice None 100%float eq_refl)
      as [H _].
    destruct (H eq_refl) as (e & He & _ & Hf).
    exists e. split; assumption.
Defined.

(** ** validator.py: the summary *)

Lemma bump_lookup (counts : gmap str Z) (k key : str) (n : nat) :
  counts !! key = counted n ->
  bump counts k !! key = counted (if str_eqb k key then S n else n).
Proof.
  intros H. unfold bump. destruct (str_eqb k key) eqn:E.
  - apply str_eqb_eq in E as ->. rewrite lookup_insert_eq, H.
    destruct n as [|n]; cbn [counted default]; f_equal; unfold id; lia.
  - apply str_eqb_neq in E. now rewrite lookup_insert_ne.
Qed.

Lemma count_findings_lookup (findings : list ValidationError)
    (counts : gmap str Z) (key : str) (n : nat) :
  counts !! key = counted n ->
  count_findings counts findings !! key = counted (n + occurrences key findings).
Proof.
  revert counts n. unfold count_findings, occurrences.
  induction findings as [|e findings IH]; intros counts n H; cbn [fold_left List.filter].
  - now rewrite Nat.add_0_r.
  - rewrite (IH _ _ (bump_lookup counts (count_key e) key n H)).
    destruct (str_eqb (count_key e) key); cbn [length]; f_equal; lia.
Qed.

Lemma count_findings_app counts xs ys :
  count_findings counts (xs ++ ys) = count_findings (count_findings counts xs) ys.
Proof. unfold count_findings. apply fold_left_app. Qed.

Lemma summary_fold (results : list InvoiceValidationResult) (ec wc : gmap str Z) :
  fold_left (fun '(ec, wc) result =>
               (count_findings ec (errors result), count_findings wc (warnings result)))
            results (ec, wc)
  = (count_findings ec (flat_map errors results),
     count_findings wc (flat_map warnings results)).
Proof.
  revert ec wc. induction results as [|r results IH]; intros ec wc; cbn [fold_left flat_map].
  - reflexivity.
  - now rewrite IH, !count_findings_app.
Qed.

Lemma valid_fold (results : list InvoiceValidationResult) (n : Z) :
  fold_left (fun n r => if is_valid r then (n + 1)%Z else n) results n
  = (n + Z.of_nat (length (List.filter is_valid results)))%Z.
Proof.
  revert n. induction results as [|r results IH]; intros n; cbn [fold_left List.filter].
  - cbn. lia.
  - rewrite IH. destruct (is_valid r); cbn [length]; lia.
Qed.

(** [split(c)[0]]: the text up to the first [c], and the whole text when
    there is none. *)
Lemma before_first_app (c : char) (a b : str) :
  ~ In c a -> before_first c (a ++ c :: b) = a.
Proof.
  induction a as [|x a IH]; intros H; cbn [app before_first].
  - unfold char_eqb. now rewrite N.eqb_refl.
  - unfold char_eqb. destruct (N.eqb_spec x c) as [->|_].
    + destruct H. now left.
    + f_equal. apply IH. intros Hin. apply H. now right.
Qed.

Lemma before_first_none (c : char) (s : str) :
  ~ In c s -> before_first c s = s.
Proof.
  induction s as [|x s IH]; intros H; cbn [before_first]; [reflexivity|].
  unfold char_eqb. destruct (N.eqb_spec x c) as [->|_].
  - destruct H. now left.
  - f_equal. apply IH. intros Hin. apply H. now right.
Qed.

(** C8. The summary counts the results, those with [is_valid] set, and the
    difference of the two; and each of its two dictionaries holds, for every
    key, the number of findings of the whole batch counted under that key (no
    entry for a key that no finding has).  The key of a finding is the name of
    its rule, a colon and a blank, and the message cut before its first
    period: the whole message when it has no period, and what stands before
    the period when the message reads [head.rest] with no period in [head].
    So two findings of one rule whose messages agree up to the first period
    are counted under one key. *)
Theorem summary_counts (results : list InvoiceValidationResult) :
  let s := _generate_summary results in
  total_invoices s = Z.of_nat (length results)
  /\ valid_invoices s = Z.of_nat (length (List.filter is_valid results))
  /\ invalid_invoices s = (total_invoices s - valid_invoices s)%Z
  /\ (forall key : str,
        error_counts s !! key = counted (occurrences key (flat_map errors results)))
  /\ (forall key : str,
        warning_counts s !! key = counted (occurrences key (flat_map warnings results)))
  /\ (forall e : ValidationError,
        count_key e = rule e ++ lit ": " ++ before_first 46 (message e))
  /\ (forall (e : ValidationError) (head rest : str),
        message e = head ++ lit "." ++ rest -> ~ In 46 head ->
        count_key e = rule e ++ lit ": " ++ head)
  /\ (forall e : ValidationError,
        ~ In 46 (message e) -> count_key e = rule e ++ lit ": " ++ message e)
  /\ (forall (e e' : ValidationError) (head rest rest' : str),
        rule e = rule e' -> ~ In 46 head ->
        message e = head ++ lit "." ++ rest -> message e' = head ++ lit "." ++ rest' ->
        count_key e = count_key e')
  /\ count_key {| rule := lit "no_duplicates";
                  message := lit "Duplicate invoice detected. Same invoice_number (INV-1)";
                  field := Some (lit "invoice_number") |}
     = lit "no_duplicates: Duplicate invoice detected".
Proof.
  cbn zeta. unfold _generate_summary. rewrite summary_fold, valid_fold.
  cbn [total_invoices valid_invoices invalid_invoices error_counts warning_counts].
  assert (Hcut : forall (e : ValidationError) (head rest : str),
             message e = head ++ lit "." ++ rest -> ~ In 46 head ->
             count_key e = rule e ++ lit ": " ++ head).
  { intros e head rest Hm Hhead. unfold count_key. rewrite Hm.
    change (head ++ lit "." ++ rest) with (head ++ 46 :: rest).
    now rewrite before_first_app. }
  repeat split.
  - intros key. now rewrite (count_findings_lookup _ ∅ key 0 (lookup_empty key)).
  - intros key. now rewrite (count_findings_lookup _ ∅ key 0 (lookup_empty key)).
  - exact Hcut.
  - intros e Hnone. unfold count_key. now rewrite before_first_none.
  - intros e e' head rest rest' Hrule Hhead Hm Hm'.
    rewrite (Hcut e head rest Hm Hhead), (Hcut e' head rest' Hm' Hhead).
    now rewrite Hrule.
Qed.

(** ** rules.py: duplicates *)

Lemma starts_with_app (x rest : str) : starts_with x (x ++ rest) = true.
Proof.
  induction x as [|c x IH]; cbn; [reflexivity|].
  unfold char_eqb. now rewrite N.eqb_refl.
Qed.

Lemma contains_here (x rest : str) : contains x (x ++ rest) = true.
Proof.
  destruct x as [|c x]; [now destruct rest|].
  cbn [contains app]. change (c :: x ++ rest) with ((c :: x) ++ rest).
  now rewrite starts_with_app.
Qed.

Lemma contains_app (before x rest : str) : contains x (before ++ x ++ rest) = true.
Proof.
  induction before as [|c before IH].
  - exact (contains_here x rest).
  - cbn [app contains]. rewrite IH. apply orb_true_r.
Qed.

Lemma join_names (sep : str) (files : list str) (f : str) :
  In f files -> exists before rest, join sep files = before ++ f ++ rest.
Proof.
  induction files as [|x files IH]; [intros []|].
  intros [->|Hin].
  - destruct files as [|y files].
    + exists [], []. cbn. now rewrite app_nil_r.
    + exists [], (sep ++ join sep (y :: files)). reflexivity.
  - destruct (IH Hin) as (before & rest & Heq).
    destruct files as [|y files]; [destruct Hin|].
    exists (x ++ sep ++ before), rest.
    change (join sep (x :: y :: files)) with (x ++ sep ++ join sep (y :: files)).
    rewrite Heq. now rewrite <- !app_assoc.
Qed.

Lemma join_opt_present (sep : str) (files : list str) :
  join_opt sep (map Some files) = Ok (join sep files).
Proof.
  induction files as [|x files IH]; [reflexivity|].
  cbn [map join_opt join]. destruct files as [|y files]; [reflexivity|].
  cbn [map] in *. now rewrite IH.
Qed.

Lemma is_duplicate_of_spec (invoice inv : Invoice) :
  is_duplicate_of invoice inv = true <->
  invoice_number inv = invoice_number invoice
  /\ seller_name inv = seller_name invoice
  /\ invoice_date inv = invoice_date invoice
  /\ source_file inv <> source_file invoice.
Proof.
  unfold is_duplicate_of. rewrite !andb_true_iff, negb_true_iff, !opt_str_eqb_eq.
  assert (opt_str_eqb (source_file inv) (source_file invoice) = false
          <-> source_file inv <> source_file invoice) as ->.
  { rewrite <- opt_str_eqb_eq. destruct (opt_str_eqb _ _); split; congruence. }
  tauto.
Qed.

(** C3 as stated fails: an invoice whose number is present but empty has a
    twin in the batch (same number, seller and date, another file), and the
    rule reports nothing. *)
Lemma duplicate_rule_empty_number_counterexample :
  invoice_number blank_a = Some []
  /\ In blank_b [blank_a; blank_b]
  /\ invoice_number blank_b = invoice_number blank_a
  /\ seller_name blank_b = seller_name blank_a
  /\ invoice_date blank_b = invoice_date blank_a
  /\ source_file blank_b <> source_file blank_a
  /\ validate DuplicateInvoiceRule blank_a (Some [blank_a; blank_b]) = Ok [].
Proof.
  repeat split; try reflexivity.
  - right; left; reflexivity.
  - discriminate.
Qed.

(** C3, amended. The duplicates of an invoice are the invoices of the batch
    with the same number, seller and date and another source file.  When the
    invoice number is absent or empty, or no batch is given, the rule finds
    nothing.  When the number is not empty and the source files of the
    duplicates are present, the rule finds nothing if there is no duplicate,
    and otherwise exactly one error, on [invoice_number], whose message lists
    the source file of every duplicate. *)
Theorem duplicate_rule_reports_other_files
    (invoice : Invoice) (all_invoices : option (list Invoice)) :
  let check := validate DuplicateInvoiceRule in
  (truthy (invoice_number invoice) = false \/ all_invoices = None ->
   check invoice all_invoices = Ok [])
  /\ (forall number batch,
        invoice_number invoice = Some number -> number <> [] ->
        all_invoices = Some batch ->
        let duplicates := List.filter (is_duplicate_of invoice) batch in
        (forall inv, In inv duplicates <->
                     In inv batch
                     /\ invoice_number inv = invoice_number invoice
                     /\ seller_name inv = seller_name invoice
                     /\ invoice_date inv = invoice_date invoice
                     /\ source_file inv <> source_file invoice)
        /\ (duplicates = [] -> check invoice all_invoices = Ok [])
        /\ (forall files,
              duplicates <> [] -> map source_file duplicates = map Some files ->
              exists e,
                check invoice all_invoices = Ok [e]
                /\ rule e = lit "no_duplicates"
                /\ field e = Some (lit "invoice_number")
                /\ message e = duplicate_message invoice (join (lit ", ") files)
                /\ forall f, In f files -> contains f (message e) = true)).
Proof.
  cbn zeta. cbn [validate DuplicateInvoiceRule]. unfold DuplicateInvoiceRule_validate.
  split.
  - intros [H| ->]; [|reflexivity].
    rewrite H. now destruct all_invoices as [[|]|].
  - intros number batch Hnum Hne ->.
    assert (Ht : truthy (invoice_number invoice) = true)
      by (rewrite Hnum; now destruct number).
    rewrite Ht. cbn [negb]. split; [|split].
    + intros inv. rewrite filter_In, is_duplicate_of_spec. tauto.
    + intros Hnil. destruct batch as [|x batch]; [reflexivity|]. now rewrite Hnil.
    + intros files Hdup Hfiles.
      destruct batch as [|x batch]; [now destruct Hdup|].
      destruct (List.filter (is_duplicate_of invoice) (x :: batch)) as [|d ds] eqn:E;
        [now destruct Hdup|].
      rewrite Hfiles, join_opt_present. cbn [mbind res_bind].
      eexists. split; [reflexivity|]. cbn [rule field message]. repeat split.
      intros f Hin. unfold duplicate_message.
      destruct (join_names (lit ", ") files f Hin) as (before & rest & ->).
      rewrite !app_assoc. rewrite <- (app_assoc _ f rest). apply contains_app.
Qed.

Lemma duplicate_rule_reports_other_files_witness :
  exists e,
    validate DuplicateInvoiceRule inv_a (Some [inv_a; inv_b]) = Ok [e]
    /\ contains (lit "b.pdf") (message e) = true.
Proof.
  destruct (proj2 (duplicate_rule_reports_other_files inv_a (Some [inv_a; inv_b]))
                  (lit "INV-1") [inv_a; inv_b] eq_refl ltac:(discriminate) eq_refl)
    as (_ & _ & H).
  destruct (H [lit "b.pdf"] ltac:(discriminate) eq_refl) as (e & He & _ & _ & _ & Hf).
  exists e. split; [exact He|]. apply Hf. now left.
Defined.

(** Left out of C3 as amended: a duplicate without a source file makes the
    rule raise, when it joins the file names. *)
Lemma duplicate_rule_raises_without_source_file :
  validate DuplicateInvoiceRule inv_a
    (Some [inv_a; invoice_with_ids (Some (lit "INV-1")) (Some (lit "Acme"))
                                   (Some (lit "2024-01-01")) None])
  = Raise TypeError.
Proof. reflexivity. Qed.

(** ** extractor.py: currency *)

Lemma find_ext_in {A} (f g : A -> bool) (l : list A) :
  (forall x, In x l -> f x = g x) -> List.find f l = List.find g l.
Proof.
  induction l as [|x l IH]; intros H; cbn; [reflexivity|].
  rewrite (H x (or_introl eq_refl)). destruct (g x); [reflexivity|].
  apply IH. intros y Hy. apply H. now right.
Qed.

Lemma find_none_of {A} (f : A -> bool) (l : list A) :
  (forall x, In x l -> f x = false) -> List.find f l = None.
Proof.
  induction l as [|x l IH]; intros H; cbn; [reflexivity|].
  rewrite (H x (or_introl eq_refl)). apply IH. intros y Hy. apply H. now right.
Qed.

Lemma starts_with_split (p s : str) :
  starts_with p s = true <-> exists rest, s = p ++ rest.
Proof.
  revert s. induction p as [|x p IH]; intros s; cbn.
  - split; [intros _; now exists s | reflexivity].
  - destruct s as [|y s]; [split; [discriminate | intros [r [=]]]|].
    rewrite andb_true_iff, IH. unfold char_eqb. rewrite N.eqb_eq. split.
    + intros [-> [rest ->]]. now exists rest.
    + intros [rest [= -> ->]]. split; [reflexivity | now exists rest].
Qed.

Lemma drop_length_app {A} (p rest : list A) : drop (length p) (p ++ rest) = rest.
Proof. induction p; cbn; auto. Qed.

(** The character before a position is the last one read. *)
Lemma char_before_last (start : option char) (read : str) :
  char_before start read = match last read with Some c => Some c | None => start end.
Proof.
  revert start. induction read as [|c read IH]; intros start; [reflexivity|].
  cbn [char_before]. rewrite IH. destruct read as [|d read]; [reflexivity|].
  cbn [last]. destruct (last (d :: read)) eqn:E; [reflexivity|].
  now apply last_None in E.
Qed.

Section CurrencyFacts.
Context {RT : Runtime}.

Lemma code_letters (code : str) :
  In code CURRENCY_CODES ->
  exists c rest, code = c :: rest /\ is_word c = true /\ is_word_opt (last code) = true.
Proof.
  cbn. intros H.
  repeat (destruct H as [<-|H]; [eexists _, _; repeat split|]); destruct H.
Qed.

Lemma match_code_at_find (before : option char) (s : str) :
  match_code_at before s = List.find (occurs_at before s) CURRENCY_CODES.
Proof.
  unfold match_code_at.
  destruct (word_boundary before (head s)) eqn:Hb.
  - apply find_ext_in. intros code Hin. unfold occurs_at.
    destruct (starts_with code s) eqn:Hs; [|reflexivity]. cbn [andb].
    destruct (code_letters code Hin) as (c & rest & -> & Hc & Hl).
    apply starts_with_split in Hs as [r ->].
    unfold word_boundary in *. cbn [head app is_word_opt] in Hb.
    rewrite Hc in Hb. rewrite Hl.
    destruct (is_word_opt before); [discriminate|]. reflexivity.
  - symmetry. apply find_none_of. intros code Hin. unfold occurs_at.
    destruct (starts_with code s) eqn:Hs; [|reflexivity]. cbn [andb].
    destruct (code_letters code Hin) as (c & rest & -> & Hc & Hl).
    apply starts_with_split in Hs as [r ->].
    unfold word_boundary in Hb. cbn [head app is_word_opt] in Hb.
    rewrite Hc in Hb. now destruct (is_word_opt before).
Qed.

Lemma occurs_at_split (before : option char) (s code : str) :
  occurs_at before s code = true <->
  exists rest, s = code ++ rest
               /\ is_word_opt before = false /\ is_word_opt (head rest) = false.
Proof.
  unfold occurs_at. rewrite !andb_true_iff, !negb_true_iff, starts_with_split. split.
  - intros [[[rest ->] Hb] Ha]. exists rest. now rewrite drop_length_app in Ha.
  - intros (rest & -> & Hb & Ha). rewrite drop_length_app. eauto.
Qed.

(** What the first pattern finds is a listed code standing as a whole word. *)
Lemma search_code_sound (s : str) (start : option char) (code : str) :
  search_code start s = Some code ->
  exists before after,
    s = before ++ code ++ after /\ In code CURRENCY_CODES
    /\ is_word_opt (char_before start before) = false
    /\ is_word_opt (head after) = false.
Proof.
  revert start. induction s as [|c s IH]; intros start; cbn [search_code];
    rewrite match_code_at_find.
  - destruct (List.find _ _) as [code'|] eqn:F; [|discriminate].
    intros [= ->]. apply find_some in F as [Hin Hocc].
    apply occurs_at_split in Hocc as (rest & -> & Hb & Ha).
    exists [], rest. auto.
  - destruct (List.find _ _) as [code'|] eqn:F.
    + intros [= ->]. apply find_some in F as [Hin Hocc].
      apply occurs_at_split in Hocc as (rest & -> & Hb & Ha).
      exists [], rest. auto.
    + intros H. apply IH in H as (before & after & -> & Hin & Hb & Ha).
      exists (c :: before), after. auto.
Qed.

(** The first pattern finds a code as soon as one stands as a whole word, and
    what it finds does not start further right. *)
Lemma search_code_complete (before : str) (start : option char) (s code after : str) :
  s = before ++ code ++ after -> In code CURRENCY_CODES ->
  is_word_opt (char_before start before) = false ->
  is_word_opt (head after) = false ->
  exists before' code' after',
    search_code start s = Some code'
    /\ s = before' ++ code' ++ after' /\ In code' CURRENCY_CODES
    /\ is_word_opt (char_before start before') = false
    /\ is_word_opt (head after') = false
    /\ (length before' <= length before)%nat.
Proof.
  revert start s. induction before as [|c before IH]; intros start s -> Hin Hb Ha.
  - assert (Hocc : occurs_at start (code ++ after) code = true)
      by (apply occurs_at_split; eauto).
    destruct (List.find (occurs_at start (code ++ after)) CURRENCY_CODES)
      as [code'|] eqn:F.
    + pose proof F as F'. apply find_some in F' as [Hin' Hocc'].
      apply occurs_at_split in Hocc' as (rest & Heq & Hb' & Ha').
      exists [], code', rest. cbn [app].
      destruct (code ++ after); cbn [search_code]; rewrite match_code_at_find, F;
        auto 10.
    + now rewrite (find_none _ _ F code Hin) in Hocc.
  - cbn [app search_code]. rewrite match_code_at_find.
    destruct (List.find _ _) as [code'|] eqn:F.
    + apply find_some in F as [Hin' Hocc'].
      apply occurs_at_split in Hocc' as (rest & Heq & Hb' & Ha').
      exists [], code', rest. cbn [app length char_before].
      repeat split; auto; try lia; try (now rewrite Heq).
    + destruct (IH (Some c) _ eq_refl Hin Hb Ha)
        as (before' & code' & after' & Hs & Heq & Hin' & Hb' & Ha' & Hlen).
      exists (c :: before'), code', after'. cbn [app length char_before].
      repeat split; auto; try lia. now rewrite Heq.
Qed.

Lemma search_symbol_first (before : str) (sym : char) (after : str) :
  In sym CURRENCY_SYMBOLS ->
  (forall c, In c before -> ~ In c CURRENCY_SYMBOLS) ->
  search_symbol (before ++ sym :: after) = Some [sym].
Proof.
  intros Hsym. induction before as [|c before IH]; intros Hno; cbn [app search_symbol].
  - assert (existsb (char_eqb sym) CURRENCY_SYMBOLS = true) as ->; [|reflexivity].
    apply existsb_exists. exists sym. split; [exact Hsym | apply N.eqb_refl].
  - destruct (existsb (char_eqb c) CURRENCY_SYMBOLS) eqn:E.
    + apply existsb_exists in E as (x & Hx & Hcx). apply N.eqb_eq in Hcx as ->.
      destruct (Hno x (or_introl eq_refl) Hx).
    + apply IH. intros x Hx. apply Hno. now right.
Qed.

Lemma search_symbol_none (s : str) :
  (forall c, In c s -> ~ In c CURRENCY_SYMBOLS) -> search_symbol s = None.
Proof.
  induction s as [|c s IH]; intros Hno; cbn [search_symbol]; [reflexivity|].
  destruct (existsb (char_eqb c) CURRENCY_SYMBOLS) eqn:E.
  - apply existsb_exists in E as (x & Hx & Hcx). apply N.eqb_eq in Hcx as ->.
    destruct (Hno x (or_introl eq_refl) Hx).
  - apply IH. intros x Hx. apply Hno. now right.
Qed.

End CurrencyFacts.

(** C5 as stated fails: [CHF] is a currency code (one the currency rule
    accepts), it appears in the text, and nothing is extracted. *)
Lemma extract_currency_unlisted_code_counterexample :
  str_in (lit "CHF") VALID_CURRENCIES = true
  /\ contains (lit "CHF") (lit "Total: CHF 100") = true
  /\ (forall RT : Runtime, @_extract_currency RT (lit "Total: CHF 100") = None).
Proof. repeat split. Qed.

(** C5, amended. If one of the eight codes USD, EUR, GBP, INR, JPY, CNY, CAD,
    AUD stands in the text as a whole word, currency extraction returns such a
    code, the one standing leftmost; otherwise, if one of the symbols €, $, £,
    ¥ appears, it returns EUR, USD, GBP, JPY respectively for the leftmost
    symbol; otherwise the currency is absent. *)
Theorem extract_currency_precedence {RT : Runtime} (text : str) :
  let no_code :=
    forall before code after,
      text = before ++ code ++ after -> In code CURRENCY_CODES ->
      ~ whole_word before after in
  (forall before code after,
      text = before ++ code ++ after -> In code CURRENCY_CODES ->
      whole_word before after ->
      exists before' code' after',
        _extract_currency text = Some code'
        /\ In code' CURRENCY_CODES
        /\ text = before' ++ code' ++ after' /\ whole_word before' after'
        /\ (length before' <= length before)%nat)
  /\ (no_code ->
      forall before sym after,
        text = before ++ sym :: after -> In sym CURRENCY_SYMBOLS ->
        (forall c, In c before -> ~ In c CURRENCY_SYMBOLS) ->
        exists code,
          _extract_currency text = Some code
          /\ In (sym, code) [ (EURO, lit "EUR"); (DOLLAR, lit "USD");
                              (POUND, lit "GBP"); (YEN, lit "JPY") ])
  /\ (no_code -> (forall c, In c text -> ~ In c CURRENCY_SYMBOLS) ->
      _extract_currency text = None).
Proof.
  cbn zeta.
  assert (Hnone : (forall before code after,
                      text = before ++ code ++ after -> In code CURRENCY_CODES ->
                      ~ whole_word before after) ->
                  search_code None text = None).
  { intros Hno. destruct (search_code None text) as [code|] eqn:E; [|reflexivity].
    apply search_code_sound in E as (before & after & Heq & Hin & Hb & Ha).
    destruct (Hno before code after Heq Hin). now split. }
  unfold _extract_currency, CURRENCY_PATTERNS. cbn [_extract_currency_loop].
  split; [|split].
  - intros before code after Heq Hin [Hb Ha].
    destruct (search_code_complete before None text code after Heq Hin Hb Ha)
      as (before' & code' & after' & Hs & Heq' & Hin' & Hb' & Ha' & Hlen).
    exists before', code', after'. rewrite Hs.
    assert (dict_get currency_map code' = None) as ->.
    { cbn in Hin'. repeat (destruct Hin' as [<-|Hin']; [reflexivity|]). destruct Hin'. }
    repeat split; auto.
  - intros Hno before sym after -> Hsym Hclean.
    rewrite (Hnone Hno), (search_symbol_first before sym after Hsym Hclean).
    cbn in Hsym.
    repeat (destruct Hsym as [<-|Hsym]; [eexists; split; [reflexivity|cbn; tauto]|]).
    destruct Hsym.
  - intros Hno Hclean. now rewrite (Hnone Hno), (search_symbol_none text Hclean).
Qed.

Lemma extract_currency_precedence_witness :
  exists code,
    @_extract_currency ascii_runtime (lit "Total: " ++ [EURO] ++ lit "100 USD")
    = Some code
    /\ In code CURRENCY_CODES.
Proof.
  destruct (proj1 (@extract_currency_precedence ascii_runtime
                     (lit "Total: " ++ [EURO] ++ lit "100 USD"))
                  (lit "Total: " ++ [EURO] ++ lit "100 ") (lit "USD") []
                  eq_refl ltac:(now left) ltac:(now split))
    as (before' & code' & after' & He & Hin & _).
  exists code'. split; assumption.
Defined.

(** ** extractor.py: amounts *)

Lemma remove_char_none (c : char) (s : str) : ~ In c s -> remove_char c s = s.
Proof.
  unfold remove_char. induction s as [|x s IH]; intros H; cbn; [reflexivity|].
  unfold char_eqb. destruct (N.eqb_spec x c) as [->|_].
  - destruct H. now left.
  - cbn. f_equal. apply IH. intros Hin. apply H. now right.
Qed.

Lemma remove_char_app (c : char) (a b : str) :
  remove_char c (a ++ c :: b) = remove_char c a ++ remove_char c b.
Proof.
  unfold remove_char. rewrite List.filter_app. cbn.
  unfold char_eqb. now rewrite N.eqb_refl.
Qed.

Lemma remove_char_clean (c : char) (s : str) : ~ In c (remove_char c s).
Proof.
  unfold remove_char. rewrite filter_In. intros [_ H].
  unfold char_eqb in H. now rewrite N.eqb_refl in H.
Qed.

(** C6. Amount parsing deletes every comma (and nothing else), strips the
    text, and returns what [float] makes of it; when [float] rejects the text
    it returns exactly 0.0.  It returns in every case.  ["1,234.50"] gives
    1234.5. *)
Theorem parse_amount_never_raises {RT : Runtime} (amount_str : str) :
  let without_commas := remove_char 44 amount_str in
  let cleaned := strip without_commas in
  (~ In 44 without_commas
   /\ (~ In 44 amount_str -> without_commas = amount_str)
   /\ (forall a b, amount_str = a ++ 44 :: b ->
                   without_commas = remove_char 44 a ++ remove_char 44 b))
  /\ (forall x, py_float cleaned = Ok x -> _parse_amount amount_str = Ok x)
  /\ (forall e, py_float cleaned = Raise e -> _parse_amount amount_str = Ok 0%float)
  /\ (exists x, _parse_amount amount_str = Ok x)
  /\ _parse_amount (lit "1,234.50") = Ok 1234.5%float
  /\ _parse_amount (lit "12 apples") = Ok 0%float.
Proof.
  cbn zeta. unfold _parse_amount. repeat split.
  - apply remove_char_clean.
  - apply remove_char_none.
  - intros a b ->. apply remove_char_app.
  - now intros x ->.
  - now intros e ->.
  - destruct (py_float _) as [x|e]; cbn; eauto.
Qed.

(** ** extractor.py: dates *)

(** The year as [%Y] writes it: its decimal numeral, on four digits from the
    year 1000 on and on fewer before. *)
Lemma year_text (y : N) :
  1 <= y <= 9999 ->
  is_numeral_of y (str_of_N y)
  /\ (1000 <= y -> length (str_of_N y) = 4%nat)
  /\ (y < 1000 -> (length (str_of_N y) < 4)%nat).
Proof.
  intros Hy.
  assert (H : forallb (fun n => year_text_ok (N.of_nat n)) (seq 1 (N.to_nat 9999)) = true)
    by (vm_compute; reflexivity).
  rewrite forallb_forall in H. specialize (H (N.to_nat y)).
  rewrite N2Nat.id in H.
  assert (Hin : In (N.to_nat y) (seq 1 (N.to_nat 9999))) by (apply in_seq; lia).
  specialize (H Hin). unfold year_text_ok in H.
  rewrite !andb_true_iff, N.eqb_eq in H. destruct H as [[[Hd Hh] Hv] Hl].
  split; [|split].
  - unfold is_numeral_of. destruct (str_of_N y) as [|c s]; [discriminate|].
    repeat split; auto; try discriminate.
    cbn [hd_error]. intros [= ->]. discriminate.
  - intros Hbig. destruct (N.ltb_spec y 1000); [lia|]. now apply Nat.eqb_eq.
  - intros Hsmall. destruct (N.ltb_spec y 1000); [|lia]. now apply Nat.ltb_lt.
Qed.

Lemma zero_pad_2_digits (m : N) : m < 100 -> all_digits 2 (zero_pad 2 m) = true.
Proof.
  intros Hm.
  assert (H : forallb (fun n => all_digits 2 (zero_pad 2 (N.of_nat n))) (seq 0 (N.to_nat 100)) = true)
    by (vm_compute; reflexivity).
  rewrite forallb_forall in H. specialize (H (N.to_nat m)).
  rewrite N2Nat.id in H. apply H, in_seq. lia.
Qed.

Lemma days_in_month_le (y m : N) : days_in_month y m <= 31.
Proof.
  unfold days_in_month.
  destruct (m =? 2); [destruct (is_leap y); lia|].
  destruct ((m =? 4) || (m =? 6) || (m =? 9) || (m =? 11)); lia.
Qed.

Lemma two_digits_text (n : N) : n < 100 -> is_two_digits_of n (zero_pad 2 n).
Proof.
  intros Hn.
  assert (H : forallb (fun k => two_digits_ok (N.of_nat k)) (seq 0 (N.to_nat 100)) = true)
    by (vm_compute; reflexivity).
  rewrite forallb_forall in H. specialize (H (N.to_nat n)).
  rewrite N2Nat.id in H.
  assert (Hin : In (N.to_nat n) (seq 0 (N.to_nat 100))) by (apply in_seq; lia).
  specialize (H Hin). unfold two_digits_ok in H.
  destruct (zero_pad 2 n) as [|a [|b [|c s]]]; try discriminate.
  rewrite !andb_true_iff, N.eqb_eq in H. destruct H as [[Ha Hb] Hv].
  exists a, b. auto.
Qed.

Lemma valid_date_bounds (y m d : N) :
  valid_date y m d = true -> 1 <= y <= 9999 /\ 1 <= m <= 12 /\ 1 <= d <= 31.
Proof.
  unfold valid_date. rewrite !andb_true_iff, !N.leb_le.
  pose proof (days_in_month_le y m). lia.
Qed.

(** What [strftime] writes for a date that [datetime] accepts: the numeral of
    the year, the two digits of the month and the two digits of the day,
    hyphens between them. *)
Lemma strftime_ymd_parts (dt : date) :
  valid_date (year dt) (month dt) (day dt) = true ->
  exists yyyy mm dd,
    strftime_ymd dt = yyyy ++ lit "-" ++ mm ++ lit "-" ++ dd
    /\ is_numeral_of (year dt) yyyy
    /\ is_two_digits_of (month dt) mm
    /\ is_two_digits_of (day dt) dd
    /\ (1000 <= year dt -> length yyyy = 4%nat)
    /\ (year dt < 1000 -> (length yyyy < 4)%nat).
Proof.
  intros Hv. apply valid_date_bounds in Hv as (Hy & Hm & Hd).
  destruct (year_text (year dt) Hy) as (Hnum & Hbig & Hsmall).
  exists (str_of_N (year dt)), (zero_pad 2 (month dt)), (zero_pad 2 (day dt)).
  split; [reflexivity|]. split; [exact Hnum|].
  split; [apply two_digits_text; lia|]. split; [apply two_digits_text; lia|].
  split; assumption.
Qed.

(** From the year 1000 on the text has the shape [YYYY-MM-DD]; before, it has
    not, the year being shorter. *)
Lemma strftime_ymd_shape (dt : date) :
  valid_date (year dt) (month dt) (day dt) = true ->
  (1000 <= year dt -> is_ymd (strftime_ymd dt))
  /\ (year dt < 1000 -> ~ is_ymd (strftime_ymd dt)).
Proof.
  intros Hv.
  destruct (strftime_ymd_parts dt Hv) as (yyyy & mm & dd & -> & Hy & Hm & Hd & Hbig & Hsmall).
  destruct Hy as (Hdigits & _ & _ & _).
  destruct Hm as (m1 & m2 & -> & Hm1 & Hm2 & _).
  destruct Hd as (d1 & d2 & -> & Hd1 & Hd2 & _).
  split.
  - intros Hge. exists yyyy, [m1; m2], [d1; d2]. split; [reflexivity|].
    unfold all_digits. rewrite (Hbig Hge), Hdigits. cbn [forallb length Nat.eqb andb].
    now rewrite Hm1, Hm2, Hd1, Hd2.
  - intros Hlt (y4 & mm & dd & Heq & Hy4 & _). specialize (Hsmall Hlt).
    unfold all_digits in Hy4. rewrite andb_true_iff, Nat.eqb_eq in Hy4.
    destruct Hy4 as [Hlen Hall].
    destruct y4 as [|a [|b [|c [|d [|x y4]]]]]; try discriminate.
    cbn [forallb] in Hall. rewrite !andb_true_iff in Hall.
    destruct Hall as (Ha & Hb & Hc & Hd & _).
    destruct yyyy as [|p [|q [|r [|z yyyy]]]]; cbn [length] in Hsmall; try lia;
      cbn in Heq; injection Heq; intros; subst; discriminate.
Qed.

Lemma digit_cases (c : char) :
  is_ascii_digit c = true -> In c [48; 49; 50; 51; 52; 53; 54; 55; 56; 57].
Proof.
  unfold is_ascii_digit. rewrite andb_true_iff, !N.leb_le. cbn [In]. lia.
Qed.

Ltac each_case :=
  repeat match goal with
         | H : _ \/ _ |- _ => destruct H as [<-|H]
         | H : False |- _ => destruct H
         end.

Lemma digit_not_space (c : char) : is_ascii_digit c = true -> isspace c = false.
Proof.
  intros H. apply digit_cases in H. cbn [In] in H. each_case; reflexivity.
Qed.

Lemma strip_fix (s : str) : lstrip s = s -> lstrip (rev s) = rev s -> strip s = s.
Proof.
  intros H1 H2. unfold strip, rstrip. now rewrite H1, H2, rev_involutive.
Qed.

(** A text that starts and ends with a digit is its own [strip()]. *)
Lemma strip_digits (a z : char) (mid : str) :
  is_ascii_digit a = true -> is_ascii_digit z = true ->
  strip (a :: mid ++ [z]) = a :: mid ++ [z].
Proof.
  intros Ha Hz. apply strip_fix.
  - cbn [lstrip]. now rewrite (digit_not_space a Ha).
  - change (a :: mid ++ [z]) with ((a :: mid) ++ [z]).
    rewrite rev_app_distr. cbn [rev List.app lstrip].
    now rewrite (digit_not_space z Hz).
Qed.

(** The four digits of a year from 1000 on. *)
Lemma year_four_digits (y : N) :
  1000 <= y <= 9999 ->
  exists a b c e,
    str_of_N y = [a; b; c; e]
    /\ is_ascii_digit a = true /\ is_ascii_digit b = true
    /\ is_ascii_digit c = true /\ is_ascii_digit e = true
    /\ y = 1000 * (a - 48) + 100 * (b - 48) + 10 * (c - 48) + (e - 48).
Proof.
  intros Hy. destruct (year_text y) as ((Hd & _ & _ & Hv) & Hlen & _); [lia|].
  specialize (Hlen ltac:(lia)).
  destruct (str_of_N y) as [|a [|b [|c [|e [|x s]]]]]; try discriminate.
  cbn [forallb] in Hd. rewrite !andb_true_iff in Hd.
  destruct Hd as (Ha & Hb & Hc & He & _).
  exists a, b, c, e. repeat split; auto.
  cbn [fold_left] in Hv. lia.
Qed.

Lemma list_bind_assoc {A B C} (f : A -> list B) (g : B -> list C) (l : list A) :
  (l ≫= f) ≫= g = l ≫= (fun x => f x ≫= g).
Proof.
  induction l as [|x l IH]; [reflexivity|].
  rewrite !bind_cons, bind_app, IH. reflexivity.
Qed.

Section DateFacts.
Context {RT : Runtime}.

Lemma strptime_valid (data_string format : str) (dt : date) :
  strptime data_string format = Ok dt ->
  valid_date (year dt) (month dt) (day dt) = true.
Proof.
  unfold strptime.
  destruct (match_items _ _ _) as [|[f [|c rest]] others]; try discriminate.
  destruct (valid_date _ _ _) eqn:E; [|discriminate].
  now intros [= <-].
Qed.

(** The loop skips the formats that raise and stops at the first that parses. *)
Lemma normalize_date_loop_first (date_str : str) (tried : list str)
    (fmt : str) (rest : list str) (dt : date) :
  (forall f, In f tried -> exists e, strptime (strip date_str) f = Raise e) ->
  strptime (strip date_str) fmt = Ok dt ->
  _normalize_date_loop date_str (tried ++ fmt :: rest) = Ok (strftime_ymd dt).
Proof.
  intros Htried Hfmt. induction tried as [|f tried IH]; cbn [app _normalize_date_loop].
  - now rewrite Hfmt.
  - destruct (Htried f (or_introl eq_refl)) as [e ->]. cbn.
    apply IH. intros g Hg. apply Htried. now right.
Qed.

Lemma normalize_date_loop_none (date_str : str) (formats : list str) :
  (forall f, In f formats -> exists e, strptime (strip date_str) f = Raise e) ->
  _normalize_date_loop date_str formats = Ok date_str.
Proof.
  induction formats as [|f formats IH]; intros H; cbn [_normalize_date_loop].
  - reflexivity.
  - destruct (H f (or_introl eq_refl)) as [e ->]. cbn.
    apply IH. intros g Hg. apply H. now right.
Qed.

Lemma normalize_date_loop_total (date_str : str) (formats : list str) :
  exists out, _normalize_date_loop date_str formats = Ok out.
Proof.
  induction formats as [|f formats IH]; cbn [_normalize_date_loop]; [eauto|].
  destruct (strptime (strip date_str) f) as [dt|e]; cbn; eauto.
Qed.

(** Matching a format cut in two: the first part, then the second from what
    the first left. *)
Lemma match_items_app (its1 its2 : list fmt_item) (f : fields) (s : str) :
  match_items (its1 ++ its2) f s
  = '(f', s') ← match_items its1 f s; match_items its2 f' s'.
Proof.
  revert f s. induction its1 as [|it its1 IH]; intros f s; cbn [List.app match_items].
  - now rewrite bind_singleton.
  - rewrite list_bind_assoc. apply list_bind_ext; [|reflexivity].
    intros [f' s']. apply IH.
Qed.

Lemma match_Y_digits (a b c d : char) (s : str) :
  is_ascii_digit a = true -> is_ascii_digit b = true ->
  is_ascii_digit c = true -> is_ascii_digit d = true ->
  match_Y (a :: b :: c :: d :: s)
  = [(1000 * (a - 48) + 100 * (b - 48) + 10 * (c - 48) + (d - 48), s)].
Proof.
  intros Ha Hb Hc Hd. unfold match_Y, any_digit, digit_value.
  rewrite Ha. cbn [mbind list_bind List.app].
  rewrite Hb. cbn [mbind list_bind List.app].
  rewrite Hc. cbn [mbind list_bind List.app].
  rewrite Hd. reflexivity.
Qed.

(** [%d/%m/] reads a day and a month written on two digits each. *)
Lemma day_month_prefix (f : fields) (d m : N) (rest : str) :
  1 <= d <= 31 -> 1 <= m <= 12 ->
  match_items [FDir 100; FLit 47; FDir 109; FLit 47] f
              (zero_pad 2 d ++ 47 :: zero_pad 2 m ++ 47 :: rest)
  = [(set_month m (set_day d f), rest)].
Proof.
  intros Hd Hm.
  assert (Hm' : In m [1; 2; 3; 4; 5; 6; 7; 8; 9; 10; 11; 12]) by (cbn [In]; lia).
  assert (Hd' : In d [1; 2; 3; 4; 5; 6; 7; 8; 9; 10; 11; 12; 13; 14; 15; 16; 17; 18;
                      19; 20; 21; 22; 23; 24; 25; 26; 27; 28; 29; 30; 31])
    by (cbn [In]; lia).
  clear Hm Hd. cbn [In] in Hm', Hd'. each_case; vm_compute; reflexivity.
Qed.

(** A date of the calendar from the year 1000 on, written day/month/year on
    two, two and four digits, is read by the first format as that date. *)
Lemma strptime_day_first (y m d : N) :
  valid_date y m d = true -> 1000 <= y ->
  strptime (zero_pad 2 d ++ lit "/" ++ zero_pad 2 m ++ lit "/" ++ str_of_N y)
           (lit "%d/%m/%Y")
  = Ok {| year := y; month := m; day := d |}.
Proof.
  intros Hv Hbig. destruct (valid_date_bounds y m d Hv) as (Hy & Hm & Hd).
  destruct (year_four_digits y) as (a & b & c & e & -> & Ha & Hb & Hc & He & Hval);
    [lia|].
  unfold strptime.
  change (parse_format false (lit "%d/%m/%Y"))
    with ([FDir 100; FLit 47; FDir 109; FLit 47] ++ [FDir 89]).
  change (zero_pad 2 d ++ lit "/" ++ zero_pad 2 m ++ lit "/" ++ [a; b; c; e])
    with (zero_pad 2 d ++ 47 :: zero_pad 2 m ++ 47 :: [a; b; c; e]).
  rewrite match_items_app, (day_month_prefix _ d m _ Hd Hm), bind_singleton.
  cbn [match_items match_item N.eqb Pos.eqb].
  rewrite match_Y_digits by assumption. rewrite <- Hval.
  cbn [mbind list_bind List.app].
  cbn [f_year f_month_no f_day set_day set_month set_year no_fields default].
  unfold id. now rewrite Hv.
Qed.

Lemma day_first_stripped (y m d : N) :
  valid_date y m d = true -> 1000 <= y ->
  strip (zero_pad 2 d ++ lit "/" ++ zero_pad 2 m ++ lit "/" ++ str_of_N y)
  = zero_pad 2 d ++ lit "/" ++ zero_pad 2 m ++ lit "/" ++ str_of_N y.
Proof.
  intros Hv Hbig. destruct (valid_date_bounds y m d Hv) as (Hy & Hm & Hd).
  destruct (year_four_digits y) as (a & b & c & e & -> & Ha & Hb & Hc & He & _);
    [lia|].
  destruct (two_digits_text d) as (d1 & d2 & -> & Hd1 & _); [lia|].
  destruct (two_digits_text m) as (m1 & m2 & -> & _); [lia|].
  exact (strip_digits d1 e [d2; 47; m1; m2; 47; a; b; c] Hd1 He).
Qed.

End DateFacts.

(** C7. Date normalization tries the formats day/month/year, month/day/year,
    ISO, dashed and dotted day-month-year, and day, month name (full, then
    abbreviated), year, in this order, on the stripped text.  The first format
    that parses decides: the result is the year, the month and the day of that
    date, written as the numeral of the year, the two digits of the month and
    the two digits of the day with hyphens between them.  From the year 1000
    on this is the shape [YYYY-MM-DD]; for an earlier year it is not, the
    year being written without leading zeros: ["01/02/0099"] gives
    ["99-02-01"].  The day comes first: every date of the calendar from the
    year 1000 on, written [DD/MM/YYYY], gives [YYYY-MM-DD] with the same
    digits.  If no format parses the text is returned as it came.  It returns
    in every case.  ["31/12/2024"], ["2024-12-31"] and
    ["31 Dec 2024"] all give ["2024-12-31"]. *)
Theorem normalize_date_first_format_wins {RT : Runtime} (date_str : str) :
  date_formats = [ lit "%d/%m/%Y"; lit "%m/%d/%Y"; lit "%Y-%m-%d";
                   lit "%d-%m-%Y"; lit "%d.%m.%Y";
                   lit "%d %B %Y"; lit "%d %b %Y" ]
  /\ (forall tried fmt rest dt,
        date_formats = tried ++ fmt :: rest ->
        (forall f, In f tried -> exists e, strptime (strip date_str) f = Raise e) ->
        strptime (strip date_str) fmt = Ok dt ->
        _normalize_date date_str = Ok (strftime_ymd dt)
        /\ (exists yyyy mm dd,
              strftime_ymd dt = yyyy ++ lit "-" ++ mm ++ lit "-" ++ dd
              /\ is_numeral_of (year dt) yyyy
              /\ is_two_digits_of (month dt) mm
              /\ is_two_digits_of (day dt) dd
              /\ (1000 <= year dt -> length yyyy = 4%nat)
              /\ (year dt < 1000 -> (length yyyy < 4)%nat))
        /\ (1000 <= year dt -> is_ymd (strftime_ymd dt))
        /\ (year dt < 1000 -> ~ is_ymd (strftime_ymd dt)))
  /\ ((forall f, In f date_formats -> exists e, strptime (strip date_str) f = Raise e) ->
      _normalize_date date_str = Ok date_str)
  /\ (exists out, _normalize_date date_str = Ok out)
  /\ (forall y m d,
        valid_date y m d = true -> 1000 <= y ->
        _normalize_date (zero_pad 2 d ++ lit "/" ++ zero_pad 2 m ++ lit "/" ++ str_of_N y)
        = Ok (str_of_N y ++ lit "-" ++ zero_pad 2 m ++ lit "-" ++ zero_pad 2 d))
  /\ _normalize_date (lit "31/12/2024") = Ok (lit "2024-12-31")
  /\ _normalize_date (lit "2024-12-31") = Ok (lit "2024-12-31")
  /\ _normalize_date (lit "31 Dec 2024") = Ok (lit "2024-12-31")
  /\ _normalize_date (lit "01/02/2024") = Ok (lit "2024-02-01")
  /\ _normalize_date (lit "01/02/0099") = Ok (lit "99-02-01")
  /\ ~ is_ymd (lit "99-02-01").
Proof.
  split; [reflexivity|]. split; [|split; [|split; [|split]]].
  - intros tried fmt rest dt Hfmts Htried Hfmt. unfold _normalize_date.
    rewrite Hfmts. pose proof (strptime_valid _ _ _ Hfmt) as Hv.
    split; [now apply normalize_date_loop_first|].
    split; [now apply strftime_ymd_parts|].
    now apply strftime_ymd_shape.
  - apply normalize_date_loop_none.
  - apply normalize_date_loop_total.
  - intros y m d Hv Hbig. unfold _normalize_date.
    apply (normalize_date_loop_first _ [] (lit "%d/%m/%Y") _
             {| year := y; month := m; day := d |}); [intros f []|].
    rewrite (day_first_stripped y m d Hv Hbig).
    now apply strptime_day_first.
  - do 5 (split; [reflexivity|]).
    exact (proj2 (strftime_ymd_shape {| year := 99; month := 2; day := 1 |} eq_refl)
                 eq_refl).
Qed.

Lemma normalize_date_first_format_wins_witness :
  @_normalize_date ascii_runtime (lit "12/31/2024") = Ok (lit "2024-12-31").
Proof.
  refine (proj1 (proj1 (proj2 (@normalize_date_first_format_wins ascii_runtime
                                 (lit "12/31/2024")))
                       [lit "%d/%m/%Y"] (lit "%m/%d/%Y")
                       [lit "%Y-%m-%d"; lit "%d-%m-%Y"; lit "%d.%m.%Y";
                        lit "%d %B %Y"; lit "%d %b %Y"]
                       {| year := 2024; month := 12; day := 31 |}
                       eq_refl _ eq_refl)).
  intros f [<-|[]]. exists ValueError. reflexivity.
Defined.

(** ** extractor.py: line-item rows *)

Lemma for_each_total {A S} (body : S -> A -> res S) :
  (forall s x, exists s', body s x = Ok s') ->
  forall xs s, exists s', for_each body xs s = Ok s'.
Proof.
  intros H xs. induction xs as [|x xs IH]; intros s; cbn [for_each]; [eauto|].
  destruct (H s x) as [s' ->]. apply IH.
Qed.

Lemma enumerate_from_app {A} (start : nat) (a b : list A) :
  enumerate_from start (a ++ b)
  = enumerate_from start a ++ enumerate_from (start + length a) b.
Proof.
  revert start. induction a as [|x a IH]; intros start; cbn.
  - now rewrite Nat.add_0_r.
  - rewrite IH. do 3 f_equal. lia.
Qed.

Lemma index_lt {A} (xs : list A) (i : nat) :
  (i < length xs)%nat -> exists x, xs !! i = Some x /\ index xs i = Ok x.
Proof.
  intros H. unfold index.
  destruct (lookup_lt_is_Some_2 xs i H) as [x Hx]. exists x. now rewrite Hx.
Qed.

Section TableFacts.
Context {RT : Runtime}.

Lemma parse_amount_ok (s : str) : exists x, _parse_amount s = Ok x.
Proof. unfold _parse_amount. destruct (py_float _); cbn; eauto. Qed.

(** One cell: the loop body returns, and the description it leaves is the one
    read from the cell if the cell stands under a description column. *)
Lemma parse_cell_spec (header : list str) (item : LineItem)
    (idx : nat) (cell : option str) :
  exists item',
    parse_cell header item (idx, cell) = Ok item'
    /\ description item' =
       read_description (description_cells_from idx header [cell]) (description item).
Proof.
  unfold description_cells_from, read_description. cbn [enumerate_from flat_map].
  rewrite app_nil_r. unfold parse_cell.
  destruct cell as [[|c text]|].
  - exists item. split; [reflexivity|].
    destruct (header !! idx) as [h|]; [destruct (is_description_col h)|]; reflexivity.
  - destruct (Nat.leb_spec (length header) idx) as [Hge|Hlt].
    + exists item. split; [reflexivity|].
      now rewrite (lookup_ge_None_2 header idx Hge).
    + destruct (index_lt header idx Hlt) as (h & Hh & ->). rewrite Hh.
      cbn [mbind res_bind].
      destruct (is_description_col h); [eexists; split; reflexivity|].
      destruct (is_quantity_col h).
      { destruct (py_float _); cbn; eexists; split; reflexivity. }
      destruct (is_unit_price_col h).
      { destruct (parse_amount_ok (strip (c :: text))) as [x ->].
        cbn. eexists; split; reflexivity. }
      destruct (is_total_col h).
      { destruct (parse_amount_ok (strip (c :: text))) as [x ->].
        cbn. eexists; split; reflexivity. }
      eexists; split; reflexivity.
  - exists item. split; [reflexivity|].
    destruct (header !! idx) as [h|]; [destruct (is_description_col h)|]; reflexivity.
Qed.

(** A cell that is empty, or numbered past the header, is skipped. *)
Lemma parse_cell_skip (header : list str) (item : LineItem)
    (idx : nat) (cell : option str) :
  truthy cell = false \/ (length header <= idx)%nat ->
  parse_cell header item (idx, cell) = Ok item.
Proof.
  unfold parse_cell. destruct cell as [[|c text]|]; try reflexivity.
  intros [H|H]; [discriminate|].
  now rewrite (proj2 (Nat.leb_le _ _) H).
Qed.

Lemma parse_row_from (header : list str) (row : list (option str))
    (start : nat) (item : LineItem) :
  exists item',
    for_each (parse_cell header) (enumerate_from start row) item = Ok item'
    /\ description item' =
       read_description (description_cells_from start header row) (description item).
Proof.
  revert start item. induction row as [|cell row IH]; intros start item.
  - exists item. split; reflexivity.
  - destruct (parse_cell_spec header item start cell) as (item1 & H1 & D1).
    destruct (IH (S start) item1) as (item2 & H2 & D2).
    exists item2. cbn [enumerate_from]. rewrite (for_each_cons_ok _ _ _ _ _ H1).
    split; [exact H2|]. rewrite D2, D1.
    unfold description_cells_from, read_description.
    cbn [enumerate_from flat_map]. rewrite app_nil_r. now rewrite fold_left_app.
Qed.

Lemma parse_row_past_header (header : list str) (row : list (option str))
    (start : nat) (item : LineItem) :
  (length header <= start)%nat ->
  for_each (parse_cell header) (enumerate_from start row) item = Ok item.
Proof.
  revert start. induction row as [|cell row IH]; intros start H; [reflexivity|].
  cbn [enumerate_from].
  rewrite (for_each_cons_ok _ _ _ _ _ (parse_cell_skip header item start cell (or_intror H))).
  apply IH. lia.
Qed.

End TableFacts.

(** C10. Parsing a row returns a line item whatever the row and the header:
    every cell is handled without an exception, a cell that is empty or whose
    number is at or past the length of the header leaves the item as it is,
    and so the cells past the header play no part in the result. *)
Theorem parse_line_item_row_total {RT : Runtime}
    (row : list (option str)) (header : list str) :
  (exists item, _parse_line_item_row row header = Ok item)
  /\ (forall item idx cell, exists item', parse_cell header item (idx, cell) = Ok item')
  /\ (forall item idx cell,
        truthy cell = false \/ (length header <= idx)%nat ->
        parse_cell header item (idx, cell) = Ok item)
  /\ (forall idx, (idx < length header)%nat -> exists h, index header idx = Ok h)
  /\ _parse_line_item_row row header
     = _parse_line_item_row (take (length header) row) header.
Proof.
  split; [|split; [|split; [|split]]].
  - unfold _parse_line_item_row, enumerate.
    destruct (parse_row_from header row 0 LineItem_new) as (item & H & _). eauto.
  - intros item idx cell.
    destruct (parse_cell_spec header item idx cell) as (item' & H & _). eauto.
  - apply parse_cell_skip.
  - intros idx H. destruct (index_lt header idx H) as (h & _ & Hh). eauto.
  - unfold _parse_line_item_row, enumerate.
    rewrite <- (take_drop (length header) row) at 1.
    rewrite enumerate_from_app, for_each_app.
    destruct (parse_row_from header (take (length header) row) 0 LineItem_new)
      as (item & -> & _). cbn [mbind res_bind].
    destruct (Nat.le_gt_cases (length header) (length row)) as [Hle|Hgt].
    + apply parse_row_past_header. rewrite length_take. lia.
    + rewrite drop_ge by lia. reflexivity.
Qed.

(** ** extractor.py: line-item tables *)

Lemma read_description_app (a b : list (option str)) (d : option str) :
  read_description (a ++ b) d = read_description b (read_description a d).
Proof. unfold read_description. apply fold_left_app. Qed.

Lemma read_description_empty (cells : list (option str)) (d : option str) :
  (forall c, In c cells -> truthy c = false) -> read_description cells d = d.
Proof.
  revert d. induction cells as [|c cells IH]; intros d H; [reflexivity|].
  unfold read_description in *. cbn [fold_left].
  pose proof (H c (or_introl eq_refl)) as Hc.
  destruct c as [[|x t]|]; try discriminate; apply IH; intros y Hy; apply H; now right.
Qed.

Lemma read_description_blank (cells : list (option str)) (d : option str) :
  truthy d = false ->
  (forall c, In c cells -> blank_cell c) -> truthy (read_description cells d) = false.
Proof.
  revert d. induction cells as [|c cells IH]; intros d Hd H; [exact Hd|].
  unfold read_description in *. cbn [fold_left].
  pose proof (H c (or_introl eq_refl)) as Hc.
  assert (Hrest : forall y, In y cells -> blank_cell y) by (intros y Hy; apply H; now right).
  destruct c as [[|x t]|]; auto.
  apply IH; [|exact Hrest]. unfold blank_cell in Hc. now rewrite Hc.
Qed.

Lemma description_cells_from_in (header : list str) (row : list (option str))
    (start : nat) (c : option str) :
  In c (description_cells_from start header row) -> In c row.
Proof.
  unfold description_cells_from. revert start.
  induction row as [|cell row IH]; intros start; cbn [enumerate_from flat_map]; [easy|].
  rewrite in_app_iff. intros [H|H]; [|right; eapply IH; eauto].
  destruct (header !! start) as [h|]; [destruct (is_description_col h)|]; cbn in H;
    try tauto. left. tauto.
Qed.

Section TableItems.
Context {RT : Runtime}.

(** One data row: it is parsed, its description is the one read from its
    description cells, and it is kept exactly when that is not empty. *)
Lemma add_row_spec (header : list str) (acc : list LineItem) (row : list (option str)) :
  exists item,
    _parse_line_item_row row header = Ok item
    /\ description item = read_description (description_cells header row) None
    /\ kept_items header row = (if truthy (description item) then [item] else [])
    /\ add_row header acc row = Ok (acc ++ kept_items header row).
Proof.
  destruct (parse_row_from header row 0 LineItem_new) as (item & Hp & Hd).
  fold (enumerate row) in Hp. fold (_parse_line_item_row row header) in Hp.
  fold (description_cells header row) in Hd. cbn [description LineItem_new] in Hd.
  exists item. split; [exact Hp|]. split; [exact Hd|].
  unfold kept_items, add_row. rewrite Hp. split; [reflexivity|].
  destruct (blank_row row) eqn:Hb.
  - assert (truthy (description item) = false) as ->.
    { rewrite Hd, read_description_empty; [reflexivity|].
      intros c Hc. apply description_cells_from_in in Hc.
      unfold blank_row in Hb. rewrite forallb_forall in Hb.
      specialize (Hb c Hc). now destruct (truthy c). }
    now rewrite app_nil_r.
  - cbn [mbind res_bind]. destruct (truthy (description item)); [reflexivity|].
    now rewrite app_nil_r.
Qed.

Lemma add_rows_spec (header : list str) (rows : list (list (option str)))
    (acc : list LineItem) :
  for_each (add_row header) rows acc = Ok (acc ++ flat_map (kept_items header) rows).
Proof.
  revert acc. induction rows as [|row rows IH]; intros acc; cbn [flat_map].
  - cbn. now rewrite app_nil_r.
  - destruct (add_row_spec header acc row) as (item & _ & _ & _ & H).
    rewrite (for_each_cons_ok _ _ _ _ _ H), IH. now rewrite app_assoc.
Qed.

Lemma add_table_spec (acc : list LineItem) (table : list (list (option str))) :
  add_table acc table = Ok (acc ++ table_items table).
Proof.
  unfold add_table, table_items.
  destruct table as [|first_row [|row rows]]; try (now rewrite app_nil_r).
  destruct (has_description _ && _); [apply add_rows_spec | now rewrite app_nil_r].
Qed.

Lemma extract_line_items_spec (tables : list (list (list (option str)))) (text : str) :
  _extract_line_items tables text = Ok (flat_map table_items tables).
Proof.
  unfold _extract_line_items.
  assert (H : forall acc, for_each add_table tables acc
                          = Ok (acc ++ flat_map table_items tables)).
  { induction tables as [|t tables IH]; intros acc; cbn [flat_map].
    - cbn. now rewrite app_nil_r.
    - rewrite (for_each_cons_ok _ _ _ _ _ (add_table_spec acc t)), IH.
      now rewrite app_assoc. }
  destruct tables; [reflexivity | apply (H [])].
Qed.

End TableItems.

(** C9. The line items extracted are those of the tables, in order; a table
    with a header row, a data row, a description column and a quantity or
    price column gives the items of its data rows, in order.  A data row of
    such a table is parsed whatever its numeric cells hold; it gives no line
    item when all its description cells are absent or blank, and it gives its
    parsed line item, with the stripped description, when its last non-empty
    description cell is not blank: whether a row is kept depends on its
    description cells only. *)
Theorem description_decides_inclusion {RT : Runtime}
    (tables : list (list (list (option str)))) (text : str)
    (first_row : list (option str)) (data_rows : list (list (option str))) :
  let header := header_of first_row in
  data_rows <> [] ->
  has_description header && (has_quantity header || has_price header) = true ->
  _extract_line_items tables text = Ok (flat_map table_items tables)
  /\ table_items (first_row :: data_rows) = flat_map (kept_items header) data_rows
  /\ forall row,
       exists item,
         _parse_line_item_row row header = Ok item
         /\ description item = read_description (description_cells header row) None
         /\ kept_items header row = (if truthy (description item) then [item] else [])
         /\ ((forall cell, In cell (description_cells header row) -> blank_cell cell) ->
             kept_items header row = [])
         /\ (forall before cell after,
               description_cells header row = before ++ Some cell :: after ->
               strip cell <> [] ->
               (forall c, In c after -> truthy c = false) ->
               kept_items header row = [item]
               /\ description item = Some (strip cell))
         /\ (forall row',
               description_cells header row' = description_cells header row ->
               kept_items header row' = [] <-> kept_items header row = []).
Proof.
  intros header Hrows Hacc. split; [apply extract_line_items_spec|]. split.
  - unfold table_items. fold header. rewrite Hacc.
    destruct data_rows; [now destruct Hrows | reflexivity].
  - intros row.
    destruct (add_row_spec header [] row) as (item & Hp & Hd & Hk & _).
    exists item. split; [exact Hp|]. split; [exact Hd|]. split; [exact Hk|].
    split; [|split].
    + intros Hblank. rewrite Hk, Hd.
      now rewrite (read_description_blank _ None eq_refl Hblank).
    + intros before cell after Hcells Hne Hafter.
      assert (Hdesc : description item = Some (strip cell)).
      { rewrite Hd, Hcells, read_description_app.
        destruct cell as [|c cell]; [exfalso; now apply Hne|].
        unfold read_description at 1. cbn [fold_left].
        fold (read_description after (Some (strip (c :: cell)))).
        now apply read_description_empty. }
      split; [|exact Hdesc]. rewrite Hk, Hdesc.
      destruct (strip cell); [now destruct Hne | reflexivity].
    + intros row' Hsame.
      destruct (add_row_spec header [] row') as (item' & _ & Hd' & Hk' & _).
      rewrite Hk, Hk', Hd, Hd', Hsame.
      destruct (truthy (read_description (description_cells header row) None));
        split; intros H; (discriminate H || reflexivity).
Qed.

Lemma description_decides_inclusion_witness :
  @_extract_line_items ascii_runtime [sample_table] []
  = Ok [ {| description := Some (lit "Widget"); quantity := None;
            unit_price := None; line_total := None |} ]
  /\ @kept_items ascii_runtime (@header_of ascii_runtime sample_header)
                 row_without_description = [].
Proof.
  destruct (@description_decides_inclusion ascii_runtime [sample_table] []
              sample_header [row_without_description; row_with_description]
              ltac:(discriminate) eq_refl) as (Hall & _ & Hrow).
  split; [exact Hall|].
  destruct (Hrow row_without_description) as (item & _ & _ & _ & Hblank & _).
  apply Hblank. intros cell [<-|[]]. reflexivity.
Defined.

(** ** The whole pipeline on a batch of three

    Two invoices that pass every rule and one without an invoice number: the
    report counts three invoices, two of them valid, and one error under the
    key of the required-fields rule. *)
Lemma batch_of_three_summary :
  exists report,
    validate_invoices (@InvoiceValidator_new ascii_runtime None)
                      [good_invoice_1; good_invoice_2; invoice_without_number]
    = Ok report
    /\ total_invoices (summary report) = 3%Z
    /\ valid_invoices (summary report) = 2%Z
    /\ invalid_invoices (summary report) = 1%Z
    /\ error_counts (summary report)
         !! lit "required_fields: Required field 'invoice_number' is missing or empty"
       = Some 1%Z
    /\ map is_valid (results report) = [true; true; false].
Proof. eexists. split; [vm_compute; reflexivity|]. vm_compute. repeat split. Qed.

(** Each of the two extractions of one invoice is reported once, with the
    file of the other. *)
Lemma duplicate_pair_reported :
  validate DuplicateInvoiceRule inv_a (Some [inv_a; inv_b])
  = Ok [ {| rule := lit "no_duplicates";
            message := lit "Duplicate invoice detected. Same invoice_number (INV-1) from Acme on 2024-01-01. Duplicates in: b.pdf";
            field := Some (lit "invoice_number") |} ]
  /\ validate DuplicateInvoiceRule inv_b (Some [inv_a; inv_b])
     = Ok [ {| rule := lit "no_duplicates";
               message := lit "Duplicate invoice detected. Same invoice_number (INV-1) from Acme on 2024-01-01. Duplicates in: a.pdf";
               field := Some (lit "invoice_number") |} ].
Proof. split; reflexivity. Qed.


(** * Further properties *)

(** ** rules.py: required fields *)

Lemma is_missing_str (a : option str) : is_missing (value_of_str a) = blank_field a.
Proof. now destruct a. Qed.

(** X1. The required-fields rule always returns.  It reports the required
    fields that are absent, empty or blank, one error each, in the order
    invoice_number, invoice_date, seller_name, buyer_name, currency,
    gross_total; a [gross_total] of any value, zero included, counts as
    present.  So an invoice passes exactly when none of the six is missing. *)
Theorem required_fields_rule_reports_missing
    (invoice : Invoice) (all_invoices : option (list Invoice)) :
  let missing := map fst (List.filter snd (required_status invoice)) in
  validate RequiredFieldRule invoice all_invoices = Ok (map missing_field_error missing)
  /\ (missing = [] <->
      blank_field (invoice_number invoice) = false
      /\ blank_field (invoice_date invoice) = false
      /\ blank_field (seller_name invoice) = false
      /\ blank_field (buyer_name invoice) = false
      /\ blank_field (currency invoice) = false
      /\ gross_total invoice <> None).
Proof.
  cbn zeta. split.
  - cbn [validate RequiredFieldRule]. unfold RequiredFieldRule_validate, required_fields.
    cbn [flat_map].
    change (getattr invoice (lit "invoice_number")) with (value_of_str (invoice_number invoice)).
    change (getattr invoice (lit "invoice_date")) with (value_of_str (invoice_date invoice)).
    change (getattr invoice (lit "seller_name")) with (value_of_str (seller_name invoice)).
    change (getattr invoice (lit "buyer_name")) with (value_of_str (buyer_name invoice)).
    change (getattr invoice (lit "currency")) with (value_of_str (currency invoice)).
    change (getattr invoice (lit "gross_total")) with (value_of_float (gross_total invoice)).
    rewrite !is_missing_str. unfold required_status. cbn [List.filter snd].
    destruct (blank_field (invoice_number invoice)), (blank_field (invoice_date invoice)),
      (blank_field (seller_name invoice)), (blank_field (buyer_name invoice)),
      (blank_field (currency invoice)), (gross_total invoice); reflexivity.
  - unfold required_status. cbn [List.filter snd].
    destruct (blank_field (invoice_number invoice)), (blank_field (invoice_date invoice)),
      (blank_field (seller_name invoice)), (blank_field (buyer_name invoice)),
      (blank_field (currency invoice)), (gross_total invoice);
      cbn; split; try discriminate; try tauto; try (intros; repeat split; congruence);
      intros (? & ? & ? & ? & ? & ?); congruence.
Qed.

(** ** rules.py: currency *)

Lemma str_in_In (x : str) (xs : list str) : str_in x xs = true <-> In x xs.
Proof.
  unfold str_in. rewrite existsb_exists. split.
  - intros (y & Hy & Heq). apply str_eqb_eq in Heq. now subst.
  - intros H. exists x. split; [exact H | apply str_eqb_refl].
Qed.

(** X2. The currency rule always returns, with at most one error.  It passes
    an invoice exactly when the currency is absent, empty or, letter for
    letter, one of the ten codes of [VALID_CURRENCIES]; any other currency
    gives one error on [currency] whose message names it and lists the ten
    codes in alphabetical order. *)
Theorem currency_rule_whitelist
    (invoice : Invoice) (all_invoices : option (list Invoice)) :
  let accepted :=
    currency invoice = None \/ currency invoice = Some []
    \/ exists cur, currency invoice = Some cur /\ In cur VALID_CURRENCIES in
  (accepted -> validate CurrencyValidationRule invoice all_invoices = Ok [])
  /\ (forall cur, currency invoice = Some cur -> cur <> [] ->
                  ~ In cur VALID_CURRENCIES ->
                  validate CurrencyValidationRule invoice all_invoices
                  = Ok [unknown_currency_error cur])
  /\ (validate CurrencyValidationRule invoice all_invoices = Ok [] -> accepted).
Proof.
  cbn zeta. cbn [validate CurrencyValidationRule].
  unfold CurrencyValidationRule_validate.
  destruct (currency invoice) as [[|c cur]|] eqn:E.
  - split; [reflexivity|]. split; [|auto].
    intros cur [= <-] H. now destruct H.
  - destruct (str_in (c :: cur) VALID_CURRENCIES) eqn:Hin; cbn [negb].
    + apply str_in_In in Hin. split; [reflexivity|]. split; [|eauto].
      intros cur' [= <-] _ Hno. now destruct Hno.
    + assert (Hno : ~ In (c :: cur) VALID_CURRENCIES).
      { intros H. apply str_in_In in H. congruence. }
      split; [|split].
      * intros [H|[H|(cur' & [= <-] & H)]]; try discriminate. now destruct Hno.
      * intros cur' [= <-] _ _. reflexivity.
      * discriminate.
  - split; [reflexivity|]. split; [discriminate|auto].
Qed.

Lemma currency_rule_whitelist_witness :
  validate CurrencyValidationRule
    (invoice_with_currency (Some (lit "eur"))) None
  = Ok [unknown_currency_error (lit "eur")].
Proof.
  apply (proj1 (proj2 (currency_rule_whitelist
                         (invoice_with_currency (Some (lit "eur"))) None))).
  - reflexivity.
  - discriminate.
  - cbn. intros H. repeat (destruct H as [H|H]; [discriminate H|]). exact H.
Defined.

(** ** extractor.py and rules.py: the extracted currency *)

Lemma search_symbol_sound {RT : Runtime} (s : str) (r : str) :
  search_symbol s = Some r -> exists sym, r = [sym] /\ In sym CURRENCY_SYMBOLS.
Proof.
  induction s as [|c s IH]; cbn [search_symbol]; [discriminate|].
  destruct (existsb (char_eqb c) CURRENCY_SYMBOLS) eqn:E; [|exact IH].
  intros [= <-]. exists c. split; [reflexivity|].
  apply existsb_exists in E as (x & Hx & Hcx). apply N.eqb_eq in Hcx. now subst.
Qed.

(** What currency extraction returns is one of eight codes. *)
Lemma extract_currency_range {RT : Runtime} (text : str) (c : str) :
  _extract_currency text = Some c ->
  In c [ lit "USD"; lit "EUR"; lit "GBP"; lit "INR";
         lit "JPY"; lit "CNY"; lit "CAD"; lit "AUD" ].
Proof.
  unfold _extract_currency, CURRENCY_PATTERNS. cbn [_extract_currency_loop].
  destruct (search_code None text) as [code|] eqn:E1.
  - apply search_code_sound in E1 as (_ & _ & _ & Hin & _).
    assert (dict_get currency_map code = None) as ->.
    { cbn in Hin. repeat (destruct Hin as [<-|Hin]; [reflexivity|]). destruct Hin. }
    now intros [= <-].
  - destruct (search_symbol text) as [r|] eqn:E2; [|discriminate].
    apply search_symbol_sound in E2 as (sym & -> & Hsym).
    cbn in Hsym.
    repeat (destruct Hsym as [<-|Hsym]; [cbn; intros [= <-]; tauto|]). destruct Hsym.
Qed.

(** X3. Whatever the text, a currency that currency extraction returns is a
    currency the currency rule accepts: an invoice carrying it gets no error
    from that rule. *)
Theorem extracted_currency_passes_rule {RT : Runtime}
    (text : str) (cur : str) (invoice : Invoice) (all_invoices : option (list Invoice)) :
  _extract_currency text = Some cur ->
  currency invoice = Some cur ->
  In cur VALID_CURRENCIES
  /\ validate CurrencyValidationRule invoice all_invoices = Ok [].
Proof.
  intros Hx Hc. apply extract_currency_range in Hx.
  assert (Hin : In cur VALID_CURRENCIES).
  { cbn in Hx |- *. repeat (destruct Hx as [<-|Hx]; [tauto|]). destruct Hx. }
  split; [exact Hin|].
  cbn [validate CurrencyValidationRule]. unfold CurrencyValidationRule_validate.
  rewrite Hc. apply str_in_In in Hin. destruct cur; [reflexivity|]. now rewrite Hin.
Qed.

Lemma extracted_currency_passes_rule_witness :
  validate CurrencyValidationRule (invoice_with_currency (Some (lit "USD"))) None = Ok [].
Proof.
  exact (proj2 (@extracted_currency_passes_rule ascii_runtime
                  (lit "Total: $ 12.00") (lit "USD")
                  (invoice_with_currency (Some (lit "USD"))) None eq_refl eq_refl)).
Defined.

(** ** rules.py: negative amounts *)

(** X4. The negative-amounts rule always returns: it reports, in the order
    net_total, tax_amount, gross_total, each amount that is present and below
    zero, and nothing else; so it passes exactly when no present amount is
    below zero. *)
Theorem negative_amounts_rule_reports_negatives
    (invoice : Invoice) (all_invoices : option (list Invoice)) :
  validate NegativeAmountsRule invoice all_invoices
  = Ok (negative_amount_errors (lit "net_total") (net_total invoice)
        ++ negative_amount_errors (lit "tax_amount") (tax_amount invoice)
        ++ negative_amount_errors (lit "gross_total") (gross_total invoice))
  /\ (validate NegativeAmountsRule invoice all_invoices = Ok [] <->
      is_negative (net_total invoice) = false
      /\ is_negative (tax_amount invoice) = false
      /\ is_negative (gross_total invoice) = false).
Proof.
  assert (H : validate NegativeAmountsRule invoice all_invoices
              = Ok (negative_amount_errors (lit "net_total") (net_total invoice)
                    ++ negative_amount_errors (lit "tax_amount") (tax_amount invoice)
                    ++ negative_amount_errors (lit "gross_total") (gross_total invoice))).
  { cbn [validate NegativeAmountsRule]. unfold NegativeAmountsRule_validate, amount_fields.
    cbn [flat_map].
    change (getattr invoice (lit "net_total")) with (value_of_float (net_total invoice)).
    change (getattr invoice (lit "tax_amount")) with (value_of_float (tax_amount invoice)).
    change (getattr invoice (lit "gross_total")) with (value_of_float (gross_total invoice)).
    unfold negative_amount_errors.
    destruct (net_total invoice), (tax_amount invoice), (gross_total invoice);
      cbn [value_of_float]; now rewrite ?app_nil_r. }
  split; [exact H|]. rewrite H. unfold negative_amount_errors, is_negative.
  destruct (net_total invoice) as [n|], (tax_amount invoice) as [t|],
    (gross_total invoice) as [g|];
    repeat match goal with |- context [float_lt ?x 0] => destruct (float_lt x 0) end;
    cbn; split; try (intros [= ]); try tauto; try (intros (? & ? & ?); congruence).
Qed.

(** ** rules.py: the two date rules *)

Lemma due_date_rule_returns {RT : Runtime}
    (invoice : Invoice) (all_invoices : option (list Invoice)) :
  exists out, validate DueDateRule invoice all_invoices = Ok out
              /\ (out = [] \/ exists e, out = [e] /\ field e = Some (lit "due_date")).
Proof.
  cbn [validate DueDateRule]. unfold DueDateRule_validate.
  destruct (invoice_date invoice) as [[|a d1]|], (due_date invoice) as [[|b d2]|];
    try (eexists; split; [reflexivity | now left]).
  destruct (fromisoformat (a :: d1)) as [t1|x1]; cbn;
    [|eexists; split; [reflexivity | now left]].
  destruct (fromisoformat (b :: d2)) as [t2|x2]; cbn;
    [|eexists; split; [reflexivity | now left]].
  destruct (dt_lt t2 t1) as [[|]|x]; cbn; eexists; (split; [reflexivity|]);
    [right; eexists; split; reflexivity | now left | now left].
Qed.

(** X5. Whatever [fromisoformat] and the comparison of dates do, the
    date-format rule and the due-date rule return.  The date-format rule
    checks the two dates independently, and a date that is absent or empty is
    not checked.  The due-date rule reports at most one error, and only when
    both dates are non-empty, both parse and the due date compares as earlier;
    when a non-empty date does not parse the due-date rule is silent and the
    date-format rule reports that date. *)
Theorem date_rules_report_once {RT : Runtime}
    (invoice : Invoice) (all_invoices : option (list Invoice)) :
  validate DateFormatRule invoice all_invoices
  = Ok (date_format_errors (lit "invoice_date") (invoice_date invoice)
        ++ date_format_errors (lit "due_date") (due_date invoice))
  /\ (exists out, validate DueDateRule invoice all_invoices = Ok out
                  /\ (out = [] \/ exists e, out = [e] /\ field e = Some (lit "due_date")))
  /\ (forall e, validate DueDateRule invoice all_invoices = Ok [e] ->
        exists d1 d2 t1 t2,
          invoice_date invoice = Some d1 /\ due_date invoice = Some d2
          /\ d1 <> [] /\ d2 <> []
          /\ fromisoformat d1 = Ok t1 /\ fromisoformat d2 = Ok t2
          /\ dt_lt t2 t1 = Ok true)
  /\ (forall which d x,
        (which = lit "invoice_date" /\ invoice_date invoice = Some d
         \/ which = lit "due_date" /\ due_date invoice = Some d) ->
        d <> [] -> fromisoformat d = Raise x ->
        validate DueDateRule invoice all_invoices = Ok []
        /\ In (date_format_error which d)
              (date_format_errors (lit "invoice_date") (invoice_date invoice)
               ++ date_format_errors (lit "due_date") (due_date invoice))).
Proof.
  split; [reflexivity|]. split; [apply due_date_rule_returns|].
  cbn [validate DueDateRule]. unfold DueDateRule_validate.
  split.
  - intros e.
    destruct (invoice_date invoice) as [[|a d1]|], (due_date invoice) as [[|b d2]|];
      try discriminate.
    destruct (fromisoformat (a :: d1)) as [t1|x1] eqn:E1; cbn; [|discriminate].
    destruct (fromisoformat (b :: d2)) as [t2|x2] eqn:E2; cbn; [|discriminate].
    destruct (dt_lt t2 t1) as [[|]|x] eqn:E3; cbn; try discriminate.
    intros _. exists (a :: d1), (b :: d2), t1, t2. repeat split; auto; discriminate.
  - intros which d x Hw Hne Hraise. unfold date_format_errors, _is_valid_date.
    destruct d as [|c d]; [now destruct Hne|].
    destruct Hw as [[-> Hd]|[-> Hd]]; rewrite Hd.
    + rewrite Hraise. split; [|apply in_app_iff; left; now left].
      destruct (due_date invoice) as [[|b d2]|]; reflexivity.
    + rewrite Hraise. split; [|apply in_app_iff; right; now left].
      destruct (invoice_date invoice) as [[|a d1]|]; try reflexivity.
      now destruct (fromisoformat (a :: d1)).
Qed.

Lemma date_rules_report_once_witness :
  @validate (@DueDateRule ascii_runtime) late_invoice None = Ok []
  /\ In (date_format_error (lit "due_date") (lit "31/01/2024"))
        (@findings_of late_invoice None (@DateFormatRule ascii_runtime)).
Proof.
  exact (proj2 (proj2 (proj2 (@date_rules_report_once ascii_runtime late_invoice None)))
               (lit "due_date") (lit "31/01/2024") ValueError
               (or_intror (conj eq_refl eq_refl)) ltac:(discriminate) eq_refl).
Defined.

(** ** rules.py: when the duplicate rule raises *)

Lemma join_opt_none (sep : str) (xs : list (option str)) :
  In None xs -> join_opt sep xs = Raise TypeError.
Proof.
  induction xs as [|[x|] xs IH]; cbn [join_opt]; [intros [] | | reflexivity].
  intros [H|H]; [discriminate|].
  destruct xs as [|y xs]; [destruct H|]. now rewrite (IH H).
Qed.

Lemma present_or_none (xs : list (option str)) :
  In None xs \/ exists files, xs = map Some files.
Proof.
  induction xs as [|[x|] xs IH].
  - right. now exists [].
  - destruct IH as [H|[files ->]]; [left; now right | right; now exists (x :: files)].
  - left. now left.
Qed.

(** The duplicate rule raises exactly when the batch holds a twin of the
    invoice that has no source file. *)
Lemma duplicate_rule_raises_twin (invoice : Invoice) (batch : list Invoice) (e : exn) :
  validate DuplicateInvoiceRule invoice (Some batch) = Raise e <->
  e = TypeError /\ exists b, In b batch /\ unfiled_twin invoice b.
Proof.
  cbn [validate DuplicateInvoiceRule]. unfold DuplicateInvoiceRule_validate, unfiled_twin.
  destruct (truthy (invoice_number invoice)) eqn:Ht; cbn [negb].
  2:{ split; [now destruct batch|]. intros (_ & b & _ & H & _). discriminate. }
  assert (Hdups : In None (map source_file (List.filter (is_duplicate_of invoice) batch))
                  <-> exists b, In b batch
                                /\ (true = true /\ source_file invoice <> None
                                    /\ invoice_number b = invoice_number invoice
                                    /\ seller_name b = seller_name invoice
                                    /\ invoice_date b = invoice_date invoice
                                    /\ source_file b = None)).
  { rewrite in_map_iff. split.
    - intros (b & Hfile & Hin). apply filter_In in Hin as [Hin Hdup].
      apply is_duplicate_of_spec in Hdup as (Hn & Hs & Hd & Hf).
      exists b. repeat split; auto. congruence.
    - intros (b & Hin & _ & Hsrc & Hn & Hs & Hd & Hf).
      exists b. split; [exact Hf|]. apply filter_In. split; [exact Hin|].
      apply is_duplicate_of_spec. repeat split; auto. congruence. }
  rewrite <- Hdups.
  destruct batch as [|x batch]; [split; [discriminate | intros [_ []]]|].
  destruct (List.filter (is_duplicate_of invoice) (x :: batch)) as [|d ds];
    [split; [discriminate | intros [_ []]]|].
  destruct (present_or_none (map source_file (d :: ds))) as [Hin|[files Hf]].
  - rewrite (join_opt_none _ _ Hin). cbn. split; [intros [= <-]; auto | now intros [-> _]].
  - rewrite Hf, join_opt_present. cbn.
    split; [discriminate|]. intros [_ H]. apply in_map_iff in H as (f & Hf' & _).
    discriminate.
Qed.

(** X6. The duplicate rule raises in one case only, with a [TypeError]: the
    invoice has a non-empty number and a source file, and the batch holds an
    invoice with the same number, seller and date that has no source file. *)
Theorem duplicate_rule_raises_iff
    (invoice : Invoice) (all_invoices : option (list Invoice)) (e : exn) :
  validate DuplicateInvoiceRule invoice all_invoices = Raise e <->
  e = TypeError
  /\ truthy (invoice_number invoice) = true
  /\ source_file invoice <> None
  /\ exists batch inv,
       all_invoices = Some batch /\ In inv batch
       /\ invoice_number inv = invoice_number invoice
       /\ seller_name inv = seller_name invoice
       /\ invoice_date inv = invoice_date invoice
       /\ source_file inv = None.
Proof.
  destruct all_invoices as [batch|].
  - rewrite duplicate_rule_raises_twin. unfold unfiled_twin. split.
    + intros (-> & b & Hin & Ht & Hsrc & Hrest). repeat split; auto.
      exists batch, b. auto.
    + intros (-> & Ht & Hsrc & batch' & b & [= <-] & Hin & Hrest).
      split; [reflexivity|]. exists b. auto.
  - split; [discriminate|]. intros (_ & _ & _ & batch & b & H & _). discriminate.
Qed.

(** ** validator.py: the default validator *)

Section DefaultValidator.
Context {RT : Runtime}.

(** The seven rules that come before the duplicate rule always return. *)
Lemma first_rules_return (invoice : Invoice) (all_invoices : option (list Invoice)) :
  exists outs,
    Forall2 (fun r out => validate r invoice all_invoices = Ok out)
            [ RequiredFieldRule; DateFormatRule; CurrencyValidationRule; DueDateRule;
              TotalsMatchRule default_tolerance; LineItemsTotalRule default_tolerance;
              NegativeAmountsRule ] outs.
Proof.
  destruct (due_date_rule_returns invoice all_invoices) as (due & Hdue & _).
  assert (exists o, validate CurrencyValidationRule invoice all_invoices = Ok o) as [cur Hcur].
  { cbn [validate CurrencyValidationRule]. unfold CurrencyValidationRule_validate.
    destruct (currency invoice) as [[|c s]|]; eauto.
    destruct (negb _); eauto. }
  assert (exists o, validate (TotalsMatchRule default_tolerance) invoice all_invoices = Ok o)
    as [tot Htot].
  { cbn [validate TotalsMatchRule]. unfold TotalsMatchRule_validate.
    destruct (net_total invoice), (tax_amount invoice), (gross_total invoice); eauto.
    destruct (float_gt _ _); eauto. }
  assert (exists o, validate (LineItemsTotalRule default_tolerance) invoice all_invoices = Ok o)
    as [lit Hlit].
  { cbn [validate LineItemsTotalRule]. unfold LineItemsTotalRule_validate.
    destruct (net_total invoice), (line_items invoice); eauto.
    destruct (float_gt _ 0); eauto. destruct (float_gt _ _); eauto. }
  eexists [_; _; _; _; _; _; _].
  repeat constructor; try eassumption; reflexivity.
Qed.

(** With the default rules, [validate_invoice] returns when the duplicate
    rule does and raises what the duplicate rule raises. *)
Lemma default_validate_invoice (rules_arg : option (list ValidationRule))
    (invoice : Invoice) (all_invoices : option (list Invoice)) :
  rules_arg = None \/ rules_arg = Some [] ->
  (forall out, validate DuplicateInvoiceRule invoice all_invoices = Ok out ->
     exists result,
       validate_invoice (InvoiceValidator_new rules_arg) invoice all_invoices = Ok result)
  /\ (forall e, validate DuplicateInvoiceRule invoice all_invoices = Raise e ->
        validate_invoice (InvoiceValidator_new rules_arg) invoice all_invoices = Raise e).
Proof.
  intros Harg.
  assert (Hrules : rules (InvoiceValidator_new rules_arg) = ALL_RULES)
    by (destruct Harg as [-> | ->]; reflexivity).
  destruct (first_rules_return invoice all_invoices) as (outs & Houts).
  split.
  - intros out Hdup.
    destruct (validate_invoice_returns (InvoiceValidator_new rules_arg) invoice
                all_invoices (outs ++ [out])) as (result & Hres & _); [|eauto].
    rewrite Hrules. unfold ALL_RULES.
    change (Forall2 (fun r o => validate r invoice all_invoices = Ok o)
              ([RequiredFieldRule; DateFormatRule; CurrencyValidationRule; DueDateRule;
                TotalsMatchRule default_tolerance; LineItemsTotalRule default_tolerance;
                NegativeAmountsRule] ++ [DuplicateInvoiceRule]) (outs ++ [out])).
    apply Forall2_app; [exact Houts | now constructor].
  - intros e Hdup. unfold validate_invoice. rewrite Hrules. unfold ALL_RULES.
    change [RequiredFieldRule; DateFormatRule; CurrencyValidationRule; DueDateRule;
            TotalsMatchRule default_tolerance; LineItemsTotalRule default_tolerance;
            NegativeAmountsRule; DuplicateInvoiceRule]
      with ([RequiredFieldRule; DateFormatRule; CurrencyValidationRule; DueDateRule;
             TotalsMatchRule default_tolerance; LineItemsTotalRule default_tolerance;
             NegativeAmountsRule] ++ [DuplicateInvoiceRule]).
    rewrite for_each_app, (for_each_apply_rule _ _ _ _ [] [] Houts).
    cbn [mbind res_bind for_each]. unfold apply_rule at 1. rewrite Hdup. reflexivity.
Qed.

End DefaultValidator.

(** ** validator.py: the loop over the batch *)

Lemma Forall2_in_left {A B} (P : A -> B -> Prop) (l : list A) (l' : list B) (a : A) :
  Forall2 P l l' -> In a l -> exists b, In b l' /\ P a b.
Proof.
  induction 1 as [|x y l l' Hxy _ IH]; [intros []|].
  intros [<-|Hin]; [exists y; split; [now left | exact Hxy]|].
  destruct (IH Hin) as (b & Hb & Hab). exists b. split; [now right | exact Hab].
Qed.

Lemma add_result_ok (self : InvoiceValidator) (batch : list Invoice)
    (acc : list InvoiceValidationResult) (inv : Invoice) (r : InvoiceValidationResult) :
  validate_invoice self inv (Some batch) = Ok r ->
  add_result self batch acc inv = Ok (acc ++ [r]).
Proof. intros H. unfold add_result. now rewrite H. Qed.

Lemma add_result_raise (self : InvoiceValidator) (batch : list Invoice)
    (acc : list InvoiceValidationResult) (inv : Invoice) (e : exn) :
  validate_invoice self inv (Some batch) = Raise e ->
  add_result self batch acc inv = Raise e.
Proof. intros H. unfold add_result. now rewrite H. Qed.

(** The loop returns one result per invoice, or raises what the first invoice
    that cannot be validated raises. *)
Lemma add_results_cases (self : InvoiceValidator) (batch invoices : list Invoice)
    (acc : list InvoiceValidationResult) :
  (exists rs,
     Forall2 (fun inv r => validate_invoice self inv (Some batch) = Ok r) invoices rs
     /\ for_each (add_result self batch) invoices acc = Ok (acc ++ rs))
  \/ (exists inv e,
        In inv invoices /\ validate_invoice self inv (Some batch) = Raise e
        /\ for_each (add_result self batch) invoices acc = Raise e).
Proof.
  revert acc. induction invoices as [|inv invoices IH]; intros acc.
  - left. exists []. split; [constructor | cbn; now rewrite app_nil_r].
  - destruct (validate_invoice self inv (Some batch)) as [r|e] eqn:E.
    + rewrite (for_each_cons_ok _ _ _ _ _ (add_result_ok self batch acc inv r E)).
      destruct (IH (acc ++ [r])) as [(rs & Hrs & Hrun)|(inv' & e & Hin & He & Hrun)].
      * left. exists (r :: rs). split; [now constructor|].
        rewrite Hrun. now rewrite <- app_assoc.
      * right. exists inv', e. split; [now right|]. now split.
    + rewrite (for_each_cons_raise _ _ _ _ _ (add_result_raise self batch acc inv e E)).
      right. exists inv, e. split; [now left|]. now split.
Qed.

Lemma validate_invoices_unfold (self : InvoiceValidator) (invoices : list Invoice) :
  validate_invoices self invoices =
  results ← for_each (add_result self invoices) invoices [];
  Ok {| summary := _generate_summary results; results := results |}.
Proof. reflexivity. Qed.

Lemma validate_invoice_shape (self : InvoiceValidator) (invoice : Invoice)
    (all_invoices : option (list Invoice)) (r : InvoiceValidationResult) :
  validate_invoice self invoice all_invoices = Ok r ->
  invoice_id r = invoice_id_of invoice /\ is_valid r = no_errors r.
Proof.
  unfold validate_invoice.
  destruct (for_each _ _ _) as [[es ws]|e]; cbn [mbind res_bind]; [|discriminate].
  intros [= <-]. cbn. split; [reflexivity|]. now destruct es.
Qed.

Lemma invoice_id_of_cases (invoice : Invoice) :
  invoice_id_of invoice <> []
  /\ (forall n, invoice_number invoice = Some n -> n <> [] -> invoice_id_of invoice = n)
  /\ (truthy (invoice_number invoice) = false ->
      forall f, source_file invoice = Some f -> f <> [] -> invoice_id_of invoice = f)
  /\ (truthy (invoice_number invoice) = false ->
      truthy (source_file invoice) = false -> invoice_id_of invoice = lit "unknown").
Proof.
  unfold invoice_id_of, or_else.
  destruct (invoice_number invoice) as [[|a n]|], (source_file invoice) as [[|b f]|];
    cbn; repeat split; try discriminate; try congruence;
    try (intros ? [= <-] ?; congruence); try (intros ? ? [= <-] ?; congruence).
Qed.

(** X7. A validator built without rules, or with an empty list of rules, runs
    the eight rules of the catalogue.  Validating a batch with it fails in one
    case only, with a [TypeError]: the batch holds an invoice with a non-empty
    number and a source file and another with the same number, seller and date
    but no source file.  In every other case a report is returned; so a batch
    in which every invoice has a source file is always reported. *)
Theorem default_validation_fails_iff {RT : Runtime}
    (rules_arg : option (list ValidationRule)) (invoices : list Invoice) :
  rules_arg = None \/ rules_arg = Some [] ->
  let self := InvoiceValidator_new rules_arg in
  rules self = ALL_RULES
  /\ (forall e, validate_invoices self invoices = Raise e <->
                e = TypeError
                /\ exists a b, In a invoices /\ In b invoices /\ unfiled_twin a b)
  /\ ((forall inv, In inv invoices -> source_file inv <> None) ->
      exists report, validate_invoices self invoices = Ok report).
Proof.
  intros Harg self.
  assert (Hrules : rules self = ALL_RULES)
    by (destruct Harg as [-> | ->]; reflexivity).
  assert (Hone : forall inv e,
             validate_invoice self inv (Some invoices) = Raise e <->
             e = TypeError /\ exists b, In b invoices /\ unfiled_twin inv b).
  { intros inv e. rewrite <- duplicate_rule_raises_twin.
    destruct (default_validate_invoice rules_arg inv (Some invoices) Harg) as [Hok Hraise].
    destruct (validate DuplicateInvoiceRule inv (Some invoices)) as [out|e'] eqn:E.
    - destruct (Hok out eq_refl) as [r Hr]. fold self in Hr. rewrite Hr.
      split; discriminate.
    - specialize (Hraise e' eq_refl). fold self in Hraise. rewrite Hraise.
      split; congruence. }
  assert (Hiff : forall e, validate_invoices self invoices = Raise e <->
                           e = TypeError
                           /\ exists a b, In a invoices /\ In b invoices /\ unfiled_twin a b).
  { intros e. rewrite validate_invoices_unfold.
    destruct (add_results_cases self invoices invoices [])
      as [(rs & Hall & ->)|(inv & e' & Hin & He & ->)]; cbn [mbind res_bind].
    - split; [discriminate|]. intros (_ & a & b & Ha & Hb & Htwin).
      destruct (Forall2_in_left _ _ _ a Hall Ha) as (r & _ & Hr).
      assert (validate_invoice self a (Some invoices) = Raise TypeError) as Hbad
        by (apply Hone; eauto).
      congruence.
    - apply Hone in He as (-> & b & Hb & Htwin). split.
      + intros [= <-]. eauto 10.
      + now intros [-> _]. }
  split; [exact Hrules|]. split; [exact Hiff|].
  intros Hfiles.
  destruct (validate_invoices self invoices) as [report|e] eqn:E; [eauto|].
  destruct (proj1 (Hiff e) eq_refl) as (_ & a & b & _ & Hb & (_ & _ & _ & _ & _ & Hnone)).
  destruct (Hfiles b Hb Hnone).
Qed.

Lemma default_validation_fails_iff_witness :
  validate_invoices (@InvoiceValidator_new ascii_runtime (Some []))
                    [inv_a; unfiled_copy_of_a]
  = Raise TypeError.
Proof.
  apply (proj1 (proj2 (@default_validation_fails_iff ascii_runtime (Some [])
                         [inv_a; unfiled_copy_of_a] (or_intror eq_refl)))).
  split; [reflexivity|]. exists inv_a, unfiled_copy_of_a.
  split; [now left|]. split; [right; now left|]. repeat split. discriminate.
Defined.

(** X8. A report that [validate_invoices] returns, whatever the rules, has
    one result per invoice, in the order of the batch; each result is named
    after its invoice, by the invoice number, else the source file, else
    [unknown], and never by an empty name; each is valid exactly when it has
    no error; and the summary counts the invoices, the results without errors,
    and their difference, which is never negative. *)
Theorem report_follows_batch
    (self : InvoiceValidator) (invoices : list Invoice) (report : ValidationReport) :
  validate_invoices self invoices = Ok report ->
  map invoice_id (results report) = map invoice_id_of invoices
  /\ Forall (fun r => is_valid r = no_errors r /\ invoice_id r <> []) (results report)
  /\ total_invoices (summary report) = Z.of_nat (length invoices)
  /\ valid_invoices (summary report)
     = Z.of_nat (length (List.filter no_errors (results report)))
  /\ invalid_invoices (summary report)
     = Z.of_nat (length (List.filter (fun r => negb (no_errors r)) (results report)))
  /\ (valid_invoices (summary report) + invalid_invoices (summary report)
      = total_invoices (summary report))%Z.
Proof.
  rewrite validate_invoices_unfold.
  destruct (add_results_cases self invoices invoices [])
    as [(rs & Hall & ->)|(inv & e' & _ & _ & ->)]; cbn [mbind res_bind app];
    [|discriminate].
  intros [= <-]. cbn [results summary].
  assert (Hshape : Forall2 (fun inv r => invoice_id r = invoice_id_of inv
                                         /\ is_valid r = no_errors r) invoices rs).
  { eapply Forall2_impl; [exact Hall|]. intros inv r H.
    now apply validate_invoice_shape in H. }
  assert (Hids : map invoice_id rs = map invoice_id_of invoices).
  { clear Hall. induction Hshape as [|inv r invoices rs [Hid _] _ IH]; cbn; congruence. }
  assert (Hvalid : List.filter is_valid rs = List.filter no_errors rs).
  { clear Hall Hids. induction Hshape as [|inv r invoices rs [_ Hv] _ IH]; cbn;
      [reflexivity|]. rewrite Hv, IH. reflexivity. }
  assert (Hlen : length rs = length invoices)
    by (rewrite <- (length_map invoice_id), Hids; apply length_map).
  assert (Hsplit : (length (List.filter no_errors rs)
                    + length (List.filter (fun r => negb (no_errors r)) rs)
                    = length rs)%nat).
  { clear. induction rs as [|r rs IH]; cbn; [reflexivity|].
    destruct (no_errors r); cbn; lia. }
  unfold _generate_summary. rewrite summary_fold, valid_fold, Hvalid.
  cbn [total_invoices valid_invoices invalid_invoices].
  split; [exact Hids|]. split.
  { clear Hall Hids Hvalid Hlen Hsplit.
    induction Hshape as [|inv r invoices rs [Hid Hv] _ IH]; constructor; [|exact IH].
    split; [exact Hv|]. rewrite Hid. apply invoice_id_of_cases. }
  repeat split; lia.
Qed.

Lemma report_follows_batch_witness :
  exists report,
    validate_invoices (@InvoiceValidator_new ascii_runtime None)
                      [good_invoice_1; invoice_without_number] = Ok report
    /\ map invoice_id (results report) = [lit "INV-1"; lit "3.pdf"].
Proof.
  destruct (validate_invoices (@InvoiceValidator_new ascii_runtime None)
                              [good_invoice_1; invoice_without_number])
    as [report|e] eqn:E; [|vm_compute in E; discriminate E].
  exists report. split; [reflexivity|].
  exact (proj1 (report_follows_batch _ _ report E)).
Defined.

(** ** validator.py: the counts of the summary add up *)

Lemma sum_counts_insert (counts : gmap str Z) (k : str) (n : Z) :
  counts !! k = None -> sum_counts (<[k := n]> counts) = (n + sum_counts counts)%Z.
Proof.
  intros H. unfold sum_counts. apply map_fold_insert_L; [|exact H].
  intros; lia.
Qed.

Lemma sum_counts_bump (counts : gmap str Z) (k : str) :
  sum_counts (bump counts k) = (sum_counts counts + 1)%Z.
Proof.
  unfold bump. destruct (counts !! k) as [n|] eqn:E; cbn [default].
  - rewrite <- (insert_delete_eq counts k).
    rewrite sum_counts_insert by apply lookup_delete_eq.
    unfold sum_counts at 2.
    rewrite (map_fold_delete_L _ _ k n counts) by (intros; lia || exact E).
    fold (sum_counts (delete k counts)). unfold id. lia.
  - rewrite sum_counts_insert by exact E. unfold id. lia.
Qed.

Lemma sum_counts_findings (findings : list ValidationError) (counts : gmap str Z) :
  sum_counts (count_findings counts findings)
  = (sum_counts counts + Z.of_nat (length findings))%Z.
Proof.
  revert counts. unfold count_findings.
  induction findings as [|e findings IH]; intros counts; cbn [fold_left length].
  - lia.
  - rewrite IH, sum_counts_bump. lia.
Qed.

(** X9. In a summary the counts of [error_counts] add up to the number of
    errors of all the results, and those of [warning_counts] to the number of
    warnings; no entry holds a count below one. *)
Theorem summary_counts_add_up (results : list InvoiceValidationResult) :
  let s := _generate_summary results in
  sum_counts (error_counts s) = Z.of_nat (length (flat_map errors results))
  /\ sum_counts (warning_counts s) = Z.of_nat (length (flat_map warnings results))
  /\ (forall key n, error_counts s !! key = Some n -> (1 <= n)%Z)
  /\ (forall key n, warning_counts s !! key = Some n -> (1 <= n)%Z).
Proof.
  cbn zeta. unfold _generate_summary. rewrite summary_fold.
  cbn [error_counts warning_counts].
  assert (Hpos : forall m n, counted m = Some n -> (1 <= n)%Z).
  { intros [|m] n; cbn [counted]; [discriminate|]. intros [= <-]. lia. }
  rewrite !sum_counts_findings. unfold sum_counts. rewrite map_fold_empty.
  repeat split; try lia.
  - intros key n. rewrite (count_findings_lookup _ ∅ key 0 (lookup_empty key)). apply Hpos.
  - intros key n. rewrite (count_findings_lookup _ ∅ key 0 (lookup_empty key)). apply Hpos.
Qed.

(** ** rules.py and validator.py: a key of the summary names its rule *)

Lemma Ok_inj {A} (a b : A) : Ok a = Ok b -> a = b.
Proof. now intros [= ->]. Qed.

(** A rule returned [out] and [e] is one of [out]: the cases of no finding
    and of one finding. *)
Ltac no_finding :=
  let Heq := fresh in let Hin := fresh in
  intros Heq Hin; apply Ok_inj in Heq; subst; destruct Hin.
Ltac one_finding :=
  let Heq := fresh in let Hin := fresh in
  intros Heq Hin; apply Ok_inj in Heq; subst; destruct Hin as [<-|[]]; reflexivity.

Section Catalogue.
Context {RT : Runtime}.

(** Every finding of a rule of the catalogue carries the name of the rule. *)
Lemma catalogue_findings_named (r : ValidationRule) (invoice : Invoice)
    (all_invoices : option (list Invoice)) (out : list ValidationError)
    (e : ValidationError) :
  In r ALL_RULES -> validate r invoice all_invoices = Ok out -> In e out ->
  rule e = name r.
Proof.
  unfold ALL_RULES. intros Hr.
  repeat (destruct Hr as [<-|Hr]); [| | | | | | | | destruct Hr];
    cbn [validate name RequiredFieldRule DateFormatRule CurrencyValidationRule
           DueDateRule TotalsMatchRule LineItemsTotalRule NegativeAmountsRule
           DuplicateInvoiceRule].
  - unfold RequiredFieldRule_validate. intros Heq Hin.
    apply Ok_inj in Heq. subst out.
    apply in_flat_map in Hin as (f & _ & Hin).
    destruct (is_missing _); [|destruct Hin]. now destruct Hin as [<-|[]].
  - unfold DateFormatRule_validate. intros Heq Hin.
    apply Ok_inj in Heq. subst out.
    apply in_app_iff in Hin as [Hin|Hin].
    + destruct (invoice_date invoice) as [[|c d]|]; try destruct Hin.
      destruct (_is_valid_date _); [destruct Hin|]. now destruct Hin as [<-|[]].
    + destruct (due_date invoice) as [[|c d]|]; try destruct Hin.
      destruct (_is_valid_date _); [destruct Hin|]. now destruct Hin as [<-|[]].
  - unfold CurrencyValidationRule_validate.
    destruct (currency invoice) as [[|c d]|]; [no_finding| |no_finding].
    destruct (negb _); [one_finding | no_finding].
  - unfold DueDateRule_validate.
    destruct (invoice_date invoice) as [[|a d1]|], (due_date invoice) as [[|b d2]|];
      try no_finding.
    destruct (fromisoformat (a :: d1)) as [t1|x1]; cbn [mbind res_bind try_except];
      [|no_finding].
    destruct (fromisoformat (b :: d2)) as [t2|x2]; cbn [mbind res_bind try_except];
      [|no_finding].
    destruct (dt_lt t2 t1) as [[|]|x]; cbn [mbind res_bind try_except];
      [one_finding | no_finding | no_finding].
  - unfold TotalsMatchRule_validate.
    destruct (net_total invoice), (tax_amount invoice), (gross_total invoice);
      try no_finding.
    destruct (float_gt _ _); [one_finding | no_finding].
  - unfold LineItemsTotalRule_validate.
    destruct (net_total invoice), (line_items invoice); try no_finding.
    destruct (float_gt _ 0); [|no_finding].
    destruct (float_gt _ _); [one_finding | no_finding].
  - unfold NegativeAmountsRule_validate. intros Heq Hin.
    apply Ok_inj in Heq. subst out.
    apply in_flat_map in Hin as (f & _ & Hin).
    destruct (getattr invoice f); try destruct Hin.
    destruct (float_lt _ _); [|destruct Hin]. now destruct Hin as [<-|[]].
  - unfold DuplicateInvoiceRule_validate.
    destruct all_invoices as [[|x batch]|]; try no_finding.
    destruct (negb _); [no_finding|].
    destruct (List.filter _ _); [no_finding|].
    destruct (join_opt _ _); cbn [mbind res_bind]; [one_finding | discriminate].
Qed.

End Catalogue.

(** X10. The eight rules of the catalogue have eight different names, none
    with a colon in it, and every finding of a rule carries the name of the
    rule.  So the key under which the summary counts a finding of the
    catalogue starts with the name of its rule up to the first colon, and two
    findings counted under one key come from the same rule. *)
Theorem summary_key_names_rule {RT : Runtime}
    (r : ValidationRule) (invoice : Invoice) (all_invoices : option (list Invoice))
    (out : list ValidationError) (e : ValidationError) :
  In r ALL_RULES -> validate r invoice all_invoices = Ok out -> In e out ->
  List.NoDup (map name ALL_RULES)
  /\ rule e = name r
  /\ before_first 58 (count_key e) = name r
  /\ (forall r' invoice' all_invoices' out' e',
        In r' ALL_RULES -> validate r' invoice' all_invoices' = Ok out' -> In e' out' ->
        count_key e' = count_key e -> name r' = name r).
Proof.
  intros Hr Hrun Hin.
  assert (Hcolon : forall r0, In r0 ALL_RULES -> ~ In 58 (name r0)).
  { unfold ALL_RULES. intros r0 H0.
    repeat (destruct H0 as [<-|H0]); [| | | | | | | | destruct H0];
      cbn; intros H; repeat (destruct H as [H|H]; [discriminate H|]); exact H. }
  assert (Hkey : forall r0 invoice0 all0 out0 e0,
             In r0 ALL_RULES -> validate r0 invoice0 all0 = Ok out0 -> In e0 out0 ->
             before_first 58 (count_key e0) = name r0).
  { intros r0 invoice0 all0 out0 e0 H0 Hrun0 Hin0.
    unfold count_key. rewrite (catalogue_findings_named r0 _ _ _ _ H0 Hrun0 Hin0).
    change (lit ": " ++ before_first 46 (message e0))
      with (58 :: 32 :: before_first 46 (message e0)).
    apply before_first_app, Hcolon, H0. }
  split; [|split; [|split]].
  - unfold ALL_RULES. cbn.
    repeat (apply List.NoDup_cons;
            [cbn; intros H; repeat (destruct H as [H|H]; [discriminate H|]); exact H|]).
    apply List.NoDup_nil.
  - eapply catalogue_findings_named; eauto.
  - eapply Hkey; eauto.
  - intros r' invoice' all' out' e' Hr' Hrun' Hin' Heq.
    rewrite <- (Hkey r' invoice' all' out' e' Hr' Hrun' Hin'), Heq. eapply Hkey; eauto.
Qed.

Lemma summary_key_names_rule_witness :
  before_first 58 (count_key (missing_field_error (lit "invoice_number")))
  = lit "required_fields".
Proof.
  exact (proj1 (proj2 (proj2
    (@summary_key_names_rule ascii_runtime RequiredFieldRule invoice_without_number None
       [missing_field_error (lit "invoice_number")]
       (missing_field_error (lit "invoice_number"))
       (or_introl eq_refl) eq_refl (or_introl eq_refl))))).
Defined.

(** ** Strings: [strip] *)

Lemma lstrip_head (s : str) :
  match lstrip s with c :: _ => isspace c = false | [] => True end.
Proof.
  induction s as [|c s IH]; cbn [lstrip]; [exact I|].
  destruct (isspace c) eqn:E; [exact IH | exact E].
Qed.

Lemma lstrip_fix (s : str) :
  match s with c :: _ => isspace c = false | [] => True end -> lstrip s = s.
Proof. destruct s as [|c s]; cbn [lstrip]; [reflexivity|]. now intros ->. Qed.

Lemma lstrip_suffix (s : str) : exists p, s = p ++ lstrip s.
Proof.
  induction s as [|c s [p IH]]; cbn [lstrip]; [now exists []|].
  destruct (isspace c); [|now exists []].
  exists (c :: p). cbn. now f_equal.
Qed.

Lemma lstrip_lstrip (s : str) : lstrip (lstrip s) = lstrip s.
Proof. apply lstrip_fix, lstrip_head. Qed.

(** Stripping a stripped text changes nothing. *)
Lemma strip_strip (s : str) : strip (strip s) = strip s.
Proof.
  unfold strip, rstrip.
  set (u := lstrip s).
  assert (Hv : lstrip (rev (lstrip (rev u))) = rev (lstrip (rev u))).
  { apply lstrip_fix.
    destruct (lstrip_suffix (rev u)) as [p Hp].
    apply (f_equal (@rev char)) in Hp. rewrite rev_involutive, rev_app_distr in Hp.
    destruct (rev (lstrip (rev u))) as [|c v]; [exact I|].
    pose proof (lstrip_head s) as Hh. fold u in Hh. rewrite Hp in Hh. exact Hh. }
  rewrite Hv, rev_involutive, lstrip_lstrip. reflexivity.
Qed.

(** ** extractor.py: what the extracted line items have in common *)

Lemma read_description_stripped (cells : list (option str)) (d0 : option str)
    (d : str) :
  (forall x, d0 = Some x -> strip x = x) ->
  read_description cells d0 = Some d -> strip d = d.
Proof.
  revert d0. unfold read_description.
  induction cells as [|c cells IH]; intros d0 H0; cbn [fold_left].
  - apply H0.
  - destruct c as [[|a t]|]; try (apply IH; exact H0).
    apply IH. intros x [= <-]. apply strip_strip.
Qed.

Section LineItemFacts.
Context {RT : Runtime}.

Lemma kept_items_described (header : list str) (row : list (option str))
    (item : LineItem) :
  In item (kept_items header row) ->
  exists d, description item = Some d /\ d <> [] /\ strip d = d.
Proof.
  destruct (add_row_spec header [] row) as (item' & _ & Hd & Hk & _).
  rewrite Hk. destruct (truthy (description item')) eqn:Ht; [|intros []].
  intros [<-|[]]. destruct (description item') as [[|c d]|] eqn:E; try discriminate.
  exists (c :: d). split; [reflexivity|]. split; [discriminate|].
  symmetry in Hd. eapply read_description_stripped; [|exact Hd]. discriminate.
Qed.

Lemma kept_items_length (header : list str) (row : list (option str)) :
  (length (kept_items header row) <= 1)%nat.
Proof.
  destruct (add_row_spec header [] row) as (item' & _ & _ & -> & _).
  destruct (truthy _); cbn; lia.
Qed.

Lemma data_rows_length (header : list str) (data : list (list (option str))) :
  (length (flat_map (kept_items header) data) <= length data)%nat.
Proof.
  induction data as [|r data IH]; cbn [flat_map length]; [lia|].
  rewrite length_app. pose proof (kept_items_length header r). lia.
Qed.

Lemma table_items_length (table : list (list (option str))) :
  (length (table_items table) <= length table - 1)%nat.
Proof.
  unfold table_items. destruct table as [|first_row [|row rows]]; [cbn; lia..|].
  destruct (has_description _ && _); [|cbn; lia].
  pose proof (data_rows_length (header_of first_row) (row :: rows)) as H.
  cbn [length] in H |- *. lia.
Qed.

End LineItemFacts.

(** X11. Every line item that table extraction returns has a description
    that is not empty and that [strip()] leaves as it is; and there are
    at most as many line items as the tables have rows below their header
    rows. *)
Theorem extracted_line_items_are_described {RT : Runtime}
    (tables : list (list (list (option str)))) (text : str) (items : list LineItem) :
  _extract_line_items tables text = Ok items ->
  (forall item, In item items ->
     exists d, description item = Some d /\ d <> [] /\ strip d = d)
  /\ (length items <= list_sum (map (fun table => length table - 1) tables))%nat.
Proof.
  rewrite extract_line_items_spec. intros H. apply Ok_inj in H. subst items. split.
  - intros item Hin. apply in_flat_map in Hin as (table & _ & Hin).
    unfold table_items in Hin.
    destruct table as [|first_row [|row rows]]; try destruct Hin.
    destruct (has_description _ && _); [|destruct Hin].
    apply in_flat_map in Hin as (r & _ & Hin).
    eapply kept_items_described, Hin.
  - unfold list_sum.
    induction tables as [|table tables IH]; cbn [flat_map map fold_right length]; [lia|].
    rewrite length_app. pose proof (table_items_length table). lia.
Qed.

Lemma extracted_line_items_are_described_witness :
  forall_items_described (@table_items ascii_runtime sample_table).
Proof.
  unfold forall_items_described.
  exact (proj1 (@extracted_line_items_are_described ascii_runtime [sample_table] []
                  (@table_items ascii_runtime sample_table) eq_refl)).
Defined.

(** X12. Table extraction never raises and does not look at the text.  The
    line items of a list of tables are those of its tables put end to end, so
    the tables of two pages give the items of the first page followed by those
    of the second; a table with fewer than two rows gives none. *)
Theorem extract_line_items_concatenates {RT : Runtime}
    (tables1 tables2 : list (list (list (option str)))) (text text1 text2 : str) :
  exists items1 items2,
    _extract_line_items tables1 text1 = Ok items1
    /\ _extract_line_items tables2 text2 = Ok items2
    /\ _extract_line_items (tables1 ++ tables2) text = Ok (items1 ++ items2)
    /\ (forall table, (length table < 2)%nat ->
                      _extract_line_items [table] text = Ok []).
Proof.
  exists (flat_map table_items tables1), (flat_map table_items tables2).
  rewrite !extract_line_items_spec, flat_map_app. repeat split.
  intros table Hlen. unfold table_items.
  destruct table as [|first_row [|row rows]]; cbn in Hlen |- *; try reflexivity. lia.
Qed.

(** ** extractor.py: a normalised date is normalised to itself *)

Lemma bind_all_nil {A B} (k : A -> list B) (l : list A) :
  Forall (fun x => k x = []) l -> l ≫= k = [].
Proof.
  induction 1 as [|x l Hx _ IH]; [reflexivity|].
  now rewrite bind_cons, Hx, IH.
Qed.

Section DateRoundTrip.
Context {RT : Runtime}.

Lemma strptime_no_match (data_string format : str) :
  match_items (parse_format false format) no_fields data_string = [] ->
  strptime data_string format = Raise ValueError.
Proof. unfold strptime. now intros ->. Qed.

(** When the start of a format matches nothing, the format matches nothing. *)
Lemma no_match_start (its1 its2 : list fmt_item) (f : fields) (s : str) :
  match_items its1 f s = [] -> match_items (its1 ++ its2) f s = [].
Proof. intros H. now rewrite match_items_app, H. Qed.

(** When the start of a format always leaves [rest] and the end of the format
    does not match [rest], the format matches nothing. *)
Lemma no_match_after (its1 its2 : list fmt_item) (f : fields) (s rest : str) :
  Forall (fun r => snd r = rest) (match_items its1 f s) ->
  (forall f', match_items its2 f' rest = []) ->
  match_items (its1 ++ its2) f s = [].
Proof.
  intros Hleft Hnone. rewrite match_items_app. apply bind_all_nil.
  eapply Forall_impl; [exact Hleft|].
  intros [f' s'] Hs. cbn [snd] in Hs. subst s'. apply Hnone.
Qed.

(** *** From the year 1000 on *)

(** A text that starts with three digits matches neither [%d/%m/%Y] nor
    [%m/%d/%Y]. *)
Lemma slash_formats_reject (a b c : char) (s fmt : str) :
  is_ascii_digit a = true -> is_ascii_digit b = true -> is_ascii_digit c = true ->
  fmt = lit "%d/%m/%Y" \/ fmt = lit "%m/%d/%Y" ->
  strptime (a :: b :: c :: s) fmt = Raise ValueError.
Proof.
  intros Ha Hb Hc Hf. apply digit_cases in Ha, Hb, Hc. cbn [In] in Ha, Hb, Hc.
  apply strptime_no_match.
  destruct Hf as [-> | ->]; each_case; vm_compute; reflexivity.
Qed.

Lemma after_year_matches (f : fields) (m d : N) :
  1 <= m <= 12 -> 1 <= d <= 31 ->
  hd_error (match_items after_year f (45 :: zero_pad 2 m ++ 45 :: zero_pad 2 d))
  = Some (set_day d (set_month m f), []).
Proof.
  intros Hm Hd.
  assert (Hm' : In m [1; 2; 3; 4; 5; 6; 7; 8; 9; 10; 11; 12]) by (cbn [In]; lia).
  assert (Hd' : In d [1; 2; 3; 4; 5; 6; 7; 8; 9; 10; 11; 12; 13; 14; 15; 16; 17; 18;
                      19; 20; 21; 22; 23; 24; 25; 26; 27; 28; 29; 30; 31])
    by (cbn [In]; lia).
  clear Hm Hd. cbn [In] in Hm', Hd'. each_case; vm_compute; reflexivity.
Qed.

Lemma strptime_strftime (dt : date) :
  valid_date (year dt) (month dt) (day dt) = true -> 1000 <= year dt ->
  strptime (strftime_ymd dt) (lit "%d/%m/%Y") = Raise ValueError
  /\ strptime (strftime_ymd dt) (lit "%m/%d/%Y") = Raise ValueError
  /\ strptime (strftime_ymd dt) (lit "%Y-%m-%d") = Ok dt.
Proof.
  destruct dt as [y m d]. cbn [year month day]. intros Hv Hbig.
  destruct (valid_date_bounds y m d Hv) as (Hy & Hm & Hd).
  destruct (year_four_digits y) as (a & b & c & e & Hz & Ha & Hb & Hc & He & Hval);
    [lia|].
  unfold strftime_ymd. cbn [year month day]. rewrite Hz.
  change ([a; b; c; e] ++ lit "-" ++ zero_pad 2 m ++ lit "-" ++ zero_pad 2 d)
    with (a :: b :: c :: e :: 45 :: zero_pad 2 m ++ 45 :: zero_pad 2 d).
  split; [apply slash_formats_reject; auto|].
  split; [apply slash_formats_reject; auto|].
  unfold strptime.
  change (parse_format false (lit "%Y-%m-%d")) with (FDir 89 :: after_year).
  cbn [match_items match_item N.eqb Pos.eqb].
  rewrite match_Y_digits by assumption. rewrite <- Hval.
  cbn [mbind list_bind List.app]. rewrite app_nil_r.
  pose proof (after_year_matches (set_year y no_fields) m d Hm Hd) as Hhd.
  destruct (match_items after_year _ _) as [|[f rest] others]; [discriminate|].
  cbn [hd_error] in Hhd. injection Hhd as -> ->.
  cbn [f_year f_month_no f_day set_day set_month set_year no_fields default].
  unfold id. now rewrite Hv.
Qed.

(** *** Before the year 1000 *)

(** One, two or three digits and a hyphen: no format but [%d-%m-%Y] gets
    past its first separator, and [%Y] does not find four digits. *)
Lemma short_year_start_1 (a : char) (its : list fmt_item) (f : fields) (rest : str) :
  is_ascii_digit a = true -> In its format_starts ->
  match_items its f (a :: 45 :: rest) = [].
Proof.
  intros Ha Hits. apply digit_cases in Ha. cbn [In format_starts] in Ha, Hits.
  each_case; vm_compute; reflexivity.
Qed.

Lemma short_year_start_2 (a b : char) (its : list fmt_item) (f : fields) (rest : str) :
  is_ascii_digit a = true -> is_ascii_digit b = true -> In its format_starts ->
  match_items its f (a :: b :: 45 :: rest) = [].
Proof.
  intros Ha Hb Hits. apply digit_cases in Ha, Hb. cbn [In format_starts] in Ha, Hb, Hits.
  each_case; vm_compute; reflexivity.
Qed.

Lemma short_year_start_3 (a b c : char) (its : list fmt_item) (f : fields) (rest : str) :
  is_ascii_digit a = true -> is_ascii_digit b = true -> is_ascii_digit c = true ->
  In its ([FDir 100; FLit 45] :: format_starts) ->
  match_items its f (a :: b :: c :: 45 :: rest) = [].
Proof.
  intros Ha Hb Hc Hits. apply digit_cases in Ha, Hb, Hc.
  cbn [In format_starts] in Ha, Hb, Hc, Hits.
  each_case; vm_compute; reflexivity.
Qed.

(** [%d-] on one or two digits and a hyphen leaves what follows the hyphen,
    if it matches at all; so does [%m-]. *)
Lemma day_hyphen_1 (a : char) (f : fields) (rest : str) :
  is_ascii_digit a = true ->
  Forall (fun r => snd r = rest) (match_items [FDir 100; FLit 45] f (a :: 45 :: rest)).
Proof.
  intros Ha. apply digit_cases in Ha. cbn [In] in Ha.
  each_case; vm_compute; repeat constructor.
Qed.

Lemma day_hyphen_2 (a b : char) (f : fields) (rest : str) :
  is_ascii_digit a = true -> is_ascii_digit b = true ->
  Forall (fun r => snd r = rest)
         (match_items [FDir 100; FLit 45] f (a :: b :: 45 :: rest)).
Proof.
  intros Ha Hb. apply digit_cases in Ha, Hb. cbn [In] in Ha, Hb.
  each_case; vm_compute; repeat constructor.
Qed.

Lemma month_hyphen_2 (a b : char) (f : fields) (rest : str) :
  is_ascii_digit a = true -> is_ascii_digit b = true ->
  Forall (fun r => snd r = rest)
         (match_items [FDir 109; FLit 45] f (a :: b :: 45 :: rest)).
Proof.
  intros Ha Hb. apply digit_cases in Ha, Hb. cbn [In] in Ha, Hb.
  each_case; vm_compute; repeat constructor.
Qed.

(** [%Y] wants four digits. *)
Lemma year_of_two (f : fields) (a b : char) : match_items [FDir 89] f [a; b] = [].
Proof.
  cbn [match_items match_item N.eqb Pos.eqb]. unfold match_Y, any_digit.
  destruct (digit_value a); [|reflexivity]. cbn [mbind list_bind List.app].
  destruct (digit_value b); reflexivity.
Qed.

(** [%d-%m-%Y] on a year of one or two digits, a month and a day. *)
Lemma dashed_format_rejects (y : str) (m1 m2 d1 d2 : char) (f : fields) :
  (exists a, y = [a] /\ is_ascii_digit a = true)
  \/ (exists a b, y = [a; b] /\ is_ascii_digit a = true /\ is_ascii_digit b = true) ->
  is_ascii_digit m1 = true -> is_ascii_digit m2 = true ->
  match_items ([FDir 100; FLit 45] ++ [FDir 109; FLit 45] ++ [FDir 89]) f
              (y ++ 45 :: m1 :: m2 :: 45 :: [d1; d2])
  = [].
Proof.
  intros Hy Hm1 Hm2.
  apply (no_match_after _ _ _ _ (m1 :: m2 :: 45 :: [d1; d2])).
  - destruct Hy as [(a & -> & Ha)|(a & b & -> & Ha & Hb)].
    + now apply day_hyphen_1.
    + now apply day_hyphen_2.
  - intros f'. apply (no_match_after _ _ _ _ [d1; d2]).
    + now apply month_hyphen_2.
    + intros f''. apply year_of_two.
Qed.

Lemma small_year_unparsed (dt : date) (fmt : str) :
  valid_date (year dt) (month dt) (day dt) = true -> year dt < 1000 ->
  In fmt date_formats ->
  strptime (strftime_ymd dt) fmt = Raise ValueError.
Proof.
  intros Hv Hsmall Hfmt. apply strptime_no_match.
  destruct (strftime_ymd_parts dt Hv)
    as (yyyy & mm & dd & -> & (Hdigits & _ & Hne & _) & Hm & Hd & _ & Hlen).
  specialize (Hlen Hsmall).
  destruct Hm as (m1 & m2 & -> & Hm1 & Hm2 & _).
  destruct Hd as (d1 & d2 & -> & _).
  generalize no_fields. intros f.
  destruct yyyy as [|a [|b [|c [|x yyyy]]]]; cbn [length] in Hlen; try lia;
    [now destruct Hne| | |];
    cbn [forallb] in Hdigits; rewrite !andb_true_iff in Hdigits.
  - destruct Hdigits as (Ha & _).
    change ([a] ++ lit "-" ++ [m1; m2] ++ lit "-" ++ [d1; d2])
      with (a :: 45 :: m1 :: m2 :: 45 :: [d1; d2]).
    cbn [In date_formats] in Hfmt.
    destruct Hfmt as [<-|[<-|[<-|[<-|[<-|[<-|[<-|[]]]]]]]].
    + apply (no_match_start [FDir 100; FLit 47] [FDir 109; FLit 47; FDir 89]).
      apply short_year_start_1; [exact Ha | cbn; auto 10].
    + apply (no_match_start [FDir 109; FLit 47] [FDir 100; FLit 47; FDir 89]).
      apply short_year_start_1; [exact Ha | cbn; auto 10].
    + apply (no_match_start [FDir 89] [FLit 45; FDir 109; FLit 45; FDir 100]).
      apply short_year_start_1; [exact Ha | cbn; auto 10].
    + apply (dashed_format_rejects [a]); eauto.
    + apply (no_match_start [FDir 100; FLit 46] [FDir 109; FLit 46; FDir 89]).
      apply short_year_start_1; [exact Ha | cbn; auto 10].
    + apply (no_match_start [FDir 100; FSpace] [FDir 66; FSpace; FDir 89]).
      apply short_year_start_1; [exact Ha | cbn; auto 10].
    + apply (no_match_start [FDir 100; FSpace] [FDir 98; FSpace; FDir 89]).
      apply short_year_start_1; [exact Ha | cbn; auto 10].
  - destruct Hdigits as (Ha & Hb & _).
    change ([a; b] ++ lit "-" ++ [m1; m2] ++ lit "-" ++ [d1; d2])
      with (a :: b :: 45 :: m1 :: m2 :: 45 :: [d1; d2]).
    cbn [In date_formats] in Hfmt.
    destruct Hfmt as [<-|[<-|[<-|[<-|[<-|[<-|[<-|[]]]]]]]].
    + apply (no_match_start [FDir 100; FLit 47] [FDir 109; FLit 47; FDir 89]).
      apply short_year_start_2; [exact Ha | exact Hb | cbn; auto 10].
    + apply (no_match_start [FDir 109; FLit 47] [FDir 100; FLit 47; FDir 89]).
      apply short_year_start_2; [exact Ha | exact Hb | cbn; auto 10].
    + apply (no_match_start [FDir 89] [FLit 45; FDir 109; FLit 45; FDir 100]).
      apply short_year_start_2; [exact Ha | exact Hb | cbn; auto 10].
    + apply (dashed_format_rejects [a; b]); eauto 10.
    + apply (no_match_start [FDir 100; FLit 46] [FDir 109; FLit 46; FDir 89]).
      apply short_year_start_2; [exact Ha | exact Hb | cbn; auto 10].
    + apply (no_match_start [FDir 100; FSpace] [FDir 66; FSpace; FDir 89]).
      apply short_year_start_2; [exact Ha | exact Hb | cbn; auto 10].
    + apply (no_match_start [FDir 100; FSpace] [FDir 98; FSpace; FDir 89]).
      apply short_year_start_2; [exact Ha | exact Hb | cbn; auto 10].
  - destruct Hdigits as (Ha & Hb & Hc & _).
    change ([a; b; c] ++ lit "-" ++ [m1; m2] ++ lit "-" ++ [d1; d2])
      with (a :: b :: c :: 45 :: m1 :: m2 :: 45 :: [d1; d2]).
    cbn [In date_formats] in Hfmt.
    destruct Hfmt as [<-|[<-|[<-|[<-|[<-|[<-|[<-|[]]]]]]]].
    + apply (no_match_start [FDir 100; FLit 47] [FDir 109; FLit 47; FDir 89]).
      apply short_year_start_3; [exact Ha | exact Hb | exact Hc | cbn; auto 10].
    + apply (no_match_start [FDir 109; FLit 47] [FDir 100; FLit 47; FDir 89]).
      apply short_year_start_3; [exact Ha | exact Hb | exact Hc | cbn; auto 10].
    + apply (no_match_start [FDir 89] [FLit 45; FDir 109; FLit 45; FDir 100]).
      apply short_year_start_3; [exact Ha | exact Hb | exact Hc | cbn; auto 10].
    + apply (no_match_start [FDir 100; FLit 45] [FDir 109; FLit 45; FDir 89]).
      apply short_year_start_3; [exact Ha | exact Hb | exact Hc | cbn; auto 10].
    + apply (no_match_start [FDir 100; FLit 46] [FDir 109; FLit 46; FDir 89]).
      apply short_year_start_3; [exact Ha | exact Hb | exact Hc | cbn; auto 10].
    + apply (no_match_start [FDir 100; FSpace] [FDir 66; FSpace; FDir 89]).
      apply short_year_start_3; [exact Ha | exact Hb | exact Hc | cbn; auto 10].
    + apply (no_match_start [FDir 100; FSpace] [FDir 98; FSpace; FDir 89]).
      apply short_year_start_3; [exact Ha | exact Hb | exact Hc | cbn; auto 10].
Qed.

(** *** Both *)

Lemma strftime_ymd_stripped (dt : date) :
  valid_date (year dt) (month dt) (day dt) = true ->
  strip (strftime_ymd dt) = strftime_ymd dt.
Proof.
  intros Hv.
  destruct (strftime_ymd_parts dt Hv)
    as (yyyy & mm & dd & -> & (Hdigits & _ & Hne & _) & Hm & Hd & _).
  destruct Hm as (m1 & m2 & -> & _).
  destruct Hd as (d1 & d2 & -> & _ & Hd2 & _).
  destruct yyyy as [|a yyyy]; [now destruct Hne|].
  cbn [forallb] in Hdigits. apply andb_true_iff in Hdigits as [Ha _].
  replace ((a :: yyyy) ++ lit "-" ++ [m1; m2] ++ lit "-" ++ [d1; d2])
    with (a :: (yyyy ++ [45; m1; m2; 45; d1]) ++ [d2])
    by (cbn [List.app]; now rewrite <- app_assoc).
  now apply strip_digits.
Qed.

Lemma normalize_date_loop_cases (date_str : str) (formats : list str) (out : str) :
  _normalize_date_loop date_str formats = Ok out ->
  out = date_str
  \/ exists fmt dt, In fmt formats /\ strptime (strip date_str) fmt = Ok dt
                    /\ out = strftime_ymd dt.
Proof.
  induction formats as [|fmt formats IH]; cbn [_normalize_date_loop].
  - intros H. apply Ok_inj in H. now left.
  - destruct (strptime (strip date_str) fmt) as [dt|e] eqn:E;
      cbn [mbind res_bind try_except].
    + intros H. apply Ok_inj in H. right. exists fmt, dt. split; [now left|]. auto.
    + intros H. destruct (IH H) as [?|(f & dt & Hin & Hp & Ho)]; [now left|].
      right. exists f, dt. split; [now right|]. auto.
Qed.

Lemma normalize_ymd_fixed (dt : date) :
  valid_date (year dt) (month dt) (day dt) = true ->
  _normalize_date (strftime_ymd dt) = Ok (strftime_ymd dt).
Proof.
  intros Hv. unfold _normalize_date.
  destruct (N.lt_ge_cases (year dt) 1000) as [Hsmall|Hbig].
  - apply normalize_date_loop_none. rewrite (strftime_ymd_stripped dt Hv).
    intros f Hf. exists ValueError. now apply small_year_unparsed.
  - destruct (strptime_strftime dt Hv Hbig) as (H1 & H2 & H3).
    change date_formats
      with ([lit "%d/%m/%Y"; lit "%m/%d/%Y"]
            ++ lit "%Y-%m-%d" :: [lit "%d-%m-%Y"; lit "%d.%m.%Y";
                                  lit "%d %B %Y"; lit "%d %b %Y"]).
    apply normalize_date_loop_first; rewrite (strftime_ymd_stripped dt Hv).
    + intros f [<-|[<-|[]]]; eauto.
    + exact H3.
Qed.

End DateRoundTrip.

(** X13. Date normalisation is idempotent: what it returns, it returns
    unchanged when given it again.  The text it returns is either the text it
    was given or the rendering of a date of the calendar, which is its own
    [strip()].  From the year 1000 on the rendering matches neither
    [%d/%m/%Y] nor [%m/%d/%Y] and is read back by [%Y-%m-%d] as the same
    date.  Before the year 1000 the year is written on fewer than four digits
    and the rendering matches none of the seven formats, so that it is
    returned as it is. *)
Theorem normalize_date_idempotent {RT : Runtime} (date_str out : str) :
  _normalize_date date_str = Ok out ->
  _normalize_date out = Ok out
  /\ (out = date_str
      \/ exists dt, valid_date (year dt) (month dt) (day dt) = true
                    /\ out = strftime_ymd dt
                    /\ strip out = out
                    /\ (1000 <= year dt ->
                        strptime out (lit "%d/%m/%Y") = Raise ValueError
                        /\ strptime out (lit "%m/%d/%Y") = Raise ValueError
                        /\ strptime out (lit "%Y-%m-%d") = Ok dt)
                    /\ (year dt < 1000 ->
                        forall fmt, In fmt date_formats ->
                                    strptime out fmt = Raise ValueError)).
Proof.
  intros H. destruct (normalize_date_loop_cases _ _ _ H) as [->|(fmt & dt & _ & Hp & ->)].
  - split; [exact H | now left].
  - pose proof (strptime_valid _ _ _ Hp) as Hv.
    split; [now apply normalize_ymd_fixed|]. right. exists dt.
    split; [exact Hv|]. split; [reflexivity|].
    split; [now apply strftime_ymd_stripped|]. split.
    + now apply strptime_strftime.
    + intros Hsmall f Hf. now apply small_year_unparsed.
Qed.

Lemma normalize_date_idempotent_witness :
  @_normalize_date ascii_runtime (lit "2024-12-31") = Ok (lit "2024-12-31")
  /\ @_normalize_date ascii_runtime (lit "99-02-01") = Ok (lit "99-02-01").
Proof.
  split.
  - exact (proj1 (@normalize_date_idempotent ascii_runtime (lit "31/12/2024")
                    (lit "2024-12-31") eq_refl)).
  - exact (proj1 (@normalize_date_idempotent ascii_runtime (lit "01/02/0099")
                    (lit "99-02-01") eq_refl)).
Defined.

(** ** rules.py: duplicates are reported on both sides *)

Lemma is_duplicate_of_sym (a b : Invoice) :
  is_duplicate_of a b = true -> is_duplicate_of b a = true.
Proof. rewrite !is_duplicate_of_spec. intros (-> & -> & -> & H). auto. Qed.

Lemma is_duplicate_of_irrefl (a : Invoice) : is_duplicate_of a a = false.
Proof.
  destruct (is_duplicate_of a a) eqn:E; [|reflexivity].
  apply is_duplicate_of_spec in E. now destruct E as (_ & _ & _ & E).
Qed.

Lemma duplicate_rule_names_file (invoice inv : Invoice) (batch : list Invoice) (f : str) :
  (forall x, In x batch -> source_file x <> None) ->
  truthy (invoice_number invoice) = true ->
  In inv batch -> is_duplicate_of invoice inv = true -> source_file inv = Some f ->
  exists e, validate DuplicateInvoiceRule invoice (Some batch) = Ok [e]
            /\ contains f (message e) = true.
Proof.
  intros Hfiles Ht Hin Hdup Hf.
  cbn [validate DuplicateInvoiceRule]. unfold DuplicateInvoiceRule_validate.
  destruct batch as [|x batch]; [destruct Hin|]. rewrite Ht. cbn [negb].
  assert (Hd : In inv (List.filter (is_duplicate_of invoice) (x :: batch)))
    by (apply filter_In; auto).
  destruct (present_or_none
              (map source_file (List.filter (is_duplicate_of invoice) (x :: batch))))
    as [Hnone|[files Hsome]].
  { apply in_map_iff in Hnone as (y & Hy & Hyin).
    apply filter_In in Hyin as [Hyin _]. now destruct (Hfiles y Hyin). }
  assert (Hff : In f files).
  { assert (H : In (Some f) (map Some files)).
    { rewrite <- Hsome, <- Hf. now apply in_map. }
    apply in_map_iff in H as (g & [= ->] & Hg). exact Hg. }
  destruct (List.filter (is_duplicate_of invoice) (x :: batch)) as [|d ds];
    [destruct Hd|].
  rewrite Hsome, join_opt_present. cbn [mbind res_bind].
  eexists. split; [reflexivity|]. cbn [message]. unfold duplicate_message.
  destruct (join_names (lit ", ") files f Hff) as (before & rest & ->).
  rewrite !app_assoc. rewrite <- (app_assoc _ f rest). apply contains_app.
Qed.

(** X14. Being a duplicate is mutual, and no invoice is its own duplicate.
    So in a batch whose invoices all have a source file, when an invoice with
    a number has a duplicate, the rule reports one error on each of the two,
    and the message of each names the source file of the other. *)
Theorem duplicates_reported_on_both
    (a b : Invoice) (batch : list Invoice) (file_a file_b : str) :
  In a batch -> In b batch ->
  (forall inv, In inv batch -> source_file inv <> None) ->
  truthy (invoice_number a) = true ->
  is_duplicate_of a b = true ->
  source_file a = Some file_a -> source_file b = Some file_b ->
  is_duplicate_of b a = true
  /\ is_duplicate_of a a = false
  /\ exists error_a error_b,
       validate DuplicateInvoiceRule a (Some batch) = Ok [error_a]
       /\ validate DuplicateInvoiceRule b (Some batch) = Ok [error_b]
       /\ contains file_b (message error_a) = true
       /\ contains file_a (message error_b) = true.
Proof.
  intros Ha Hb Hfiles Ht Hdup Hfa Hfb.
  pose proof (is_duplicate_of_sym a b Hdup) as Hsym.
  split; [exact Hsym|]. split; [apply is_duplicate_of_irrefl|].
  assert (Htb : truthy (invoice_number b) = true).
  { apply is_duplicate_of_spec in Hdup as (-> & _). exact Ht. }
  destruct (duplicate_rule_names_file a b batch file_b Hfiles Ht Hb Hdup Hfb)
    as (ea & Hea & Hca).
  destruct (duplicate_rule_names_file b a batch file_a Hfiles Htb Ha Hsym Hfa)
    as (eb & Heb & Hcb).
  exists ea, eb. auto.
Qed.

Lemma duplicates_reported_on_both_witness :
  exists error_a error_b,
    validate DuplicateInvoiceRule inv_a (Some [inv_a; inv_b]) = Ok [error_a]
    /\ validate DuplicateInvoiceRule inv_b (Some [inv_a; inv_b]) = Ok [error_b]
    /\ contains (lit "b.pdf") (message error_a) = true
    /\ contains (lit "a.pdf") (message error_b) = true.
Proof.
  refine (proj2 (proj2 (duplicates_reported_on_both inv_a inv_b [inv_a; inv_b]
                          (lit "a.pdf") (lit "b.pdf") _ _ _ eq_refl eq_refl
                          eq_refl eq_refl))).
  - now left.
  - right. now left.
  - intros inv [<-|[<-|[]]]; discriminate.
Defined.

(** ** extractor.py: the fields of a line item come from columns of their kind *)

Lemma for_each_invariant {A S} (P : S -> Prop) (body : S -> A -> res S)
    (xs : list A) (s s' : S) :
  (forall s x s', P s -> body s x = Ok s' -> P s') ->
  P s -> for_each body xs s = Ok s' -> P s'.
Proof.
  intros Hbody. revert s. induction xs as [|x xs IH]; intros s Hs; cbn [for_each].
  - intros H. apply Ok_inj in H. now subst.
  - destruct (body s x) as [s1|e] eqn:E; cbn [mbind res_bind]; [|discriminate].
    apply IH. eapply Hbody; eauto.
Qed.

Lemma existsb_lookup {A} (f : A -> bool) (xs : list A) (i : nat) (x : A) :
  xs !! i = Some x -> f x = true -> existsb f xs = true.
Proof.
  intros Hx Hf. apply existsb_exists. exists x. split; [|exact Hf].
  apply list_elem_of_In. eapply list_elem_of_lookup_2, Hx.
Qed.

Section RowFacts.
Context {RT : Runtime}.

Lemma parse_cell_keeps_columns (header : list str) (item item' : LineItem)
    (entry : nat * option str) :
  fields_have_columns header item ->
  parse_cell header item entry = Ok item' ->
  fields_have_columns header item'.
Proof.
  intros Hinv. destruct entry as [idx cell]. unfold parse_cell.
  destruct cell as [[|c text]|]; try (intros H; apply Ok_inj in H; now subst).
  destruct (Nat.leb (length header) idx) eqn:Hlen;
    [intros H; apply Ok_inj in H; now subst|].
  apply Nat.leb_gt in Hlen. destruct (index_lt header idx Hlen) as (col & Hcol & ->).
  cbn [mbind res_bind].
  destruct Hinv as (Hd & Hq & Hu & Ht).
  destruct (is_description_col col) eqn:Ed.
  { intros H. apply Ok_inj in H. subst item'. unfold fields_have_columns.
    cbn [description quantity unit_price line_total with_description].
    repeat split; auto. intros _. exact (existsb_lookup _ _ _ _ Hcol Ed). }
  destruct (is_quantity_col col) eqn:Eq.
  { destruct (py_float _) as [q|e]; cbn [mbind res_bind try_except];
      intros H; apply Ok_inj in H; subst item'; [|repeat split; auto].
    unfold fields_have_columns.
    cbn [description quantity unit_price line_total with_quantity].
    repeat split; auto. intros _. exact (existsb_lookup _ _ _ _ Hcol Eq). }
  destruct (is_unit_price_col col) eqn:Eu.
  { destruct (_parse_amount _) as [p|e]; cbn [mbind res_bind try_except];
      intros H; apply Ok_inj in H; subst item'; [|repeat split; auto].
    unfold fields_have_columns.
    cbn [description quantity unit_price line_total with_unit_price].
    repeat split; auto. intros _. exact (existsb_lookup _ _ _ _ Hcol Eu). }
  destruct (is_total_col col) eqn:Et.
  { destruct (_parse_amount _) as [t|e]; cbn [mbind res_bind try_except];
      intros H; apply Ok_inj in H; subst item'; [|repeat split; auto].
    unfold fields_have_columns.
    cbn [description quantity unit_price line_total with_line_total].
    repeat split; auto. intros _. exact (existsb_lookup _ _ _ _ Hcol Et). }
  intros H. apply Ok_inj in H. subst item'. repeat split; auto.
Qed.

End RowFacts.

(** X15. A field of a parsed row is set only when the header has a column of
    its kind: no description without a column named after description, item
    or product, no quantity without one named after qty or quantity, no unit
    price without one named after both unit and price, no line total without
    one named after total or amount.  So a column that only passes the table
    test, such as one named rate, is never read. *)
Theorem line_item_fields_need_columns {RT : Runtime}
    (row : list (option str)) (header : list str) (item : LineItem) :
  _parse_line_item_row row header = Ok item ->
  (description item <> None -> has_description header = true)
  /\ (quantity item <> None -> existsb is_quantity_col header = true)
  /\ (unit_price item <> None -> existsb is_unit_price_col header = true)
  /\ (line_total item <> None -> existsb is_total_col header = true).
Proof.
  unfold _parse_line_item_row. intros H.
  apply (for_each_invariant (fields_have_columns header)) in H; [exact H| |].
  { intros s x s'. apply parse_cell_keeps_columns. }
  repeat split; intros Hne; now destruct Hne.
Qed.

Lemma line_item_fields_need_columns_witness :
  @_parse_line_item_row ascii_runtime row_with_description
     (@header_of ascii_runtime sample_header) = Ok widget_item
  /\ has_description (@header_of ascii_runtime sample_header) = true.
Proof.
  split; [reflexivity|].
  apply (proj1 (@line_item_fields_need_columns ascii_runtime row_with_description
                  (@header_of ascii_runtime sample_header) widget_item eq_refl)).
  discriminate.
Defined.

